(** * Peer negotiation and signaling orchestration of the P2P chat client

    A shallow embedding of the TypeScript client
    ([client/app/utils/storage.ts], [client/app/utils/signaling.ts],
    [client/app/utils/webrtc.ts] and the chat page that drives them) and
    the properties of its election, negotiation, reconnection and
    teardown logic.

    Conventions of the embedding.
    - The three singletons of the client (the [localStorage] of the page,
      the [signalingService] and the [webRTCService]) and the closure of
      the chat page form one [World]; every method is a computation in the
      monad [M], which threads the world, records the calls made on the
      outside (relay, transport primitive, UI callbacks, timers) in a
      trace of [Effect]s and may end in a JavaScript exception.
    - The browser primitives are external.  What they answer is an input:
      an [Env] gives the value of [Date.now()] and says whether each
      promise of the primitive resolves or rejects.  A call on a primitive
      is an [Effect]; only the fields the client reads back
      ([signalingState], [readyState]) are state.
    - A method that awaits runs to completion before the next event is
      taken from the queue. *)

From Stdlib Require Import ZArith QArith Lia.
From stdpp Require Import base option list strings gmap.

Close Scope Q_scope.

(** ** Data *)

Definition SDP := string.
Definition RTCIceCandidate := string.

(** [SignalMessage['type']] of signaling.ts, with the ['keep-alive'] that
    [sendKeepAlive] puts on the wire as well. *)
Inductive SignalType :=
| offer | answer | ice_candidate | initiator_selection
| end_session | room_full | keep_alive.

(** [content: any]: the payloads the client itself produces. *)
Inductive Content :=
| SessionDescription (sdp : SDP)
| IceCandidateInit (candidate : RTCIceCandidate)
| ElectionToken (randomValue : Q) (timestamp : Z)
| RoomFullNotice (message : string)
| EndSessionNotice (timestamp : Z) (message : string)
| KeepAlivePing (timestamp : Z).

Record SignalMessage := {
  type : SignalType;
  content : Content;
  roomId : string;
  senderId : string
}.

Record MessageEvent := {
  data : string;
  msg_senderId : string;
  isSelf : bool;
  msg_timestamp : Z
}.

(** storage.ts *)
Record SessionData := {
  session_roomId : string;
  session_userId : string;
  active : bool;
  startTime : Z
}.

Record RoomParticipants := {
  count : nat;
  users : list string;
  lastUpdated : Z
}.

(** The three families of keys of [localStorage]: ["p2pChat_session"],
    ["p2pChat_messages_" + roomId] and ["p2pChat_participants_" + roomId].
    Their prefixes differ, so the families never collide and each is a map
    of its own, keyed by the room id. *)
Record LocalStorage := {
  SESSION_KEY : option SessionData;
  MESSAGES_KEY : gmap string (list MessageEvent);
  PARTICIPANTS_KEY : gmap string RoomParticipants
}.

(** Which function sits in [signalingService.messageCallback]. *)
Inductive SignalMessageCallback :=
| ServiceHandler    (* webRTCService.handleSignalingMessage *)
| ChatHandler.      (* the closure registered by initializeChat *)

Record SignalingService := {
  stompClient : bool;                 (* false: null *)
  connected : bool;
  messageCallback : option SignalMessageCallback;
  sig_roomId : option string;
  sig_userId : option string
}.

Inductive RTCSignalingState :=
| stable | have_local_offer | have_remote_offer
| have_local_pranswer | have_remote_pranswer | signaling_closed.

Inductive RTCIceConnectionState :=
| ice_new | ice_checking | ice_connected | ice_completed
| ice_failed | ice_disconnected | ice_closed.

Inductive RTCDataChannelState :=
| dc_connecting | dc_open | dc_closing | dc_closed.

(** ['open' | 'closed' | 'connecting'] of [onChannelStatusChange]. *)
Inductive ChannelStatus := status_open | status_closed | status_connecting.

Record RTCPeerConnection := {
  pcId : nat;                         (* identity of the instance *)
  signalingState : RTCSignalingState
}.

Record RTCDataChannel := {
  readyState : RTCDataChannelState
}.

(** [callbacks: WebRTCCallbacks = {} as WebRTCCallbacks]: the object is
    always truthy, its methods exist only once [initialize] stored the
    caller's. *)
Inductive WebRTCCallbacks := EmptyCallbacks | PageCallbacks.

Record WebRTCService := {
  peerConnection : option RTCPeerConnection;
  dataChannel : option RTCDataChannel;
  svc_roomId : option string;
  nickname : option string;
  callbacks : WebRTCCallbacks;
  isInitiator : bool;
  storedMessages : list MessageEvent;
  isReconnecting : bool;
  reconnectAttempts : nat;
  isSessionActive : bool;
  pendingIceCandidates : list RTCIceCandidate;
  remoteDescriptionSet : bool
}.

Definition maxReconnectAttempts : nat := 5.
Definition reconnectionDelay : Z := 1000.

(** The variables the closures of [initializeChat] share: the
    [randomValue] argument, the local [actualInitiator], and
    [connectionStatus], the value of the React state in the render whose
    effect called [initializeChat] (a closure keeps the value of its own
    render). *)
Record ChatPage := {
  randomValue : Q;
  actualInitiator : bool;
  connectionStatus : ChannelStatus
}.

Inductive Timer :=
| FallbackTimer      (* setTimeout(..., 3000) of initializeChat *)
| ReconnectTimer     (* setTimeout(..., reconnectionDelay) of handleDisconnection *)
| KeepAliveInterval. (* setInterval(..., 30000) of connect *)

Record World := {
  storage : LocalStorage;
  signaling : SignalingService;
  service : WebRTCService;
  chat : ChatPage;
  timers : list Timer;                (* scheduled and neither fired nor cleared *)
  nextPcId : nat
}.

(** ** Effects, outcomes of the primitives, and the monad *)

Inductive Effect :=
| StompActivate
| StompSubscribe (room : option string)
| StompDeactivate
| Publish (m : SignalMessage)
| PcNew (pc : nat)
| PcClose (pc : nat)
| PcCreateDataChannel (pc : nat)
| PcCreateOffer (pc : nat)
| PcCreateAnswer (pc : nat)
| PcSetLocalDescription (pc : nat) (d : SDP)
| PcSetRemoteDescription (pc : nat) (d : SDP)
| PcAddIceCandidate (pc : nat) (c : RTCIceCandidate)
| DcSend (content : string) (sender : string) (timestamp : Z)
| DcClose
| OnMessageReceived (m : MessageEvent)
| OnConnectionStateChange
| OnChannelStatusChange (s : ChannelStatus)
| OnSessionEnded (endedByPeer : bool)
| OnRoomFull
| SetConnectionStatus (s : ChannelStatus)
| SetTimeout (t : Timer) (delay : Z).

Record Env := {
  now : Z;                            (* Date.now() *)
  connectOk : bool;                   (* onConnect rather than onStompError *)
  createOfferResult : option SDP;     (* None: the promise rejects *)
  createAnswerResult : option SDP;
  setLocalDescriptionOk : bool;
  setRemoteDescriptionOk : bool;
  addIceCandidateOk : bool;
  sendOk : bool                       (* dataChannel.send does not throw *)
}.

Inductive Exn :=
| TypeError                (* a call or a property read on null / undefined *)
| RejectedPromise          (* the transport primitive rejects *)
| ConnectError             (* new Error('STOMP connection error') *)
| MissingRoomOrNickname.   (* new Error('Cannot reconnect signaling: ...') *)

Inductive Completion (A : Type) :=
| Returned (a : A)
| Threw (e : Exn).
Arguments Returned {A} a.
Arguments Threw {A} e.

Definition M (A : Type) : Type := World → World * list Effect * Completion A.

#[global] Instance M_ret : MRet M := λ A a w, (w, [], Returned a).

#[global] Instance M_bind : MBind M := λ A B f m w,
  match m w with
  | (w1, t1, Returned a) =>
      match f a w1 with (w2, t2, r) => (w2, t1 ++ t2, r) end
  | (w1, t1, Threw e) => (w1, t1, Threw e)
  end.

Definition get : M World := λ w, (w, [], Returned w).
Definition modify (f : World → World) : M unit := λ w, (f w, [], Returned tt).
Definition emit (e : Effect) : M unit := λ w, (w, [e], Returned tt).
Definition throw {A} (e : Exn) : M A := λ w, (w, [], Threw e).

(** [try { body } catch (error) { handler }]: what the body did before it
    threw stays done. *)
Definition try_catch {A} (body : M A) (handler : Exn → M A) : M A := λ w,
  match body w with
  | (w1, t1, Returned a) => (w1, t1, Returned a)
  | (w1, t1, Threw e) =>
      match handler e w1 with (w2, t2, r) => (w2, t1 ++ t2, r) end
  end.

(** [console.log], [console.warn], [console.error]. *)
Definition log : M unit := mret tt.

Definition when (b : bool) (m : M unit) : M unit := if b then m else mret tt.

(** Truthiness of a [string | null]. *)
Definition truthy (s : option string) : bool :=
  match s with
  | Some s => negb (String.eqb s "")
  | None => false
  end.

Definition world_of {A} (r : World * list Effect * Completion A) : World := r.1.1.
Definition trace_of {A} (r : World * list Effect * Completion A) : list Effect := r.1.2.
Definition completion_of {A} (r : World * list Effect * Completion A) : Completion A := r.2.

(** Field updates. *)
Definition with_storage (f : LocalStorage → LocalStorage) (w : World) : World :=
  {| storage := f (storage w); signaling := signaling w; service := service w;
     chat := chat w; timers := timers w; nextPcId := nextPcId w |}.
Definition with_signaling (f : SignalingService → SignalingService) (w : World) : World :=
  {| storage := storage w; signaling := f (signaling w); service := service w;
     chat := chat w; timers := timers w; nextPcId := nextPcId w |}.
Definition with_service (f : WebRTCService → WebRTCService) (w : World) : World :=
  {| storage := storage w; signaling := signaling w; service := f (service w);
     chat := chat w; timers := timers w; nextPcId := nextPcId w |}.
Definition with_chat (f : ChatPage → ChatPage) (w : World) : World :=
  {| storage := storage w; signaling := signaling w; service := service w;
     chat := f (chat w); timers := timers w; nextPcId := nextPcId w |}.
Definition with_timers (f : list Timer → list Timer) (w : World) : World :=
  {| storage := storage w; signaling := signaling w; service := service w;
     chat := chat w; timers := f (timers w); nextPcId := nextPcId w |}.
Definition with_nextPcId (f : nat → nat) (w : World) : World :=
  {| storage := storage w; signaling := signaling w; service := service w;
     chat := chat w; timers := timers w; nextPcId := f (nextPcId w) |}.

#[global] Instance Timer_eq_dec : EqDecision Timer.
Proof. solve_decision. Defined.

(** [setTimeout] / [setInterval]: the timer is pending until it fires or
    is cleared. *)
Definition setTimeout (t : Timer) (delay : Z) : M unit :=
  modify (with_timers (λ ts, ts ++ [t])) ;; emit (SetTimeout t delay).

(** ** storage.ts *)
Module Storage.

Definition saveSession (roomId userId : string) (now : Z) (st : LocalStorage) : LocalStorage :=
  {| SESSION_KEY := Some {| session_roomId := roomId; session_userId := userId;
                            active := true; startTime := now |};
     MESSAGES_KEY := MESSAGES_KEY st; PARTICIPANTS_KEY := PARTICIPANTS_KEY st |}.

Definition getSession (st : LocalStorage) : option SessionData := SESSION_KEY st.

Definition clearSession (st : LocalStorage) : LocalStorage :=
  {| SESSION_KEY := None;
     MESSAGES_KEY := MESSAGES_KEY st; PARTICIPANTS_KEY := PARTICIPANTS_KEY st |}.

Definition saveMessages (roomId : string) (messages : list MessageEvent)
    (st : LocalStorage) : LocalStorage :=
  {| SESSION_KEY := SESSION_KEY st;
     MESSAGES_KEY := <[roomId := messages]> (MESSAGES_KEY st);
     PARTICIPANTS_KEY := PARTICIPANTS_KEY st |}.

Definition getMessages (roomId : string) (st : LocalStorage) : list MessageEvent :=
  match MESSAGES_KEY st !! roomId with
  | None => []
  | Some parsed => parsed
  end.

Definition clearMessages (roomId : string) (st : LocalStorage) : LocalStorage :=
  {| SESSION_KEY := SESSION_KEY st;
     MESSAGES_KEY := delete roomId (MESSAGES_KEY st);
     PARTICIPANTS_KEY := PARTICIPANTS_KEY st |}.

Definition clearRoomParticipants (roomId : string) (st : LocalStorage) : LocalStorage :=
  {| SESSION_KEY := SESSION_KEY st;
     MESSAGES_KEY := MESSAGES_KEY st;
     PARTICIPANTS_KEY := delete roomId (PARTICIPANTS_KEY st) |}.

Definition endSession (st : LocalStorage) : LocalStorage :=
  match getSession st with
  | Some session =>
      clearRoomParticipants (session_roomId session)
        {| SESSION_KEY := Some {| session_roomId := session_roomId session;
                                  session_userId := session_userId session;
                                  active := false;
                                  startTime := startTime session |};
           MESSAGES_KEY := MESSAGES_KEY st; PARTICIPANTS_KEY := PARTICIPANTS_KEY st |}
  | None => st
  end.

(** The record written back and the count returned. *)
Definition updatedParticipants (userId : string) (joining : bool) (now : Z)
    (data : option RoomParticipants) : RoomParticipants :=
  let participants :=
    match data with
    | Some p => p
    | None => {| count := 0; users := []; lastUpdated := now |}
    end in
  if joining then
    if bool_decide (userId ∈ users participants)
    then {| count := count participants; users := users participants;
            lastUpdated := now |}
    else {| count := S (count participants);
            users := users participants ++ [userId];
            lastUpdated := now |}
  else
    let remaining := filter (λ id, id ≠ userId) (users participants) in
    {| count := length remaining; users := remaining; lastUpdated := now |}.

Definition updateRoomParticipants (roomId userId : string) (joining : bool) (now : Z)
    (st : LocalStorage) : LocalStorage * nat :=
  let participants := updatedParticipants userId joining now (PARTICIPANTS_KEY st !! roomId) in
  ({| SESSION_KEY := SESSION_KEY st;
      MESSAGES_KEY := MESSAGES_KEY st;
      PARTICIPANTS_KEY := <[roomId := participants]> (PARTICIPANTS_KEY st) |},
   count participants).

Definition getRoomParticipantsCount (roomId : string) (now : Z)
    (st : LocalStorage) : LocalStorage * nat :=
  match PARTICIPANTS_KEY st !! roomId with
  | None => (st, 0)
  | Some participants =>
      let oneHourAgo := (now - 60 * 60 * 1000)%Z in
      if (lastUpdated participants <? oneHourAgo)%Z
      then (clearRoomParticipants roomId st, 0)
      else (st, count participants)
  end.

End Storage.

(** Storage operations inside [M]. *)
Definition storage_do (f : LocalStorage → LocalStorage) : M unit :=
  modify (with_storage f).
Definition storage_call {A} (f : LocalStorage → LocalStorage * A) : M A := λ w,
  match f (storage w) with
  | (st, a) => (with_storage (λ _, st) w, [], Returned a)
  end.

#[global] Instance RTCSignalingState_eq_dec : EqDecision RTCSignalingState.
Proof. solve_decision. Defined.
#[global] Instance RTCDataChannelState_eq_dec : EqDecision RTCDataChannelState.
Proof. solve_decision. Defined.
#[global] Instance ChannelStatus_eq_dec : EqDecision ChannelStatus.
Proof. solve_decision. Defined.

Fixpoint for_each {A} (l : list A) (f : A → M unit) : M unit :=
  match l with
  | [] => mret tt
  | x :: l => f x ;; for_each l f
  end.

(** ** signaling.ts *)
Module Signaling.

Definition set_connected (b : bool) (s : SignalingService) : SignalingService :=
  {| stompClient := stompClient s; connected := b;
     messageCallback := messageCallback s;
     sig_roomId := sig_roomId s; sig_userId := sig_userId s |}.

Definition isConnected : M bool :=
  w ← get; mret (connected (signaling w) && stompClient (signaling w)).

Definition sendSignalMessage (type : SignalType) (content : Content) : M unit :=
  w ← get;
  let this := signaling w in
  if negb (connected this) || negb (stompClient this)
     || negb (truthy (sig_roomId this)) || negb (truthy (sig_userId this))
  then log
  else
    match sig_roomId this, sig_userId this with
    | Some room, Some user =>
        emit (Publish {| type := type; content := content;
                         roomId := room; senderId := user |})
    | _, _ => log
    end.

Definition sendKeepAlive (env : Env) : M unit :=
  w ← get;
  match Storage.getSession (storage w) with
  | Some session =>
      if active session && connected (signaling w) && truthy (sig_roomId (signaling w))
      then sendSignalMessage keep_alive (KeepAlivePing (now env))
      else mret tt
  | None => mret tt
  end.

(** The body of [stompClient.onConnect], after the subscription. *)
Definition onConnect (roomId userId : string) (env : Env) : M unit :=
  modify (with_signaling (set_connected true)) ;;
  w ← get;
  emit (StompSubscribe (sig_roomId (signaling w))) ;;
  participantCount ← storage_call (Storage.updateRoomParticipants roomId userId true (now env));
  if 2 <? participantCount then
    sendSignalMessage room_full (RoomFullNotice "Room is already full with 2 participants")
    (* resolve(); return *)
  else
    sendKeepAlive env ;;
    setTimeout KeepAliveInterval 30000
    (* resolve() *).

(** [connect]: the promise resolves ([Returned]) on [onConnect] and
    rejects ([Threw]) on [onStompError]. *)
Definition connect (roomId userId : string) (env : Env) : M unit :=
  w ← get;
  if connected (signaling w) then mret tt
  else
    modify (with_signaling (λ this,
      {| stompClient := true; connected := connected this;
         messageCallback := messageCallback this;
         sig_roomId := Some roomId; sig_userId := Some userId |})) ;;
    emit StompActivate ;;
    if connectOk env then onConnect roomId userId env
    else throw ConnectError.

(** The callback of the room subscription: [Some callback] when it calls
    [this.messageCallback(signalMessage)], [None] when it drops the
    envelope. *)
Definition subscription (this : SignalingService) (signalMessage : SignalMessage)
    : option SignalMessageCallback :=
  match messageCallback this with
  | Some callback =>
      match type signalMessage with
      | end_session =>
          if negb (bool_decide (Some (senderId signalMessage) = sig_userId this))
          then Some callback else None
      | room_full => Some callback
      | _ =>
          if negb (bool_decide (Some (senderId signalMessage) = sig_userId this))
          then Some callback else None
      end
  | None => None
  end.

Definition onSignalMessage (callback : SignalMessageCallback) : M unit :=
  modify (with_signaling (λ this,
    {| stompClient := stompClient this; connected := connected this;
       messageCallback := Some callback;
       sig_roomId := sig_roomId this; sig_userId := sig_userId this |})).

Definition endSession (env : Env) : M unit :=
  w ← get;
  if connected (signaling w) && truthy (sig_roomId (signaling w))
  then sendSignalMessage end_session (EndSessionNotice (now env) "Session ended by peer")
  else mret tt.

Definition disconnect (env : Env) : M unit :=
  w ← get;
  match sig_roomId (signaling w), sig_userId (signaling w) with
  | Some room, Some user =>
      if truthy (Some room) && truthy (Some user)
      then storage_call (Storage.updateRoomParticipants room user false (now env)) ;; mret tt
      else mret tt
  | _, _ => mret tt
  end ;;
  w ← get;
  if stompClient (signaling w) then
    emit StompDeactivate ;;
    modify (with_signaling (λ this,
      {| stompClient := stompClient this; connected := false;
         messageCallback := messageCallback this;
         sig_roomId := None; sig_userId := None |}))
  else mret tt.

(** The tick of the keep-alive interval. *)
Definition keepAliveTick (env : Env) : M unit :=
  w ← get;
  if connected (signaling w) then sendKeepAlive env
  else modify (with_timers (filter (λ t, t ≠ KeepAliveInterval))).

End Signaling.

(** ** webrtc.ts *)
Module WebRTC.

Definition set_peerConnection (v : option RTCPeerConnection) (this : WebRTCService) :=
  {| peerConnection := v; dataChannel := dataChannel this;
     svc_roomId := svc_roomId this; nickname := nickname this;
     callbacks := callbacks this; isInitiator := isInitiator this;
     storedMessages := storedMessages this; isReconnecting := isReconnecting this;
     reconnectAttempts := reconnectAttempts this;
     isSessionActive := isSessionActive this;
     pendingIceCandidates := pendingIceCandidates this;
     remoteDescriptionSet := remoteDescriptionSet this |}.
Definition set_dataChannel (v : option RTCDataChannel) (this : WebRTCService) :=
  {| peerConnection := peerConnection this; dataChannel := v;
     svc_roomId := svc_roomId this; nickname := nickname this;
     callbacks := callbacks this; isInitiator := isInitiator this;
     storedMessages := storedMessages this; isReconnecting := isReconnecting this;
     reconnectAttempts := reconnectAttempts this;
     isSessionActive := isSessionActive this;
     pendingIceCandidates := pendingIceCandidates this;
     remoteDescriptionSet := remoteDescriptionSet this |}.
Definition set_session (room nick : string) (this : WebRTCService) :=
  {| peerConnection := peerConnection this; dataChannel := dataChannel this;
     svc_roomId := Some room; nickname := Some nick;
     callbacks := PageCallbacks; isInitiator := isInitiator this;
     storedMessages := storedMessages this; isReconnecting := isReconnecting this;
     reconnectAttempts := reconnectAttempts this;
     isSessionActive := true;
     pendingIceCandidates := pendingIceCandidates this;
     remoteDescriptionSet := remoteDescriptionSet this |}.
Definition set_isInitiator (v : bool) (this : WebRTCService) :=
  {| peerConnection := peerConnection this; dataChannel := dataChannel this;
     svc_roomId := svc_roomId this; nickname := nickname this;
     callbacks := callbacks this; isInitiator := v;
     storedMessages := storedMessages this; isReconnecting := isReconnecting this;
     reconnectAttempts := reconnectAttempts this;
     isSessionActive := isSessionActive this;
     pendingIceCandidates := pendingIceCandidates this;
     remoteDescriptionSet := remoteDescriptionSet this |}.
Definition set_storedMessages (v : list MessageEvent) (this : WebRTCService) :=
  {| peerConnection := peerConnection this; dataChannel := dataChannel this;
     svc_roomId := svc_roomId this; nickname := nickname this;
     callbacks := callbacks this; isInitiator := isInitiator this;
     storedMessages := v; isReconnecting := isReconnecting this;
     reconnectAttempts := reconnectAttempts this;
     isSessionActive := isSessionActive this;
     pendingIceCandidates := pendingIceCandidates this;
     remoteDescriptionSet := remoteDescriptionSet this |}.
Definition set_isReconnecting (v : bool) (this : WebRTCService) :=
  {| peerConnection := peerConnection this; dataChannel := dataChannel this;
     svc_roomId := svc_roomId this; nickname := nickname this;
     callbacks := callbacks this; isInitiator := isInitiator this;
     storedMessages := storedMessages this; isReconnecting := v;
     reconnectAttempts := reconnectAttempts this;
     isSessionActive := isSessionActive this;
     pendingIceCandidates := pendingIceCandidates this;
     remoteDescriptionSet := remoteDescriptionSet this |}.
Definition set_reconnectAttempts (v : nat) (this : WebRTCService) :=
  {| peerConnection := peerConnection this; dataChannel := dataChannel this;
     svc_roomId := svc_roomId this; nickname := nickname this;
     callbacks := callbacks this; isInitiator := isInitiator this;
     storedMessages := storedMessages this; isReconnecting := isReconnecting this;
     reconnectAttempts := v;
     isSessionActive := isSessionActive this;
     pendingIceCandidates := pendingIceCandidates this;
     remoteDescriptionSet := remoteDescriptionSet this |}.
Definition set_isSessionActive (v : bool) (this : WebRTCService) :=
  {| peerConnection := peerConnection this; dataChannel := dataChannel this;
     svc_roomId := svc_roomId this; nickname := nickname this;
     callbacks := callbacks this; isInitiator := isInitiator this;
     storedMessages := storedMessages this; isReconnecting := isReconnecting this;
     reconnectAttempts := reconnectAttempts this;
     isSessionActive := v;
     pendingIceCandidates := pendingIceCandidates this;
     remoteDescriptionSet := remoteDescriptionSet this |}.
Definition set_pendingIceCandidates (v : list RTCIceCandidate) (this : WebRTCService) :=
  {| peerConnection := peerConnection this; dataChannel := dataChannel this;
     svc_roomId := svc_roomId this; nickname := nickname this;
     callbacks := callbacks this; isInitiator := isInitiator this;
     storedMessages := storedMessages this; isReconnecting := isReconnecting this;
     reconnectAttempts := reconnectAttempts this;
     isSessionActive := isSessionActive this;
     pendingIceCandidates := v;
     remoteDescriptionSet := remoteDescriptionSet this |}.
Definition set_remoteDescriptionSet (v : bool) (this : WebRTCService) :=
  {| peerConnection := peerConnection this; dataChannel := dataChannel this;
     svc_roomId := svc_roomId this; nickname := nickname this;
     callbacks := callbacks this; isInitiator := isInitiator this;
     storedMessages := storedMessages this; isReconnecting := isReconnecting this;
     reconnectAttempts := reconnectAttempts this;
     isSessionActive := isSessionActive this;
     pendingIceCandidates := pendingIceCandidates this;
     remoteDescriptionSet := v |}.

(** [this.field = v] *)
Definition assign (f : WebRTCService → WebRTCService) : M unit :=
  modify (with_service f).

(** [this.callbacks.method(...)]: a [TypeError] on the empty object. *)
Definition callback (e : Effect) : M unit :=
  w ← get;
  match callbacks (service w) with
  | PageCallbacks => emit e
  | EmptyCallbacks => throw TypeError
  end.

(** *** The transport primitive

    A call is recorded, then the promise resolves or rejects as [Env]
    says.  A description applied with success moves [signalingState] to
    [next], the state the W3C offer/answer machine prescribes at that
    call site. *)

Definition pc_transition (next : RTCSignalingState) : M unit :=
  w ← get;
  match peerConnection (service w) with
  | Some pc => assign (set_peerConnection (Some {| pcId := pcId pc; signalingState := next |}))
  | None => mret tt
  end.

Definition pc_createOffer (env : Env) : M SDP :=
  w ← get;
  match peerConnection (service w) with
  | Some pc =>
      emit (PcCreateOffer (pcId pc)) ;;
      match createOfferResult env with
      | Some d => mret d
      | None => throw RejectedPromise
      end
  | None => throw TypeError
  end.

Definition pc_createAnswer (env : Env) : M SDP :=
  w ← get;
  match peerConnection (service w) with
  | Some pc =>
      emit (PcCreateAnswer (pcId pc)) ;;
      match createAnswerResult env with
      | Some d => mret d
      | None => throw RejectedPromise
      end
  | None => throw TypeError
  end.

Definition pc_setLocalDescription (env : Env) (d : SDP) (next : RTCSignalingState) : M unit :=
  w ← get;
  match peerConnection (service w) with
  | Some pc =>
      emit (PcSetLocalDescription (pcId pc) d) ;;
      if setLocalDescriptionOk env then pc_transition next
      else throw RejectedPromise
  | None => throw TypeError
  end.

Definition pc_setRemoteDescription (env : Env) (d : SDP) (next : RTCSignalingState) : M unit :=
  w ← get;
  match peerConnection (service w) with
  | Some pc =>
      emit (PcSetRemoteDescription (pcId pc) d) ;;
      if setRemoteDescriptionOk env then pc_transition next
      else throw RejectedPromise
  | None => throw TypeError
  end.

Definition pc_addIceCandidate (env : Env) (c : RTCIceCandidate) : M unit :=
  w ← get;
  match peerConnection (service w) with
  | Some pc =>
      emit (PcAddIceCandidate (pcId pc) c) ;;
      if addIceCandidateOk env then mret tt
      else throw RejectedPromise
  | None => throw TypeError
  end.

(** [new RTCSessionDescription(message.content)] and
    [new RTCIceCandidate(message.content)]: a [TypeError] when the
    content is not of that shape. *)
Definition newRTCSessionDescription (c : Content) : M SDP :=
  match c with
  | SessionDescription d => mret d
  | _ => throw TypeError
  end.

Definition newRTCIceCandidate (c : Content) : M RTCIceCandidate :=
  match c with
  | IceCandidateInit candidate => mret candidate
  | _ => throw TypeError
  end.

(** *** The service *)

Definition loadStoredMessages : M unit :=
  w ← get;
  match svc_roomId (service w) with
  | Some room =>
      if truthy (Some room) then
        let messages := Storage.getMessages room (storage w) in
        when (0 <? length messages) (assign (set_storedMessages messages))
      else mret tt
  | None => mret tt
  end.

Definition persistMessages : M unit :=
  w ← get;
  match svc_roomId (service w) with
  | Some room =>
      if truthy (Some room) then
        storage_do (Storage.saveMessages room (storedMessages (service w)))
      else mret tt
  | None => mret tt
  end.

(** [if (this.peerConnection) { this.peerConnection.close();
    this.peerConnection = null; }] *)
Definition closePeerConnection : M unit :=
  w ← get;
  match peerConnection (service w) with
  | Some pc => emit (PcClose (pcId pc)) ;; assign (set_peerConnection None)
  | None => mret tt
  end.

Definition createPeerConnection : M unit :=
  w ← get;
  let id := nextPcId w in
  modify (with_nextPcId S) ;;
  emit (PcNew id) ;;
  assign (set_peerConnection (Some {| pcId := id; signalingState := stable |})).

Definition setupDataChannelHandlers : M unit := mret tt.

Definition setupDataChannel : M unit :=
  w ← get;
  match peerConnection (service w) with
  | None => mret tt
  | Some pc =>
      emit (PcCreateDataChannel (pcId pc)) ;;
      assign (set_dataChannel (Some {| readyState := dc_connecting |})) ;;
      setupDataChannelHandlers
  end.

Definition createPeerConnectionAsReceiver : M unit :=
  assign (set_isInitiator false) ;;
  createPeerConnection.

Definition createPeerConnectionAsInitiator (env : Env) : M unit :=
  closePeerConnection ;;
  assign (set_isInitiator true) ;;
  assign (set_remoteDescriptionSet false) ;;
  assign (set_pendingIceCandidates []) ;;
  createPeerConnection ;;
  setupDataChannel ;;
  try_catch
    (isConnected ← Signaling.isConnected;
     (if negb isConnected then
        w ← get;
        match svc_roomId (service w), nickname (service w) with
        | Some room, Some nick =>
            if truthy (Some room) && truthy (Some nick)
            then Signaling.connect room nick env
            else throw MissingRoomOrNickname
        | _, _ => throw MissingRoomOrNickname
        end
      else mret tt) ;;
     offerDesc ← pc_createOffer env;
     pc_setLocalDescription env offerDesc have_local_offer ;;
     Signaling.sendSignalMessage offer (SessionDescription offerDesc))
    (λ _, log).

Definition sendMessage (message : string) (env : Env) : M unit :=
  w ← get;
  match dataChannel (service w) with
  | None => log
  | Some channel =>
      if negb (bool_decide (readyState channel = dc_open)) then log
      else
        try_catch
          (let sender := default "Unknown"
                           (if truthy (nickname (service w)) then nickname (service w) else None) in
           let messageEvent := {| data := message; msg_senderId := sender;
                                  isSelf := true; msg_timestamp := now env |} in
           emit (DcSend message sender (now env)) ;;
           (if sendOk env then mret tt else throw TypeError) ;;
           assign (λ this, set_storedMessages (storedMessages this ++ [messageEvent]) this) ;;
           persistMessages ;;
           w ← get;
           match callbacks (service w) with
           | PageCallbacks => callback (OnMessageReceived messageEvent)
           | EmptyCallbacks => mret tt
           end)
          (λ _, log)
  end.

Definition cleanup (env : Env) : M unit :=
  assign (set_remoteDescriptionSet false) ;;
  assign (set_pendingIceCandidates []) ;;
  assign (set_storedMessages []) ;;
  assign (set_reconnectAttempts 0) ;;
  assign (set_isReconnecting false) ;;
  w ← get;
  match dataChannel (service w) with
  | Some _ => emit DcClose ;; assign (set_dataChannel None)
  | None => mret tt
  end ;;
  closePeerConnection ;;
  try_catch (Signaling.disconnect env) (λ _, log).

Definition initialize (roomId nick : string) (env : Env) : M unit :=
  assign (set_session roomId nick) ;;
  cleanup env ;;
  assign (set_remoteDescriptionSet false) ;;
  assign (set_pendingIceCandidates []) ;;
  assign (set_isInitiator false) ;;
  storage_do (Storage.saveSession roomId nick (now env)) ;;
  when (truthy (Some nick))
    (storage_call (Storage.updateRoomParticipants roomId nick true (now env)) ;; mret tt) ;;
  loadStoredMessages ;;
  w ← get;
  when (0 <? length (storedMessages (service w)))
    (for_each (storedMessages (service w)) (λ message, callback (OnMessageReceived message))) ;;
  try_catch
    (Signaling.connect roomId nick env ;;
     createPeerConnectionAsReceiver ;;
     Signaling.onSignalMessage ServiceHandler)
    (λ error, throw error).

Definition endSession (env : Env) : M unit :=
  assign (set_isSessionActive false) ;;
  try_catch
    (isConnected ← Signaling.isConnected;
     when isConnected (Signaling.endSession env) ;;
     w ← get;
     let currentRoomId := svc_roomId (service w) in
     storage_do Storage.endSession ;;
     match currentRoomId with
     | Some room =>
         when (truthy (Some room))
           (storage_do (Storage.clearMessages room) ;;
            storage_do (Storage.clearRoomParticipants room) ;;
            log)
     | None => mret tt
     end ;;
     storage_do Storage.clearSession ;;
     callback (OnSessionEnded false) ;;
     cleanup env)
    (λ _, log).

Definition getStoredMessages : M (list MessageEvent) :=
  w ← get;
  match svc_roomId (service w) with
  | Some room =>
      if truthy (Some room) then mret (Storage.getMessages room (storage w))
      else mret []
  | None => mret []
  end.

Definition handleDisconnection : M unit :=
  w ← get;
  if negb (isSessionActive (service w)) then mret tt
  else
    log ;;
    if reconnectAttempts (service w) <? maxReconnectAttempts then
      assign (λ this, set_reconnectAttempts (S (reconnectAttempts this)) this) ;;
      closePeerConnection ;;
      setTimeout ReconnectTimer reconnectionDelay
    else
      log ;;
      assign (set_isReconnecting false) ;;
      callback (OnChannelStatusChange status_closed).

(** The function given to [setTimeout] by [handleDisconnection]. *)
Definition reconnectTimer (env : Env) : M unit :=
  w ← get;
  if isInitiator (service w)
  then createPeerConnectionAsInitiator env
  else createPeerConnectionAsReceiver.

Definition attemptReconnection : M unit :=
  w ← get;
  if isReconnecting (service w) || negb (isSessionActive (service w)) then mret tt
  else
    assign (set_isReconnecting true) ;;
    assign (set_reconnectAttempts 0) ;;
    log ;;
    handleDisconnection.

(** Handlers installed on the peer connection by [createPeerConnection]. *)
Definition onicecandidate (candidate : option RTCIceCandidate) : M unit :=
  match candidate with
  | Some c => Signaling.sendSignalMessage ice_candidate (IceCandidateInit c)
  | None => mret tt
  end.

Definition oniceconnectionstatechange (iceConnectionState : RTCIceConnectionState) : M unit :=
  w ← get;
  match peerConnection (service w), iceConnectionState with
  | Some _, ice_disconnected | Some _, ice_failed => handleDisconnection
  | _, _ => mret tt
  end.

Definition ondatachannel (channel : RTCDataChannel) : M unit :=
  w ← get;
  if negb (isInitiator (service w)) then
    assign (set_dataChannel (Some channel)) ;;
    setupDataChannelHandlers
  else mret tt.

Definition onconnectionstatechange : M unit :=
  w ← get;
  match peerConnection (service w) with
  | Some _ => callback OnConnectionStateChange
  | None => mret tt
  end.

(** Handlers installed on the data channel by [setupDataChannelHandlers]. *)
Definition dataChannel_onopen : M unit :=
  log ;;
  assign (set_reconnectAttempts 0) ;;
  assign (set_isReconnecting false) ;;
  callback (OnChannelStatusChange status_open).

Definition dataChannel_onclose : M unit :=
  log ;;
  callback (OnChannelStatusChange status_closed) ;;
  w ← get;
  if negb (isReconnecting (service w)) && isSessionActive (service w)
  then attemptReconnection
  else mret tt.

(** [parsed] is [JSON.parse(event.data)]: [None] when it throws. *)
Definition dataChannel_onmessage (parsed : option (string * string * Z)) : M unit :=
  try_catch
    (match parsed with
     | None => throw TypeError
     | Some (messageContent, sender, time) =>
         let newMessage := {| data := messageContent; msg_senderId := sender;
                              isSelf := false; msg_timestamp := time |} in
         callback (OnMessageReceived newMessage) ;;
         assign (λ this, set_storedMessages (storedMessages this ++ [newMessage]) this) ;;
         persistMessages
     end)
    (λ _, log).

Definition processPendingIceCandidates : M unit :=
  w ← get;
  match peerConnection (service w) with
  | None => mret tt
  | Some pc =>
      if negb (remoteDescriptionSet (service w))
         || (length (pendingIceCandidates (service w)) =? 0)
      then mret tt
      else
        log ;;
        for_each (pendingIceCandidates (service w))
          (λ candidate, emit (PcAddIceCandidate (pcId pc) candidate)) ;;
        assign (set_pendingIceCandidates [])
  end.

Definition handleSignalingMessage (message : SignalMessage) (env : Env) : M unit :=
  match type message with
  | end_session =>
      log ;;
      assign (set_isSessionActive false) ;;
      w ← get;
      let currentRoomId := svc_roomId (service w) in
      match currentRoomId with
      | Some room =>
          when (truthy (Some room))
            (storage_do (Storage.clearMessages room) ;;
             storage_do (Storage.clearRoomParticipants room) ;;
             log)
      | None => mret tt
      end ;;
      storage_do Storage.clearSession ;;
      callback (OnSessionEnded true) ;;
      cleanup env
  | room_full =>
      log ;;
      callback OnRoomFull
  | _ =>
      w ← get;
      match peerConnection (service w) with
      | None => log ;; createPeerConnectionAsReceiver
      | Some _ => mret tt
      end ;;
      log ;;
      match type message with
      | offer =>
          try_catch
            (w ← get;
             match peerConnection (service w) with
             | None => throw TypeError
             | Some pc =>
                 let currentState := signalingState pc in
                 (if negb (bool_decide (currentState = stable)) then
                    log ;;
                    closePeerConnection ;;
                    createPeerConnectionAsReceiver ;;
                    assign (set_remoteDescriptionSet false) ;;
                    assign (set_pendingIceCandidates [])
                  else mret tt) ;;
                 log ;;
                 description ← newRTCSessionDescription (content message);
                 pc_setRemoteDescription env description have_remote_offer ;;
                 assign (set_remoteDescriptionSet true) ;;
                 processPendingIceCandidates ;;
                 log ;;
                 answerDesc ← pc_createAnswer env;
                 log ;;
                 pc_setLocalDescription env answerDesc stable ;;
                 isConnected ← Signaling.isConnected;
                 if (isConnected : bool)
                 then log ;; Signaling.sendSignalMessage answer (SessionDescription answerDesc)
                 else log
             end)
            (λ _, log ;; assign (set_remoteDescriptionSet false))
      | answer =>
          try_catch
            (w ← get;
             match peerConnection (service w) with
             | None => throw TypeError
             | Some pc =>
                 let currentState := signalingState pc in
                 if negb (bool_decide (currentState = have_local_offer)) then
                   log (* return *)
                 else
                   log ;;
                   description ← newRTCSessionDescription (content message);
                   pc_setRemoteDescription env description stable ;;
                   assign (set_remoteDescriptionSet true) ;;
                   processPendingIceCandidates ;;
                   log
             end)
            (λ _, log ;; assign (set_remoteDescriptionSet false))
      | ice_candidate =>
          try_catch
            (candidate ← newRTCIceCandidate (content message);
             w ← get;
             if negb (remoteDescriptionSet (service w)) then
               log ;;
               assign (λ this, set_pendingIceCandidates
                                 (pendingIceCandidates this ++ [candidate]) this)
               (* return *)
             else
               log ;;
               pc_addIceCandidate env candidate)
            (λ _,
               log ;;
               candidate ← newRTCIceCandidate (content message);
               assign (λ this, set_pendingIceCandidates
                                 (pendingIceCandidates this ++ [candidate]) this))
      | _ => mret tt
      end
  end.

End WebRTC.

(** ** The chat page: [initializeChat] and the closures it registers *)
Module Chat.

Definition Qgt_bool (x y : Q) : bool := negb (Qle_bool x y).

(** The condition of the [if] in the handler of ['initiator-selection']:
    [randomValue > theirValue ||
     (randomValue === theirValue && ourTimestamp < theirTimestamp)].
    The random values are finite doubles ([Math.random()] on one side, a
    JSON number on the other), that is rationals, on which [>] and [===]
    are the order and the equality of [Q]; the timestamps are the integer
    milliseconds of [Date.now()]. *)
Definition becomesInitiator (randomValue : Q) (ourTimestamp : Z)
    (theirValue : Q) (theirTimestamp : Z) : bool :=
  Qgt_bool randomValue theirValue
  || (Qeq_bool randomValue theirValue && (ourTimestamp <? theirTimestamp)%Z).

Definition set_actualInitiator (v : bool) (c : ChatPage) : ChatPage :=
  {| randomValue := randomValue c; actualInitiator := v;
     connectionStatus := connectionStatus c |}.

(** The function given to [signalingService.onSignalMessage]. *)
Definition signalMessageCallback (message : SignalMessage) (env : Env) : M unit :=
  log ;;
  match type message with
  | initiator_selection =>
      w ← get;
      let ourTimestamp := now env in
      let elected :=
        match content message with
        | ElectionToken theirValue theirTimestamp =>
            becomesInitiator (randomValue (chat w)) ourTimestamp theirValue theirTimestamp
        | _ => false      (* both comparisons with [undefined] are false *)
        end in
      if elected then
        log ;;
        modify (with_chat (set_actualInitiator true)) ;;
        WebRTC.createPeerConnectionAsInitiator env
      else
        log ;;
        modify (with_chat (set_actualInitiator false)) ;;
        WebRTC.createPeerConnectionAsReceiver
  | _ => WebRTC.handleSignalingMessage message env
  end.

(** The function given to [setTimeout(..., 3000)]. *)
Definition fallbackTimer (env : Env) : M unit :=
  w ← get;
  if negb (actualInitiator (chat w))
     && negb (bool_decide (connectionStatus (chat w) = status_open))
  then
    log ;;
    modify (with_chat (set_actualInitiator true)) ;;
    WebRTC.createPeerConnectionAsInitiator env
  else mret tt.

Definition initializeChat (roomId nick : string) (value : Q) (env : Env) : M unit :=
  modify (with_chat (λ c,
    {| randomValue := value; actualInitiator := false;
       connectionStatus := connectionStatus c |})) ;;
  try_catch
    (WebRTC.initialize roomId nick env ;;
     log ;;
     Signaling.sendSignalMessage initiator_selection (ElectionToken value (now env)) ;;
     log ;;
     Signaling.onSignalMessage ChatHandler ;;
     setTimeout FallbackTimer 3000)
    (λ _, emit (SetConnectionStatus status_closed)).

(** The cleanup of the effect, run when the page unmounts. *)
Definition unmount (sessionEnded : bool) (env : Env) : M unit :=
  modify (with_timers (filter (λ t, t ≠ FallbackTimer))) ;;
  if negb sessionEnded then WebRTC.cleanup env else mret tt.

End Chat.

(** ** The event loop *)

Inductive Event :=
| PageMounts (roomId nick : string) (value : Q)
| PageUnmounts (sessionEnded : bool)
| RelayFrame (m : SignalMessage)          (* a frame on /topic/room/<roomId> *)
| TimerFires (t : Timer)
| IceCandidateGathered (c : option RTCIceCandidate)
| IceConnectionStateChange (s : RTCIceConnectionState)
| ConnectionStateChange
| DataChannelReceived (channel : RTCDataChannel)
| DataChannelOpen
| DataChannelClose
| DataChannelMessage (parsed : option (string * string * Z))
| UserSends (message : string)
| UserEndsSession.

(** A frame of the room goes through the subscription of signaling.ts to
    the registered callback. *)
Definition deliver (m : SignalMessage) (env : Env) : M unit :=
  w ← get;
  match Signaling.subscription (signaling w) m with
  | Some ServiceHandler => WebRTC.handleSignalingMessage m env
  | Some ChatHandler => Chat.signalMessageCallback m env
  | None => mret tt
  end.

Fixpoint remove_first (t : Timer) (ts : list Timer) : list Timer :=
  match ts with
  | [] => []
  | t' :: ts => if bool_decide (t' = t) then ts else t' :: remove_first t ts
  end.

(** Only a pending timer fires; a timeout is consumed, the interval
    stays. *)
Definition fire (t : Timer) (env : Env) : M unit :=
  w ← get;
  if bool_decide (t ∈ timers w) then
    match t with
    | FallbackTimer =>
        modify (with_timers (remove_first FallbackTimer)) ;; Chat.fallbackTimer env
    | ReconnectTimer =>
        modify (with_timers (remove_first ReconnectTimer)) ;; WebRTC.reconnectTimer env
    | KeepAliveInterval => Signaling.keepAliveTick env
    end
  else mret tt.

(** The browser sets [readyState] before it calls [onopen] / [onclose]. *)
Definition channel_becomes (s : RTCDataChannelState) : M unit :=
  w ← get;
  match dataChannel (service w) with
  | Some _ => WebRTC.assign (WebRTC.set_dataChannel (Some {| readyState := s |}))
  | None => mret tt
  end.

Definition handle (ev : Event) (env : Env) : M unit :=
  match ev with
  | PageMounts roomId nick value => Chat.initializeChat roomId nick value env
  | PageUnmounts sessionEnded => Chat.unmount sessionEnded env
  | RelayFrame m => deliver m env
  | TimerFires t => fire t env
  | IceCandidateGathered c => WebRTC.onicecandidate c
  | IceConnectionStateChange s => WebRTC.oniceconnectionstatechange s
  | ConnectionStateChange => WebRTC.onconnectionstatechange
  | DataChannelReceived channel => WebRTC.ondatachannel channel
  | DataChannelOpen => channel_becomes dc_open ;; WebRTC.dataChannel_onopen
  | DataChannelClose => channel_becomes dc_closed ;; WebRTC.dataChannel_onclose
  | DataChannelMessage parsed => WebRTC.dataChannel_onmessage parsed
  | UserSends message => WebRTC.sendMessage message env
  | UserEndsSession => WebRTC.endSession env
  end.

(** An execution: the events in the order the loop takes them.  An
    exception that escapes a handler is reported by the runtime and the
    loop goes on. *)
Fixpoint run (evs : list (Event * Env)) : M unit :=
  match evs with
  | [] => mret tt
  | (ev, env) :: evs => try_catch (handle ev env) (λ _, mret tt) ;; run evs
  end.

(** The state of a freshly loaded page. *)
Definition emptyStorage : LocalStorage :=
  {| SESSION_KEY := None; MESSAGES_KEY := ∅; PARTICIPANTS_KEY := ∅ |}.

Definition initialWorld (st : LocalStorage) : World :=
  {| storage := st;
     signaling := {| stompClient := false; connected := false;
                     messageCallback := None;
                     sig_roomId := None; sig_userId := None |};
     service := {| peerConnection := None; dataChannel := None;
                   svc_roomId := None; nickname := None;
                   callbacks := EmptyCallbacks; isInitiator := false;
                   storedMessages := []; isReconnecting := false;
                   reconnectAttempts := 0; isSessionActive := false;
                   pendingIceCandidates := []; remoteDescriptionSet := false |};
     chat := {| randomValue := 0%Q; actualInitiator := false;
                connectionStatus := status_connecting |};
     timers := [];
     nextPcId := 0 |}.

(** An environment in which every primitive succeeds. *)
Definition fair (t : Z) : Env :=
  {| now := t; connectOk := true;
     createOfferResult := Some "sdp-offer"; createAnswerResult := Some "sdp-answer";
     setLocalDescriptionOk := true; setRemoteDescriptionOk := true;
     addIceCandidateOk := true; sendOk := true |}.

(** The calls of [addIceCandidate] in a trace, in order. *)
Definition appliedCandidates (tr : list Effect) : list (nat * RTCIceCandidate) :=
  omap (λ e, match e with PcAddIceCandidate pc c => Some (pc, c) | _ => None end) tr.

Definition published (tr : list Effect) : list SignalMessage :=
  omap (λ e, match e with Publish m => Some m | _ => None end) tr.

Definition scheduled (tr : list Effect) : list Timer :=
  omap (λ e, match e with SetTimeout t _ => Some t | _ => None end) tr.


(** ** Scenarios

    Two browsers, each with a [localStorage] of its own, join room
    ["r1"]; every primitive succeeds. *)

Definition envelope (t : SignalType) (c : Content) (sender : string) : SignalMessage :=
  {| type := t; content := c; roomId := "r1"; senderId := sender |}.

(** The page of [nick] right after [initializeChat] ran at time [t]. *)
Definition joins (nick : string) (value : Q) (t : Z) (st : LocalStorage) :=
  handle (PageMounts "r1" nick value) (fair t) (initialWorld st).

(** The election token [nick] published at time [t]. *)
Definition token (nick : string) (value : Q) (t : Z) : SignalMessage :=
  envelope initiator_selection (ElectionToken value t) nick.

(** A [localStorage] in which two participants of ["r1"] are recorded. *)
Definition twoInRoom : LocalStorage :=
  {| SESSION_KEY := None; MESSAGES_KEY := ∅;
     PARTICIPANTS_KEY :=
       {[ "r1" := {| count := 2; users := ["alice"; "bob"]; lastUpdated := 0 |} ]} |}.

(** The reports of [onSessionEnded] in a trace. *)
Definition sessionEnded (tr : list Effect) : list bool :=
  omap (λ e, match e with OnSessionEnded b => Some b | _ => None end) tr.

#[global] Instance SignalType_eq_dec : EqDecision SignalType.
Proof. solve_decision. Defined.

(** The candidates carried by ice-candidate envelopes, and the handling
    of such envelopes one after the other. *)
Definition isCandidateEnvelope (m : SignalMessage) : Prop :=
  type m = ice_candidate ∧ ∃ c, content m = IceCandidateInit c.

Definition candidatesOf (ms : list SignalMessage) : list RTCIceCandidate :=
  omap (λ m, match content m with IceCandidateInit c => Some c | _ => None end) ms.

Definition handleAll (ms : list SignalMessage) (env : Env) : M unit :=
  for_each ms (λ m, WebRTC.handleSignalingMessage m env).

(** The transport is lost at time [t]; the reconnect timer fires at [t]. *)
Definition transportLost (t : Z) : Event * Env :=
  (IceConnectionStateChange ice_failed, fair t).
Definition reconnectFires (t : Z) : Event * Env :=
  (TimerFires ReconnectTimer, fair t).

(** ** Predicates on computations and on worlds *)

(** [wp m w Q]: running [m] from [w] ends in a world, a trace and a
    completion that satisfy [Q]. *)
Definition wp {A} (m : M A) (w : World)
    (Q : World → list Effect → Completion A → Prop) : Prop :=
  Q (world_of (m w)) (trace_of (m w)) (completion_of (m w)).

(** [respects R m]: the world [m] ends in, whether it returns or throws,
    is related by [R] to the world it started from. *)
Definition respects (R : World → World → Prop) {A} (m : M A) : Prop :=
  ∀ w, R w (world_of (m w)).

(** The worlds a loaded page can be in. *)
Inductive reachable : World → Prop :=
| reachable_load (st : LocalStorage) : reachable (initialWorld st)
| reachable_event (w : World) (ev : Event) (env : Env) :
    reachable w → reachable (world_of (handle ev env w)).

(** Installed callbacks stay installed. *)
Definition callbacks_kept (w w' : World) : Prop :=
  callbacks (service w) = PageCallbacks → callbacks (service w') = PageCallbacks.

(** Moreover a session is not activated, and a signaling callback not
    registered, without the callbacks of the page in place. *)
Definition session_kept (w w' : World) : Prop :=
  callbacks_kept w w'
  ∧ (isSessionActive (service w') = true →
     callbacks (service w') = PageCallbacks ∨ isSessionActive (service w) = true)
  ∧ (messageCallback (signaling w') ≠ None →
     callbacks (service w') = PageCallbacks ∨ messageCallback (signaling w) ≠ None).

(** An active session, and a registered signaling callback, have the
    callbacks of the page. *)
Definition session_has_callbacks (w : World) : Prop :=
  (isSessionActive (service w) = true → callbacks (service w) = PageCallbacks)
  ∧ (messageCallback (signaling w) ≠ None → callbacks (service w) = PageCallbacks).

(** What the cleanup leaves of the storage: the session record and the
    messages as they were, and a room without a participants record
    either still without one or with an empty one. *)
Definition storage_cleaned (t : Z) (st st' : LocalStorage) : Prop :=
  SESSION_KEY st' = SESSION_KEY st
  ∧ MESSAGES_KEY st' = MESSAGES_KEY st
  ∧ ∀ room, PARTICIPANTS_KEY st !! room = None →
      PARTICIPANTS_KEY st' !! room = None
      ∨ PARTICIPANTS_KEY st' !! room = Some {| count := 0; users := []; lastUpdated := t |}.

(** ** The rest of the chat page and of the relay *)

(** The updater the chat page gives to [setMessages] in its
    [onMessageReceived] callback: [prev.some(...)] compares the text, the
    sender and the time of the message, not [isSelf]. *)
Definition isDuplicate (prev : list MessageEvent) (message : MessageEvent) : bool :=
  existsb (λ msg,
    String.eqb (data msg) (data message)
    && String.eqb (msg_senderId msg) (msg_senderId message)
    && (msg_timestamp msg =? msg_timestamp message)%Z) prev.

Definition onMessageReceived (prev : list MessageEvent) (message : MessageEvent)
    : list MessageEvent :=
  if isDuplicate prev message then prev else prev ++ [message].

(** The key [isDuplicate] compares. *)
Definition messageKey (m : MessageEvent) : string * string * Z :=
  (data m, msg_senderId m, msg_timestamp m).

(** [SignalingController.handleSignalMessage] of the relay: the envelope
    goes, unchanged, to the topic of the room it names; a client
    subscribes to [`/topic/room/${this.roomId}`]. *)
Definition topicOf (room : string) : string := "/topic/room/" +:+ room.

Definition handleSignalMessage (message : SignalMessage) : string * SignalMessage :=
  (topicOf (roomId message), message).

(** ** Further predicates *)

(** A participants record whose count is the number of its users, each
    listed once. *)
Definition participantsConsistent (p : RoomParticipants) : Prop :=
  count p = length (users p) ∧ NoDup (users p).

(** [preserves P]: a step from a world with [P] ends in a world with [P]. *)
Definition preserves (P : World → Prop) (w w' : World) : Prop := P w → P w'.

(** The relay client is connected only with a STOMP client and with the
    room and the user of the connection. *)
Definition connectedWithIds (w : World) : Prop :=
  connected (signaling w) = true →
  stompClient (signaling w) = true
  ∧ is_Some (sig_roomId (signaling w)) ∧ is_Some (sig_userId (signaling w)).

Definition attemptsBounded (w : World) : Prop :=
  reconnectAttempts (service w) ≤ maxReconnectAttempts.

(** The messages reported to [onMessageReceived] in a trace. *)
Definition messagesReported (tr : list Effect) : list MessageEvent :=
  omap (λ e, match e with OnMessageReceived m => Some m | _ => None end) tr.

(** The calls a teardown makes: closing the channel and the connection,
    deactivating the STOMP client. *)
Definition isTeardown (e : Effect) : Prop :=
  match e with
  | DcClose | PcClose _ | StompDeactivate => True
  | _ => False
  end.

(** The sender a message is stamped with: [this.nickname || 'Unknown']. *)
Definition senderOf (this : WebRTCService) : string :=
  default "Unknown" (if truthy (nickname this) then nickname this else None).

(** The service as [cleanup] leaves it, and the calls [cleanup] makes. *)
Definition afterCleanup (this : WebRTCService) : WebRTCService :=
  {| peerConnection := None; dataChannel := None;
     svc_roomId := svc_roomId this; nickname := nickname this;
     callbacks := callbacks this; isInitiator := isInitiator this;
     storedMessages := []; isReconnecting := false;
     reconnectAttempts := 0; isSessionActive := isSessionActive this;
     pendingIceCandidates := []; remoteDescriptionSet := false |}.

Definition teardownCalls (w : World) : list Effect :=
  match dataChannel (service w) with Some _ => [DcClose] | None => [] end
  ++ match peerConnection (service w) with Some pc => [PcClose (pcId pc)] | None => [] end
  ++ (if stompClient (signaling w) then [StompDeactivate] else []).

(** The relay client as [disconnect] leaves it. *)
Definition afterDisconnect (this : SignalingService) : SignalingService :=
  if stompClient this
  then {| stompClient := true; connected := false;
          messageCallback := messageCallback this;
          sig_roomId := None; sig_userId := None |}
  else this.

(** * Properties *)

(** ** Reasoning about computations in [M] *)

Lemma wp_ret {A} (a : A) w Q : Q w [] (Returned a) → wp (mret a) w Q.
Proof. exact id. Qed.

Lemma wp_get w Q : Q w [] (Returned w) → wp get w Q.
Proof. exact id. Qed.

Lemma wp_modify f w Q : Q (f w) [] (Returned tt) → wp (modify f) w Q.
Proof. exact id. Qed.

Lemma wp_emit e w Q : Q w [e] (Returned tt) → wp (emit e) w Q.
Proof. exact id. Qed.

Lemma wp_throw {A} e w (Q : World → list Effect → Completion A → Prop) :
  Q w [] (Threw e) → wp (throw e) w Q.
Proof. exact id. Qed.

Lemma wp_bind {A B} (m : M A) (f : A → M B) w Q :
  wp m w (λ w1 t1 r1,
    match r1 with
    | Returned a => wp (f a) w1 (λ w2 t2 r2, Q w2 (t1 ++ t2) r2)
    | Threw e => Q w1 t1 (Threw e)
    end) →
  wp (m ≫= f) w Q.
Proof.
  unfold wp, world_of, trace_of, completion_of. cbv [mbind M_bind].
  destruct (m w) as [[w1 t1] [a | e]]; cbn; [| exact id].
  destruct (f a w1) as [[w2 t2] r2]. exact id.
Qed.

Lemma wp_try_catch {A} (m : M A) (h : Exn → M A) w Q :
  wp m w (λ w1 t1 r1,
    match r1 with
    | Returned a => Q w1 t1 (Returned a)
    | Threw e => wp (h e) w1 (λ w2 t2 r2, Q w2 (t1 ++ t2) r2)
    end) →
  wp (try_catch m h) w Q.
Proof.
  unfold wp, world_of, trace_of, completion_of, try_catch.
  destruct (m w) as [[w1 t1] [a | e]]; cbn; [exact id |].
  destruct (h e w1) as [[w2 t2] r2]. exact id.
Qed.

Lemma wp_storage_call {A} (f : LocalStorage → LocalStorage * A) w Q :
  Q (with_storage (λ _, (f (storage w)).1) w) [] (Returned (f (storage w)).2) →
  wp (storage_call f) w Q.
Proof.
  unfold wp, world_of, trace_of, completion_of, storage_call.
  destruct (f (storage w)) as [st a]. exact id.
Qed.

Lemma wp_mono {A} (m : M A) w (Q Q' : World → list Effect → Completion A → Prop) :
  wp m w Q → (∀ w' t r, Q w' t r → Q' w' t r) → wp m w Q'.
Proof. unfold wp. intros H HQ. apply HQ, H. Qed.

Lemma wp_eq {A} (m m' : M A) w Q : m w = m' w → wp m' w Q → wp m w Q.
Proof. unfold wp. intros ->. exact id. Qed.

Lemma wp_run {A} (m : M A) w w' t r :
  m w = (w', t, r) → ∀ Q, Q w' t r → wp m w Q.
Proof. intros H Q HQ. unfold wp. rewrite H. exact HQ. Qed.

(** Reading a world that was built by field updates. *)
Ltac simpl_world :=
  cbv [with_storage with_signaling with_service with_chat with_timers with_nextPcId
       Signaling.set_connected
       WebRTC.set_peerConnection WebRTC.set_dataChannel WebRTC.set_session
       WebRTC.set_isInitiator WebRTC.set_storedMessages WebRTC.set_isReconnecting
       WebRTC.set_reconnectAttempts WebRTC.set_isSessionActive
       WebRTC.set_pendingIceCandidates WebRTC.set_remoteDescriptionSet
       Chat.set_actualInitiator
       Storage.saveSession Storage.getSession Storage.clearSession
       Storage.saveMessages Storage.clearMessages Storage.clearRoomParticipants
       Storage.endSession Storage.updateRoomParticipants];
  cbn [storage signaling service chat timers nextPcId
       peerConnection dataChannel svc_roomId nickname callbacks isInitiator
       storedMessages isReconnecting reconnectAttempts isSessionActive
       pendingIceCandidates remoteDescriptionSet
       stompClient connected messageCallback sig_roomId sig_userId
       randomValue actualInitiator connectionStatus
       pcId signalingState readyState
       SESSION_KEY MESSAGES_KEY PARTICIPANTS_KEY
       fst snd app negb orb andb length Nat.eqb].

(** One step of symbolic execution. *)
Ltac wp_step :=
  lazymatch goal with
  | |- wp (mbind _ _) _ _ => apply wp_bind
  | |- wp (mret _) _ _ => apply wp_ret
  | |- wp get _ _ => apply wp_get
  | |- wp (modify _) _ _ => apply wp_modify
  | |- wp (emit _) _ _ => apply wp_emit
  | |- wp (throw _) _ _ => apply wp_throw
  | |- wp (try_catch _ _) _ _ => apply wp_try_catch
  | |- wp (storage_call _) _ _ => apply wp_storage_call
  | |- wp log _ _ => apply wp_ret
  | |- wp (when true _) _ _ => unfold when
  | |- wp (when false _) _ _ => apply wp_ret
  | |- wp (storage_do _) _ _ => apply wp_modify
  | |- wp (setTimeout _ _) _ _ => unfold setTimeout
  | |- wp (WebRTC.assign _) _ _ => apply wp_modify
  | |- wp WebRTC.setupDataChannelHandlers _ _ => apply wp_ret
  | |- wp (WebRTC.callback _) _ _ => unfold WebRTC.callback
  | |- wp WebRTC.closePeerConnection _ _ => unfold WebRTC.closePeerConnection
  | |- wp WebRTC.createPeerConnection _ _ => unfold WebRTC.createPeerConnection
  | |- wp WebRTC.createPeerConnectionAsReceiver _ _ =>
      unfold WebRTC.createPeerConnectionAsReceiver
  | |- wp WebRTC.setupDataChannel _ _ => unfold WebRTC.setupDataChannel
  | |- wp (WebRTC.pc_transition _) _ _ => unfold WebRTC.pc_transition
  | |- wp (WebRTC.pc_createOffer _) _ _ => unfold WebRTC.pc_createOffer
  | |- wp (WebRTC.pc_createAnswer _) _ _ => unfold WebRTC.pc_createAnswer
  | |- wp (WebRTC.pc_setLocalDescription _ _ _) _ _ => unfold WebRTC.pc_setLocalDescription
  | |- wp (WebRTC.pc_setRemoteDescription _ _ _) _ _ => unfold WebRTC.pc_setRemoteDescription
  | |- wp (WebRTC.pc_addIceCandidate _ _) _ _ => unfold WebRTC.pc_addIceCandidate
  | |- wp (WebRTC.newRTCSessionDescription _) _ _ => unfold WebRTC.newRTCSessionDescription
  | |- wp (WebRTC.newRTCIceCandidate _) _ _ => unfold WebRTC.newRTCIceCandidate
  | |- wp Signaling.isConnected _ _ => unfold Signaling.isConnected
  | |- wp (Signaling.sendSignalMessage _ _) _ _ => unfold Signaling.sendSignalMessage
  | |- wp (Signaling.onSignalMessage _) _ _ => apply wp_modify
  end; cbv beta iota zeta; simpl_world.

Ltac wp_steps := repeat wp_step.

(** Symbolic execution that splits on every test it cannot decide. *)
Ltac wp_case :=
  lazymatch goal with
  | |- wp (if ?b then _ else _) _ _ => destruct b eqn:?
  | |- wp (match ?x with _ => _ end) _ _ => destruct x eqn:?
  end.

Ltac wp_auto := repeat (wp_step || wp_case).

(** The same, through the connect flow of the relay client. *)
Ltac wp_connect :=
  repeat (wp_step || wp_case
          || unfold Signaling.connect || unfold Signaling.onConnect
          || unfold Signaling.sendKeepAlive).

Lemma truthy_nonempty (s : string) : s ≠ "" → truthy (Some s) = true.
Proof.
  intros H. unfold truthy. destruct (String.eqb_spec s ""); [contradiction | reflexivity].
Qed.

Lemma log_then {A} (k : M A) (w : World) : (log ;; k) w = k w.
Proof.
  cbv [mbind M_bind log mret M_ret]. destruct (k w) as [[w' t] r]. reflexivity.
Qed.

Lemma bind_get {A} (k : World → M A) (w : World) : (get ≫= k) w = k w w.
Proof.
  cbv [mbind M_bind get]. destruct (k w w) as [[w' t] r]. reflexivity.
Qed.

Lemma deliver_eq (m : SignalMessage) (env : Env) (w : World) :
  deliver m env w
  = match Signaling.subscription (signaling w) m with
    | Some ServiceHandler => WebRTC.handleSignalingMessage m env w
    | Some ChatHandler => Chat.signalMessageCallback m env w
    | None => (w, [], Returned tt)
    end.
Proof.
  unfold deliver. rewrite bind_get.
  destruct (Signaling.subscription (signaling w) m) as [[|]|]; reflexivity.
Qed.

(** ** C10: sending on a channel that is not open *)

(** C10. [sendMessage] called while the data channel is absent, or while
    its [readyState] is not ['open'], returns at once: no call on the
    channel, no callback, the service (stored messages included) and the
    persisted storage as they were, and no exception. *)
Theorem sendMessage_without_open_channel (w : World) (message : string) (env : Env) :
  (dataChannel (service w) = None
   ∨ ∃ channel, dataChannel (service w) = Some channel ∧ readyState channel ≠ dc_open) →
  WebRTC.sendMessage message env w = (w, [], Returned tt).
Proof.
  intros [H | (channel & H & Hne)]; unfold WebRTC.sendMessage;
    rewrite bind_get, H.
  - reflexivity.
  - rewrite bool_decide_eq_false_2 by done. reflexivity.
Qed.

Lemma sendMessage_without_open_channel_witness :
  let w := world_of (run [(PageMounts "r1" "alice" (7 # 10)%Q, fair 1000);
                          (TimerFires FallbackTimer, fair 4000)]
                         (initialWorld emptyStorage)) in
  dataChannel (service w) = Some {| readyState := dc_connecting |}
  ∧ WebRTC.sendMessage "hello" (fair 4500) w = (w, [], Returned tt).
Proof.
  split; [reflexivity |].
  apply sendMessage_without_open_channel.
  right. exists {| readyState := dc_connecting |}. split; [reflexivity | discriminate].
Defined.

(** ** C9: a stale answer *)

(** C9 as stated fails when there is no connection at all, which is
    also a state without a pending local offer.  Alice, elected
    initiator, has her connection negotiated; the transport is lost and
    [handleDisconnection] drops the connection until the retry.  A stale
    answer of bob that arrives in that second is not just ignored: the
    handler makes a new connection and alice becomes a receiver. *)
Lemma stale_answer_after_transport_loss :
  let lost := run [(PageMounts "r1" "alice" (7 # 10)%Q, fair 1000);
                   (RelayFrame (token "bob" (3 # 10)%Q 1001), fair 1040);
                   (RelayFrame (envelope answer (SessionDescription "sdp-answer") "bob"),
                    fair 1100);
                   transportLost 10000]
                  (initialWorld emptyStorage) in
  let m := envelope answer (SessionDescription "sdp-answer") "bob" in
  let r := deliver m (fair 10500) (world_of lost) in
  peerConnection (service (world_of lost)) = None
  ∧ isInitiator (service (world_of lost)) = true
  ∧ trace_of r = [PcNew 2]
  ∧ peerConnection (service (world_of r)) = Some {| pcId := 2; signalingState := stable |}
  ∧ isInitiator (service (world_of r)) = false
  ∧ r ≠ (world_of lost, [], Returned tt).
Proof.
  intros lost m r. repeat split; try (vm_compute; reflexivity).
  intros H. apply (f_equal trace_of) in H. vm_compute in H. discriminate H.
Qed.

(** C9, amended.  An answer envelope handled while no local offer is
    pending returns without an exception and leaves the
    remote-description flag and the pending candidates as they were.
    With a peer connection in another state than [have-local-offer] it
    is ignored altogether: no call on the primitive, no callback (empty
    trace), the world as it was, hence the same connection instance and
    role.  With no peer connection the handler first makes a receiver
    connection: the only call is the creation of a connection with a new
    id, in the [stable] state, the role becomes receiver and nothing
    else changes; the answer itself is then ignored as well. *)
Theorem answer_ignored_without_local_offer
    (w : World) (m : SignalMessage) (env : Env) :
  type m = answer →
  (∀ pc, peerConnection (service w) = Some pc → signalingState pc ≠ have_local_offer) →
  wp (WebRTC.handleSignalingMessage m env) w (λ w' t r,
    r = Returned tt
    ∧ remoteDescriptionSet (service w') = remoteDescriptionSet (service w)
    ∧ pendingIceCandidates (service w') = pendingIceCandidates (service w)
    ∧ match peerConnection (service w) with
      | Some _ => t = [] ∧ w' = w
      | None =>
          t = [PcNew (nextPcId w)]
          ∧ w' = {| storage := storage w; signaling := signaling w;
                    service :=
                      WebRTC.set_peerConnection
                        (Some {| pcId := nextPcId w; signalingState := stable |})
                        (WebRTC.set_isInitiator false (service w));
                    chat := chat w; timers := timers w;
                    nextPcId := S (nextPcId w) |}
      end).
Proof.
  intros Ht Hst. unfold WebRTC.handleSignalingMessage. rewrite Ht.
  wp_steps. destruct (peerConnection (service w)) as [pc |] eqn:Hpc.
  - wp_steps. rewrite ?Hpc. wp_steps.
    rewrite bool_decide_eq_false_2 by (apply Hst; reflexivity). cbn [negb].
    wp_steps. rewrite ?Hpc. done.
  - wp_steps. rewrite ?Hpc. done.
Qed.

Lemma answer_ignored_without_local_offer_witness :
  let w := world_of (joins "bob" (3 # 10)%Q 1000 emptyStorage) in
  let m := envelope answer (SessionDescription "sdp-answer") "alice" in
  peerConnection (service w) = Some {| pcId := 0; signalingState := stable |}
  ∧ wp (WebRTC.handleSignalingMessage m (fair 1100)) w (λ w' t r,
      r = Returned tt
      ∧ remoteDescriptionSet (service w') = remoteDescriptionSet (service w)
      ∧ pendingIceCandidates (service w') = pendingIceCandidates (service w)
      ∧ t = [] ∧ w' = w).
Proof.
  intros w m. split; [reflexivity |].
  apply (answer_ignored_without_local_offer w m (fair 1100));
    [reflexivity | intros pc Hpc; injection Hpc as <-; discriminate].
Defined.

(** The callback of the chat page hands the envelope to the service, so
    it is ignored there as well. *)
Lemma stale_answer_through_chat_callback
    (w : World) (m : SignalMessage) (env : Env) (pc : RTCPeerConnection) :
  type m = answer →
  peerConnection (service w) = Some pc →
  signalingState pc ≠ have_local_offer →
  Chat.signalMessageCallback m env w = (w, [], Returned tt).
Proof.
  intros Ht Hpc Hst. unfold Chat.signalMessageCallback. rewrite Ht, log_then.
  unfold WebRTC.handleSignalingMessage. rewrite Ht.
  cbv [mbind M_bind mret M_ret get try_catch log]. rewrite Hpc. cbv beta iota. rewrite Hpc.
  rewrite bool_decide_eq_false_2 by done. reflexivity.
Qed.

(** With no connection instance at all the handler first creates a
    receiver connection, and then ignores the answer. *)
Lemma answer_without_connection (w : World) (m : SignalMessage) (env : Env) :
  type m = answer →
  peerConnection (service w) = None →
  wp (WebRTC.handleSignalingMessage m env) w (λ w' t r,
    t = [PcNew (nextPcId w)]
    ∧ peerConnection (service w')
      = Some {| pcId := nextPcId w; signalingState := stable |}
    ∧ remoteDescriptionSet (service w') = remoteDescriptionSet (service w)
    ∧ pendingIceCandidates (service w') = pendingIceCandidates (service w)
    ∧ r = Returned tt).
Proof.
  intros Ht Hpc. unfold WebRTC.handleSignalingMessage. rewrite Ht.
  wp_steps. rewrite Hpc. wp_steps. done.
Qed.

(** ** An invariant of the reachable worlds *)

Section Respects.
Context (R : World → World → Prop) `{!PreOrder R}.

Lemma respects_ret {A} (a : A) : respects R (mret a).
Proof. intros w. reflexivity. Qed.

Lemma respects_get : respects R get.
Proof. intros w. reflexivity. Qed.

Lemma respects_emit e : respects R (emit e).
Proof. intros w. reflexivity. Qed.

Lemma respects_throw {A} e : respects R (throw (A:=A) e).
Proof. intros w. reflexivity. Qed.

Lemma respects_modify f : (∀ w, R w (f w)) → respects R (modify f).
Proof. intros H w. apply H. Qed.

Lemma respects_storage_call {A} (f : LocalStorage → LocalStorage * A) :
  (∀ w st, R w (with_storage (λ _, st) w)) → respects R (storage_call f).
Proof.
  intros H w. unfold storage_call, world_of.
  destruct (f (storage w)) as [st a]. apply H.
Qed.

Lemma respects_bind {A B} (m : M A) (f : A → M B) :
  respects R m → (∀ a, respects R (f a)) → respects R (m ≫= f).
Proof.
  intros Hm Hf w. specialize (Hm w). revert Hm.
  unfold world_of. cbv [mbind M_bind].
  destruct (m w) as [[w1 t1] [a | e]]; cbn; [| exact id].
  intros Hm. specialize (Hf a w1). revert Hf. unfold world_of.
  destruct (f a w1) as [[w2 t2] r2]. cbn. intros Hf. etransitivity; eassumption.
Qed.

Lemma respects_try_catch {A} (m : M A) (h : Exn → M A) :
  respects R m → (∀ e, respects R (h e)) → respects R (try_catch m h).
Proof.
  intros Hm Hh w. specialize (Hm w). revert Hm.
  unfold world_of, try_catch.
  destruct (m w) as [[w1 t1] [a | e]]; cbn; [exact id |].
  intros Hm. specialize (Hh e w1). revert Hh. unfold world_of.
  destruct (h e w1) as [[w2 t2] r2]. cbn. intros Hh. etransitivity; eassumption.
Qed.

Lemma respects_for_each {A} (l : list A) (f : A → M unit) :
  (∀ x, respects R (f x)) → respects R (for_each l f).
Proof.
  intros Hf. induction l as [| x l IH]; cbn [for_each].
  - apply respects_ret.
  - apply respects_bind; [apply Hf | intros _; exact IH].
Qed.

Lemma wp_respects {A} (m : M A) w (Q : World → list Effect → Completion A → Prop) :
  respects R m → (∀ w' t r, R w w' → Q w' t r) → wp m w Q.
Proof. intros Hm HQ. apply HQ, Hm. Qed.
End Respects.

#[global] Instance callbacks_kept_preorder : PreOrder callbacks_kept.
Proof. split; unfold callbacks_kept; [intros w; exact id | intros w1 w2 w3; tauto]. Qed.

#[global] Instance session_kept_preorder : PreOrder session_kept.
Proof.
  split; unfold session_kept, callbacks_kept.
  - intros w. tauto.
  - intros w1 w2 w3. tauto.
Qed.

(** Structural proof that a method respects a relation: the relation has
    to be checked on the field updates only. *)
Ltac respects_update :=
  intros; unfold session_kept, callbacks_kept; simpl_world;
  first [ tauto | (repeat split; intros; try tauto; try discriminate; auto) ].

Ltac respects_step :=
  cbv zeta;
  lazymatch goal with
  | |- respects ?R (mbind _ _) => apply (respects_bind R); [| intros ?]
  | |- respects _ (mret _) => apply (respects_ret _)
  | |- respects _ get => apply (respects_get _)
  | |- respects _ (emit _) => apply (respects_emit _)
  | |- respects _ (throw _) => apply (respects_throw _)
  | |- respects _ log => apply (respects_ret _)
  | |- respects _ (modify _) => apply respects_modify; respects_update
  | |- respects _ (storage_do _) => apply respects_modify; respects_update
  | |- respects _ (WebRTC.assign _) => apply respects_modify; respects_update
  | |- respects _ (storage_call _) => apply respects_storage_call; respects_update
  | |- respects ?R (try_catch _ _) => apply (respects_try_catch R); [| intros ?]
  | |- respects ?R (for_each _ _) => apply (respects_for_each R); intros ?
  | |- respects _ (when ?b _) => unfold when
  | |- respects _ (if ?b then _ else _) => destruct b
  | |- respects _ (match ?x with _ => _ end) => destruct x
  | |- respects _ (setTimeout _ _) => unfold setTimeout
  | |- respects _ WebRTC.setupDataChannelHandlers => apply (respects_ret _)
  | |- respects _ (WebRTC.callback _) => unfold WebRTC.callback
  | |- respects _ WebRTC.closePeerConnection => unfold WebRTC.closePeerConnection
  | |- respects _ WebRTC.createPeerConnection => unfold WebRTC.createPeerConnection
  | |- respects _ WebRTC.createPeerConnectionAsReceiver =>
      unfold WebRTC.createPeerConnectionAsReceiver
  | |- respects _ (WebRTC.createPeerConnectionAsInitiator _) =>
      unfold WebRTC.createPeerConnectionAsInitiator
  | |- respects _ WebRTC.setupDataChannel => unfold WebRTC.setupDataChannel
  | |- respects _ (WebRTC.pc_transition _) => unfold WebRTC.pc_transition
  | |- respects _ (WebRTC.pc_createOffer _) => unfold WebRTC.pc_createOffer
  | |- respects _ (WebRTC.pc_createAnswer _) => unfold WebRTC.pc_createAnswer
  | |- respects _ (WebRTC.pc_setLocalDescription _ _ _) =>
      unfold WebRTC.pc_setLocalDescription
  | |- respects _ (WebRTC.pc_setRemoteDescription _ _ _) =>
      unfold WebRTC.pc_setRemoteDescription
  | |- respects _ (WebRTC.pc_addIceCandidate _ _) => unfold WebRTC.pc_addIceCandidate
  | |- respects _ (WebRTC.newRTCSessionDescription _) =>
      unfold WebRTC.newRTCSessionDescription
  | |- respects _ (WebRTC.newRTCIceCandidate _) => unfold WebRTC.newRTCIceCandidate
  | |- respects _ WebRTC.loadStoredMessages => unfold WebRTC.loadStoredMessages
  | |- respects _ WebRTC.persistMessages => unfold WebRTC.persistMessages
  | |- respects _ WebRTC.processPendingIceCandidates =>
      unfold WebRTC.processPendingIceCandidates
  | |- respects _ (WebRTC.cleanup _) => unfold WebRTC.cleanup
  | |- respects _ (WebRTC.sendMessage _ _) => unfold WebRTC.sendMessage
  | |- respects _ (WebRTC.endSession _) => unfold WebRTC.endSession
  | |- respects _ WebRTC.handleDisconnection => unfold WebRTC.handleDisconnection
  | |- respects _ WebRTC.attemptReconnection => unfold WebRTC.attemptReconnection
  | |- respects _ (WebRTC.reconnectTimer _) => unfold WebRTC.reconnectTimer
  | |- respects _ (WebRTC.onicecandidate _) => unfold WebRTC.onicecandidate
  | |- respects _ (WebRTC.oniceconnectionstatechange _) =>
      unfold WebRTC.oniceconnectionstatechange
  | |- respects _ (WebRTC.ondatachannel _) => unfold WebRTC.ondatachannel
  | |- respects _ WebRTC.onconnectionstatechange => unfold WebRTC.onconnectionstatechange
  | |- respects _ WebRTC.dataChannel_onopen => unfold WebRTC.dataChannel_onopen
  | |- respects _ WebRTC.dataChannel_onclose => unfold WebRTC.dataChannel_onclose
  | |- respects _ (WebRTC.dataChannel_onmessage _) => unfold WebRTC.dataChannel_onmessage
  | |- respects _ (WebRTC.handleSignalingMessage _ _) =>
      unfold WebRTC.handleSignalingMessage
  | |- respects _ Signaling.isConnected => unfold Signaling.isConnected
  | |- respects _ (Signaling.sendSignalMessage _ _) => unfold Signaling.sendSignalMessage
  | |- respects _ (Signaling.sendKeepAlive _) => unfold Signaling.sendKeepAlive
  | |- respects _ (Signaling.onConnect _ _ _) => unfold Signaling.onConnect
  | |- respects _ (Signaling.connect _ _ _) => unfold Signaling.connect
  | |- respects _ (Signaling.endSession _) => unfold Signaling.endSession
  | |- respects _ (Signaling.disconnect _) => unfold Signaling.disconnect
  | |- respects _ (Signaling.keepAliveTick _) => unfold Signaling.keepAliveTick
  | |- respects _ (Signaling.onSignalMessage _) =>
      apply respects_modify; respects_update
  | |- respects _ (Chat.signalMessageCallback _ _) => unfold Chat.signalMessageCallback
  | |- respects _ (Chat.fallbackTimer _) => unfold Chat.fallbackTimer
  | |- respects _ (Chat.unmount _ _) => unfold Chat.unmount
  | |- respects _ (channel_becomes _) => unfold channel_becomes
  | |- respects _ (deliver _ _) => unfold deliver
  | |- respects _ (fire _ _) => unfold fire
  end.

Ltac respects_auto := repeat respects_step.

(** Every event but the mount of the page. *)
Lemma handle_session_kept (ev : Event) (env : Env) :
  (∀ room nick value, ev ≠ PageMounts room nick value) →
  respects session_kept (handle ev env).
Proof.
  intros Hev. destruct ev; cbn [handle];
    try (exfalso; eapply Hev; reflexivity); respects_auto.
Qed.

(** The mount of the page installs the callbacks. *)
Lemma initializeChat_installs_callbacks (room nick : string) (value : Q) (env : Env) (w : World) :
  callbacks (service (world_of (Chat.initializeChat room nick value env w))) = PageCallbacks.
Proof.
  change (wp (Chat.initializeChat room nick value env) w
            (λ w' _ _, callbacks (service w') = PageCallbacks)).
  unfold Chat.initializeChat, WebRTC.initialize.
  wp_step. wp_step. wp_step. wp_step. wp_step. wp_step.
  apply (wp_respects callbacks_kept); [respects_auto |].
  intros w1 t1 r1 H1. specialize (H1 eq_refl).
  destruct r1 as [[] | e].
  - apply (wp_respects callbacks_kept); [respects_auto |].
    intros w2 t2 r2 H2. specialize (H2 H1). destruct r2; exact H2.
  - apply (wp_respects callbacks_kept); [respects_auto |].
    intros w2 t2 r2 H2. exact (H2 H1).
Qed.

(** In every reachable world an active session, and a registered
    signaling callback, have the callbacks of the page. *)
Lemma reachable_session_has_callbacks (w : World) :
  reachable w → session_has_callbacks w.
Proof.
  induction 1 as [st | w ev env Hw [IHact IHcb]].
  - split; cbn; [discriminate | congruence].
  - destruct ev as [room nick value | | | | | | | | | | | |];
      [ split; intros _; apply initializeChat_installs_callbacks | .. ];
      match goal with
      | |- session_has_callbacks (world_of (handle ?ev env w)) =>
          destruct (handle_session_kept ev env ltac:(discriminate) w)
            as (Hkept & Hact & Hcb)
      end;
      (split; [intros H; destruct (Hact H); auto | intros H; destruct (Hcb H); auto]).
Qed.

(** ** Two more invariants of the handlers *)

#[global] Instance preserves_preorder (P : World → Prop) : PreOrder (preserves P).
Proof. split; unfold preserves; [intros w; exact id | intros w1 w2 w3; tauto]. Qed.

Lemma connect_keeps_connectedWithIds (room user : string) (env : Env) :
  respects (preserves connectedWithIds) (Signaling.connect room user env).
Proof.
  intros w Hinv.
  change (wp (Signaling.connect room user env) w (λ w' _ _, connectedWithIds w')).
  wp_connect; unfold connectedWithIds in *; simpl_world; intros; eauto.
Qed.

Lemma handleDisconnection_keeps_attemptsBounded :
  respects (preserves attemptsBounded) WebRTC.handleDisconnection.
Proof.
  intros w Hinv.
  change (wp WebRTC.handleDisconnection w (λ w' _ _, attemptsBounded w')).
  unfold WebRTC.handleDisconnection. wp_auto;
    unfold attemptsBounded in *; simpl_world; try assumption;
    match goal with
    | H : (_ <? _) = true |- _ => apply Nat.ltb_lt in H; lia
    end.
Qed.

(** The structural proof, with the two context-dependent updates taken
    from the lemmas above. *)
Ltac preserves_auto :=
  repeat first
    [ apply connect_keeps_connectedWithIds
    | apply handleDisconnection_keeps_attemptsBounded
    | lazymatch goal with
      | |- respects _ (Chat.initializeChat _ _ _ _) => unfold Chat.initializeChat
      | |- respects _ (WebRTC.initialize _ _ _) => unfold WebRTC.initialize
      end
    | respects_step ];
  unfold preserves, connectedWithIds, attemptsBounded, maxReconnectAttempts in *;
  simpl_world; intros;
  try tauto; try discriminate; try lia; eauto.

Lemma handle_keeps_connectedWithIds (ev : Event) (env : Env) :
  respects (preserves connectedWithIds) (handle ev env).
Proof. destruct ev; cbn [handle]; preserves_auto. Qed.

Lemma handle_keeps_attemptsBounded (ev : Event) (env : Env) :
  respects (preserves attemptsBounded) (handle ev env).
Proof. destruct ev; cbn [handle]; preserves_auto. Qed.

(** Executions stay within the reachable worlds. *)
Lemma run_reachable (evs : list (Event * Env)) (w : World) :
  reachable w → reachable (world_of (run evs w)).
Proof.
  revert w. induction evs as [| [ev env] evs IH]; intros w Hw; cbn [run].
  - exact Hw.
  - pose proof (reachable_event w ev env Hw) as H1. revert H1.
    unfold world_of. cbv [mbind M_bind try_catch mret M_ret].
    destruct (handle ev env w) as [[w1 t1] [[] | e]]; cbn [fst snd]; intros H1;
      specialize (IH w1 H1); revert IH; unfold world_of;
      destruct (run evs w1) as [[w2 t2] r2]; exact id.
Qed.


(** ** C6: a participant's own envelopes *)

(** C6 as stated fails: the subscription hands every ['room-full']
    envelope to the callback without looking at its sender.  Here alice
    receives her own. *)
Lemma own_room_full_is_delivered :
  let w := world_of (joins "alice" (7 # 10)%Q 1000 emptyStorage) in
  let m := envelope room_full (RoomFullNotice "Room is already full with 2 participants") "alice" in
  sig_userId (signaling w) = Some (senderId m)
  ∧ Signaling.subscription (signaling w) m = Some ChatHandler
  ∧ trace_of (deliver m (fair 1010) w) = [OnRoomFull].
Proof. vm_compute. done. Qed.

(** C6, amended.  An envelope whose [senderId] is the local [userId] and
    whose type is not ['room-full'] is never handed to the registered
    callback: the delivery changes nothing and calls nothing. *)
Theorem own_envelope_dropped_unless_room_full
    (w : World) (m : SignalMessage) (env : Env) :
  sig_userId (signaling w) = Some (senderId m) →
  type m ≠ room_full →
  Signaling.subscription (signaling w) m = None
  ∧ deliver m env w = (w, [], Returned tt).
Proof.
  intros Hself Hty.
  assert (Hsub : Signaling.subscription (signaling w) m = None).
  { unfold Signaling.subscription. rewrite Hself.
    rewrite bool_decide_eq_true_2 by reflexivity.
    destruct (messageCallback (signaling w)); [| reflexivity].
    destruct (type m); try reflexivity. contradiction. }
  split; [exact Hsub |].
  rewrite deliver_eq, Hsub. reflexivity.
Qed.

Lemma own_envelope_dropped_unless_room_full_witness :
  let w := world_of (joins "alice" (7 # 10)%Q 1000 emptyStorage) in
  let m := envelope offer (SessionDescription "sdp-offer") "alice" in
  Signaling.subscription (signaling w) m = None
  ∧ deliver m (fair 1010) w = (w, [], Returned tt).
Proof.
  apply own_envelope_dropped_unless_room_full; [reflexivity | discriminate].
Defined.

(** ** C5: an end-session envelope from the peer *)

(** C5 as stated fails in its last part: the handler does not look at
    [isSessionActive].  Alice ends the session herself; an end-session
    envelope of bob that is still delivered afterwards is handled like
    any other, and reports the end of the session a second time, now as
    ended by the peer. *)
Lemma end_session_when_inactive_is_not_a_noop :
  let ended := run [(PageMounts "r1" "alice" (7 # 10)%Q, fair 1000);
                    (UserEndsSession, fair 2000)] (initialWorld emptyStorage) in
  let m := envelope end_session (EndSessionNotice 2001 "Session ended by peer") "bob" in
  let r := deliver m (fair 2010) (world_of ended) in
  isSessionActive (service (world_of ended)) = false
  ∧ sessionEnded (trace_of ended) = [false]
  ∧ trace_of r = [OnSessionEnded true; StompDeactivate]
  ∧ r ≠ (world_of ended, [], Returned tt).
Proof.
  intros ended m r. repeat split; try (vm_compute; reflexivity).
  intros H. apply (f_equal trace_of) in H. vm_compute in H. discriminate H.
Qed.

Lemma disconnect_spec (env : Env) (w : World) Q :
  (∀ w' t,
     service w' = service w →
     storage_cleaned (now env) (storage w) (storage w') →
     sessionEnded t = [] →
     Q w' t (Returned tt)) →
  wp (Signaling.disconnect env) w Q.
Proof.
  intros HQ. unfold Signaling.disconnect. wp_steps.
  assert (Hkeep : storage_cleaned (now env) (storage w) (storage w)).
  { repeat split. intros room Hroom. left. exact Hroom. }
  assert (Hleave : ∀ room' user,
    storage_cleaned (now env) (storage w)
      (Storage.updateRoomParticipants room' user false (now env) (storage w)).1).
  { intros room' user. repeat split. simpl_world. intros room Hroom.
    destruct (decide (room' = room)) as [-> | Hd].
    - right. rewrite lookup_insert_eq, Hroom. reflexivity.
    - left. rewrite lookup_insert_ne by exact Hd. exact Hroom. }
  destruct (sig_roomId (signaling w)) as [room'|];
    [destruct (sig_userId (signaling w)) as [user|];
     [destruct (truthy (Some room') && truthy (Some user)) |] |];
    wp_steps;
    destruct (stompClient (signaling w)); wp_steps;
    apply HQ; try reflexivity; try exact Hkeep; apply Hleave.
Qed.

Lemma cleanup_spec (env : Env) (w : World) Q :
  (∀ w' t,
     isSessionActive (service w') = isSessionActive (service w) →
     storage_cleaned (now env) (storage w) (storage w') →
     sessionEnded t = [] →
     Q w' t (Returned tt)) →
  wp (WebRTC.cleanup env) w Q.
Proof.
  intros HQ. unfold WebRTC.cleanup. wp_steps.
  destruct (dataChannel (service w)); wp_steps;
    destruct (peerConnection (service w)); wp_steps;
    apply disconnect_spec; intros w' t Hsvc Hst Hse; simpl_world;
    apply HQ; try (rewrite Hsvc; reflexivity); try exact Hst;
    unfold sessionEnded in *; cbn; rewrite ?app_nil_r; exact Hse.
Qed.

(** C5, amended.  An end-session envelope of another sender, delivered
    to the registered callback, is handled whether the session is still
    active or not: afterwards the current room has no persisted messages
    and no recorded participant (its participants record is removed; the
    disconnect of the cleanup writes an empty one back when the relay
    client still holds this room), the session record is gone, the
    session is inactive, and the end of the session was reported once, as
    ended by the peer, without an exception. *)
Theorem end_session_from_peer
    (w : World) (m : SignalMessage) (env : Env)
    (room : string) (callback : SignalMessageCallback) :
  reachable w →
  type m = end_session →
  messageCallback (signaling w) = Some callback →
  sig_userId (signaling w) ≠ Some (senderId m) →
  svc_roomId (service w) = Some room →
  room ≠ "" →
  wp (deliver m env) w (λ w' t r,
    MESSAGES_KEY (storage w') !! room = None
    ∧ (PARTICIPANTS_KEY (storage w') !! room = None
       ∨ PARTICIPANTS_KEY (storage w') !! room
         = Some {| count := 0; users := []; lastUpdated := now env |})
    ∧ SESSION_KEY (storage w') = None
    ∧ isSessionActive (service w') = false
    ∧ sessionEnded t = [true]
    ∧ r = Returned tt).
Proof.
  intros Hreach Hty Hcb Hother Hroom Hne.
  assert (Hcbs : callbacks (service w) = PageCallbacks).
  { apply (reachable_session_has_callbacks w Hreach). rewrite Hcb. discriminate. }
  assert (Hsub : Signaling.subscription (signaling w) m = Some callback).
  { unfold Signaling.subscription. rewrite Hcb, Hty.
    rewrite bool_decide_eq_false_2 by congruence. reflexivity. }
  assert (Htr : truthy (Some room) = true) by (apply truthy_nonempty; exact Hne).
  assert (Hsame : deliver m env w = WebRTC.handleSignalingMessage m env w).
  { rewrite deliver_eq, Hsub. destruct callback; [reflexivity |].
    unfold Chat.signalMessageCallback. rewrite Hty. apply log_then. }
  apply (wp_eq _ _ _ _ Hsame). clear Hsame Hsub.
  unfold WebRTC.handleSignalingMessage. rewrite Hty.
  wp_steps. rewrite Hroom, Htr. wp_steps. rewrite Hcbs. wp_steps.
  apply cleanup_spec. simpl_world. intros w' t Hact (Hse & Hme & Hpa) Hend.
  cbn in Hse, Hme, Hpa. rewrite Hme, Hse, Hact, lookup_delete_eq.
  repeat split; try reflexivity.
  - apply Hpa, lookup_delete_eq.
  - unfold sessionEnded in *. cbn. rewrite Hend. reflexivity.
Qed.

Lemma end_session_from_peer_witness :
  let w := world_of (joins "alice" (7 # 10)%Q 1000 emptyStorage) in
  let m := envelope end_session (EndSessionNotice 2001 "Session ended by peer") "bob" in
  isSessionActive (service w) = true
  ∧ wp (deliver m (fair 2010)) w (λ w' t r,
      MESSAGES_KEY (storage w') !! "r1" = None
      ∧ (PARTICIPANTS_KEY (storage w') !! "r1" = None
         ∨ PARTICIPANTS_KEY (storage w') !! "r1"
           = Some {| count := 0; users := []; lastUpdated := 2010 |})
      ∧ SESSION_KEY (storage w') = None
      ∧ isSessionActive (service w') = false
      ∧ sessionEnded t = [true]
      ∧ r = Returned tt).
Proof.
  intros w m. split; [reflexivity |].
  apply (end_session_from_peer w m (fair 2010) "r1" ChatHandler);
    first [reflexivity | discriminate | apply reachable_event, reachable_load].
Defined.

(** ** Negotiation: C8 and C3 *)

(** C8. An offer handled while the peer connection is not [stable]
    resets the negotiation and is then processed against the new
    instance.  With a primitive that accepts the descriptions and a
    connected relay client the handler does exactly this, in this order:
    it closes the current instance, creates a fresh one, applies the
    offer to the fresh one as remote description, creates the answer,
    applies it as local description and publishes it.  None of the
    candidates that were pending is applied: the buffer was discarded,
    and it is empty afterwards; the remote-description flag, cleared by
    the reset, is set again by the offer just applied. *)
Theorem offer_in_unstable_state_resets
    (w : World) (m : SignalMessage) (env : Env) (pc : RTCPeerConnection)
    (description answerDesc : SDP) (room user : string) :
  type m = offer →
  content m = SessionDescription description →
  peerConnection (service w) = Some pc →
  signalingState pc ≠ stable →
  setRemoteDescriptionOk env = true →
  createAnswerResult env = Some answerDesc →
  setLocalDescriptionOk env = true →
  connected (signaling w) = true →
  stompClient (signaling w) = true →
  sig_roomId (signaling w) = Some room → room ≠ "" →
  sig_userId (signaling w) = Some user → user ≠ "" →
  wp (WebRTC.handleSignalingMessage m env) w (λ w' t r,
    let fresh := nextPcId w in
    t = [PcClose (pcId pc); PcNew fresh;
         PcSetRemoteDescription fresh description;
         PcCreateAnswer fresh;
         PcSetLocalDescription fresh answerDesc;
         Publish {| type := answer; content := SessionDescription answerDesc;
                    roomId := room; senderId := user |}]
    ∧ peerConnection (service w') = Some {| pcId := fresh; signalingState := stable |}
    ∧ pendingIceCandidates (service w') = []
    ∧ remoteDescriptionSet (service w') = true
    ∧ r = Returned tt).
Proof.
  intros Hty Hc Hpc Hst Hsr Hca Hsl Hcon Hstomp Hroom Hrne Huser Hune.
  apply truthy_nonempty in Hrne, Hune.
  unfold WebRTC.handleSignalingMessage. rewrite Hty.
  wp_steps. rewrite Hpc. wp_steps. rewrite Hpc. wp_steps.
  rewrite bool_decide_eq_false_2 by exact Hst. cbn [negb].
  wp_steps. rewrite Hpc. wp_steps. rewrite Hc. wp_steps. rewrite Hsr. wp_steps.
  unfold WebRTC.processPendingIceCandidates. wp_steps.
  rewrite Hca. wp_steps. rewrite Hsl. wp_steps.
  rewrite Hcon, Hstomp. cbn [andb]. wp_steps.
  rewrite Hcon, Hstomp, Hroom, Huser, Hrne, Hune. cbn [negb orb]. wp_steps.
  done.
Qed.

Lemma offer_in_unstable_state_resets_witness :
  let w := world_of (run [(PageMounts "r1" "alice" (7 # 10)%Q, fair 1000);
                          (TimerFires FallbackTimer, fair 4000);
                          (RelayFrame (envelope ice_candidate (IceCandidateInit "c1") "bob"),
                           fair 4100)]
                         (initialWorld emptyStorage)) in
  let m := envelope offer (SessionDescription "sdp-offer-bob") "bob" in
  peerConnection (service w) = Some {| pcId := 1; signalingState := have_local_offer |}
  ∧ pendingIceCandidates (service w) = ["c1"]
  ∧ wp (WebRTC.handleSignalingMessage m (fair 4200)) w (λ w' t r,
      t = [PcClose 1; PcNew 2;
           PcSetRemoteDescription 2 "sdp-offer-bob";
           PcCreateAnswer 2;
           PcSetLocalDescription 2 "sdp-answer";
           Publish (envelope answer (SessionDescription "sdp-answer") "alice")]
      ∧ peerConnection (service w') = Some {| pcId := 2; signalingState := stable |}
      ∧ pendingIceCandidates (service w') = []
      ∧ remoteDescriptionSet (service w') = true
      ∧ r = Returned tt).
Proof.
  intros w m. split; [reflexivity |]. split; [reflexivity |].
  apply (offer_in_unstable_state_resets w m (fair 4200)
           {| pcId := 1; signalingState := have_local_offer |}
           "sdp-offer-bob" "sdp-answer" "r1" "alice");
    first [reflexivity | discriminate].
Defined.

(** When the primitive rejects the offer the reset stays visible: a
    fresh instance, no pending candidate, the flag cleared. *)
Lemma offer_reset_then_rejected
    (w : World) (m : SignalMessage) (env : Env) (pc : RTCPeerConnection)
    (description : SDP) :
  type m = offer →
  content m = SessionDescription description →
  peerConnection (service w) = Some pc →
  signalingState pc ≠ stable →
  setRemoteDescriptionOk env = false →
  wp (WebRTC.handleSignalingMessage m env) w (λ w' t r,
    t = [PcClose (pcId pc); PcNew (nextPcId w);
         PcSetRemoteDescription (nextPcId w) description]
    ∧ peerConnection (service w')
      = Some {| pcId := nextPcId w; signalingState := stable |}
    ∧ pendingIceCandidates (service w') = []
    ∧ remoteDescriptionSet (service w') = false
    ∧ r = Returned tt).
Proof.
  intros Hty Hc Hpc Hst Hsr.
  unfold WebRTC.handleSignalingMessage. rewrite Hty.
  wp_steps. rewrite Hpc. wp_steps. rewrite Hpc. wp_steps.
  rewrite bool_decide_eq_false_2 by exact Hst. cbn [negb].
  wp_steps. rewrite Hpc. wp_steps. rewrite Hc. wp_steps. rewrite Hsr. wp_steps.
  done.
Qed.

(** *** The pending candidates *)

Lemma for_each_emit {A} (f : A → Effect) (l : list A) w Q :
  Q w (map f l) (Returned tt) → wp (for_each l (λ x, emit (f x))) w Q.
Proof.
  revert Q. induction l as [| x l IH]; intros Q HQ; cbn [for_each].
  - apply wp_ret, HQ.
  - apply wp_bind, wp_emit. cbv beta iota. apply IH. exact HQ.
Qed.

Lemma appliedCandidates_flush (pc : nat) (l : list RTCIceCandidate) :
  appliedCandidates (map (PcAddIceCandidate pc) l) = map (pair pc) l.
Proof.
  unfold appliedCandidates. induction l as [| c l IH]; cbn; [| rewrite IH]; reflexivity.
Qed.

(** [processPendingIceCandidates] once the flag is set: one call of
    [addIceCandidate] per pending candidate, in the order of the buffer,
    on the current connection; then the buffer is empty. *)
Lemma processPendingIceCandidates_spec (w : World) (pc : RTCPeerConnection) Q :
  peerConnection (service w) = Some pc →
  remoteDescriptionSet (service w) = true →
  Q (with_service (WebRTC.set_pendingIceCandidates []) w)
    (map (PcAddIceCandidate (pcId pc)) (pendingIceCandidates (service w)))
    (Returned tt) →
  wp WebRTC.processPendingIceCandidates w Q.
Proof.
  intros Hpc Hflag HQ. unfold WebRTC.processPendingIceCandidates.
  wp_steps. rewrite Hpc, Hflag. cbn [negb orb].
  destruct (pendingIceCandidates (service w)) as [| c l] eqn:Hp; cbn [length Nat.eqb].
  - wp_steps.
    destruct w as [st sg [pc' dc room nick cbs ini msgs rec att act pend flag] ch ts nx].
    cbn in Hp. subst pend. exact HQ.
  - wp_steps. apply for_each_emit. wp_steps. rewrite app_nil_r. exact HQ.
Qed.

(** An ice-candidate envelope handled while the flag is not set only
    appends its candidate to the buffer. *)
Lemma candidate_is_buffered
    (w : World) (m : SignalMessage) (env : Env)
    (pc : RTCPeerConnection) (c : RTCIceCandidate) :
  type m = ice_candidate →
  content m = IceCandidateInit c →
  peerConnection (service w) = Some pc →
  remoteDescriptionSet (service w) = false →
  WebRTC.handleSignalingMessage m env w
  = (with_service (λ this, WebRTC.set_pendingIceCandidates
                             (pendingIceCandidates this ++ [c]) this) w,
     [], Returned tt).
Proof.
  intros Hty Hc Hpc Hflag. unfold WebRTC.handleSignalingMessage. rewrite Hty.
  cbv [mbind M_bind mret M_ret get try_catch log WebRTC.newRTCIceCandidate
       WebRTC.assign modify].
  rewrite Hpc. cbv beta iota. rewrite Hc. cbv beta iota. rewrite Hflag. reflexivity.
Qed.

(** Without a connection instance the handler creates a receiver
    connection first; the candidate is buffered all the same. *)
Lemma candidate_is_buffered_without_connection
    (w : World) (m : SignalMessage) (env : Env) (c : RTCIceCandidate) :
  type m = ice_candidate →
  content m = IceCandidateInit c →
  peerConnection (service w) = None →
  remoteDescriptionSet (service w) = false →
  wp (WebRTC.handleSignalingMessage m env) w (λ w' t r,
    pendingIceCandidates (service w') = pendingIceCandidates (service w) ++ [c]
    ∧ t = [PcNew (nextPcId w)]
    ∧ r = Returned tt).
Proof.
  intros Hty Hc Hpc Hflag. unfold WebRTC.handleSignalingMessage. rewrite Hty.
  wp_steps. rewrite Hpc. wp_steps. rewrite Hc. wp_steps. rewrite Hflag. wp_steps. done.
Qed.

Lemma candidatesOf_cons (m : SignalMessage) (ms : list SignalMessage) (c : RTCIceCandidate) :
  content m = IceCandidateInit c → candidatesOf (m :: ms) = c :: candidatesOf ms.
Proof. intros Hc. unfold candidatesOf. cbn. rewrite Hc. reflexivity. Qed.

Lemma candidates_are_buffered
    (ms : list SignalMessage) (env : Env) (pc : RTCPeerConnection) (w : World) Q :
  Forall isCandidateEnvelope ms →
  peerConnection (service w) = Some pc →
  remoteDescriptionSet (service w) = false →
  Q (with_service (λ this, WebRTC.set_pendingIceCandidates
                             (pendingIceCandidates this ++ candidatesOf ms) this) w)
    [] (Returned tt) →
  wp (handleAll ms env) w Q.
Proof.
  intros Hms. revert w Q. induction Hms as [| m ms (Hty & c & Hc) _ IH];
    intros w Q Hpc Hflag HQ; unfold handleAll; cbn [for_each].
  - apply wp_ret.
    destruct w as [st sg [pc' dc room nick cbs ini msgs rec att act pend flag] ch ts nx].
    revert HQ. simpl_world. change (candidatesOf []) with (@nil RTCIceCandidate).
    rewrite app_nil_r. exact id.
  - apply wp_bind.
    apply (wp_run _ _ _ _ _ (candidate_is_buffered w m env pc c Hty Hc Hpc Hflag)).
    apply IH; [exact Hpc | exact Hflag |].
    revert HQ. simpl_world. rewrite (candidatesOf_cons m ms c Hc).
    rewrite <- app_assoc. exact id.
Qed.

(** The answer path: the description is applied, then the buffer is
    flushed. *)
Lemma answer_flushes_buffer
    (w : World) (m : SignalMessage) (env : Env) (pc : RTCPeerConnection)
    (description : SDP) :
  type m = answer →
  content m = SessionDescription description →
  peerConnection (service w) = Some pc →
  signalingState pc = have_local_offer →
  setRemoteDescriptionOk env = true →
  wp (WebRTC.handleSignalingMessage m env) w (λ w' t r,
    t = PcSetRemoteDescription (pcId pc) description
        :: map (PcAddIceCandidate (pcId pc)) (pendingIceCandidates (service w))
    ∧ pendingIceCandidates (service w') = []
    ∧ remoteDescriptionSet (service w') = true
    ∧ r = Returned tt).
Proof.
  intros Hty Hc Hpc Hst Hsr.
  unfold WebRTC.handleSignalingMessage. rewrite Hty.
  wp_steps. rewrite Hpc. wp_steps. rewrite Hpc. wp_steps.
  rewrite Hst. cbn [bool_decide decide_rel negb]. rewrite bool_decide_eq_true_2 by reflexivity.
  cbn [negb]. wp_steps. rewrite Hc. wp_steps. rewrite Hpc. wp_steps.
  rewrite Hsr. wp_steps. rewrite Hpc. wp_steps.
  eapply processPendingIceCandidates_spec; [reflexivity | reflexivity |].
  simpl_world. wp_steps. rewrite app_nil_r. done.
Qed.

(** The offer path in the [stable] state: the same, followed by the
    answer, in which no candidate is applied. *)
Lemma offer_flushes_buffer
    (w : World) (m : SignalMessage) (env : Env) (pc : RTCPeerConnection)
    (description : SDP) :
  type m = offer →
  content m = SessionDescription description →
  peerConnection (service w) = Some pc →
  signalingState pc = stable →
  setRemoteDescriptionOk env = true →
  wp (WebRTC.handleSignalingMessage m env) w (λ w' t r,
    pendingIceCandidates (service w') = []
    ∧ ∃ rest,
        t = PcSetRemoteDescription (pcId pc) description
            :: map (PcAddIceCandidate (pcId pc)) (pendingIceCandidates (service w))
            ++ rest
        ∧ appliedCandidates rest = []).
Proof.
  intros Hty Hc Hpc Hst Hsr.
  unfold WebRTC.handleSignalingMessage. rewrite Hty.
  wp_steps. rewrite Hpc. wp_steps. rewrite Hpc. wp_steps.
  rewrite Hst. rewrite bool_decide_eq_true_2 by reflexivity.
  cbn [negb]. wp_steps. rewrite Hc. wp_steps. rewrite Hpc. wp_steps.
  rewrite Hsr. wp_steps. rewrite Hpc. wp_steps.
  eapply processPendingIceCandidates_spec; [reflexivity | reflexivity |].
  simpl_world. wp_auto;
    rewrite ?app_nil_r, <- ?app_assoc;
    (split; [reflexivity | eexists; split; [reflexivity | reflexivity]]).
Qed.

(** The offer path in any other state: the reset empties the buffer
    before the description is applied, and no candidate is applied,
    whatever the primitive answers. *)
Lemma offer_reset_discards_buffer
    (w : World) (m : SignalMessage) (env : Env) (pc : RTCPeerConnection) :
  type m = offer →
  peerConnection (service w) = Some pc →
  signalingState pc ≠ stable →
  wp (WebRTC.handleSignalingMessage m env) w (λ w' t r,
    pendingIceCandidates (service w') = [] ∧ appliedCandidates t = []).
Proof.
  intros Hty Hpc Hst.
  unfold WebRTC.handleSignalingMessage. rewrite Hty.
  wp_steps. rewrite Hpc. wp_steps. rewrite Hpc. wp_steps.
  rewrite bool_decide_eq_false_2 by exact Hst. cbn [negb].
  repeat (wp_step || wp_case || unfold WebRTC.processPendingIceCandidates);
    split; reflexivity.
Qed.

(** C3 as stated fails on the offer path: when the offer arrives while
    the connection is not [stable], the reset throws the buffer away
    before the remote description is set.  Alice is elected initiator and
    has her offer out; a candidate of bob arrives and is buffered; then
    bob's own offer arrives.  The remote description becomes set, the
    buffer is empty, and the buffered candidate was never applied. *)
Lemma buffered_candidate_lost_on_reset :
  let before := run [(PageMounts "r1" "alice" (7 # 10)%Q, fair 1000);
                     (RelayFrame (token "bob" (3 # 10)%Q 1001), fair 1040);
                     (RelayFrame (envelope ice_candidate (IceCandidateInit "c1") "bob"),
                      fair 1050)]
                    (initialWorld emptyStorage) in
  let after := deliver (envelope offer (SessionDescription "sdp-offer-bob") "bob")
                 (fair 1060) (world_of before) in
  remoteDescriptionSet (service (world_of before)) = false
  ∧ pendingIceCandidates (service (world_of before)) = ["c1"]
  ∧ remoteDescriptionSet (service (world_of after)) = true
  ∧ pendingIceCandidates (service (world_of after)) = []
  ∧ appliedCandidates (trace_of before ++ trace_of after) = [].
Proof. vm_compute. done. Qed.

(** C3, amended.  Ice-candidate envelopes handled while the
    remote-description flag is not set are appended to the pending
    buffer, in the order of their arrival, and none is applied.  When an
    answer (in [have-local-offer]) or an offer in the [stable] state then
    sets the remote description, the handler calls [addIceCandidate]
    right after [setRemoteDescription], once for each pending candidate
    and in the order of the buffer, on the same connection, applies no
    candidate after that, and leaves the buffer empty.  When the offer
    arrives in another state the buffer is discarded by the reset: it is
    empty afterwards and no candidate is applied. *)
Theorem buffered_candidates_flushed_in_order
    (w : World) (ms : list SignalMessage) (envc env : Env) (m : SignalMessage)
    (pc : RTCPeerConnection) (description : SDP) :
  Forall isCandidateEnvelope ms →
  peerConnection (service w) = Some pc →
  remoteDescriptionSet (service w) = false →
  content m = SessionDescription description →
  setRemoteDescriptionOk env = true →
  type m = offer ∨ (type m = answer ∧ signalingState pc = have_local_offer) →
  wp (handleAll ms envc) w (λ w1 t1 r1,
    let buffer := pendingIceCandidates (service w) ++ candidatesOf ms in
    pendingIceCandidates (service w1) = buffer
    ∧ t1 = [] ∧ r1 = Returned tt
    ∧ wp (WebRTC.handleSignalingMessage m env) w1 (λ w2 t2 r2,
        pendingIceCandidates (service w2) = []
        ∧ if bool_decide (type m = offer ∧ signalingState pc ≠ stable)
          then appliedCandidates t2 = []
          else ∃ rest,
                 t2 = PcSetRemoteDescription (pcId pc) description
                      :: map (PcAddIceCandidate (pcId pc)) buffer ++ rest
                 ∧ appliedCandidates rest = [])).
Proof.
  intros Hms Hpc Hflag Hc Hsr Hpath.
  apply (candidates_are_buffered ms envc pc w _ Hms Hpc Hflag).
  cbv zeta. set (w1 := with_service _ w).
  do 3 (split; [reflexivity |]).
  change (pendingIceCandidates (service w) ++ candidatesOf ms)
    with (pendingIceCandidates (service w1)).
  assert (Hpc1 : peerConnection (service w1) = Some pc) by exact Hpc.
  destruct Hpath as [Hty | [Hty Hst]].
  - destruct (decide (signalingState pc = stable)) as [Hst | Hst].
    + rewrite bool_decide_eq_false_2 by (intros [_ H]; exact (H Hst)).
      exact (offer_flushes_buffer w1 m env pc description Hty Hc Hpc1 Hst Hsr).
    + rewrite bool_decide_eq_true_2 by (split; assumption).
      exact (offer_reset_discards_buffer w1 m env pc Hty Hpc1 Hst).
  - rewrite bool_decide_eq_false_2 by (intros [H _]; congruence).
    eapply wp_mono;
      [exact (answer_flushes_buffer w1 m env pc description Hty Hc Hpc1 Hst Hsr) |].
    intros w2 t2 r2 (Ht & Hp & _ & _). split; [exact Hp |].
    exists []. rewrite app_nil_r. split; [exact Ht | reflexivity].
Qed.

Lemma buffered_candidates_flushed_in_order_witness :
  let w := world_of (joins "bob" (3 # 10)%Q 1000 emptyStorage) in
  let ms := [envelope ice_candidate (IceCandidateInit "c1") "alice";
             envelope ice_candidate (IceCandidateInit "c2") "alice"] in
  let m := envelope offer (SessionDescription "sdp-offer") "alice" in
  wp (handleAll ms (fair 1100)) w (λ w1 t1 r1,
    pendingIceCandidates (service w1) = ["c1"; "c2"]
    ∧ t1 = [] ∧ r1 = Returned tt
    ∧ wp (WebRTC.handleSignalingMessage m (fair 1200)) w1 (λ w2 t2 r2,
        pendingIceCandidates (service w2) = []
        ∧ ∃ rest,
            t2 = [PcSetRemoteDescription 0 "sdp-offer";
                  PcAddIceCandidate 0 "c1"; PcAddIceCandidate 0 "c2"] ++ rest
            ∧ appliedCandidates rest = [])).
Proof.
  intros w ms m.
  apply (buffered_candidates_flushed_in_order w ms (fair 1100) (fair 1200) m
           {| pcId := 0; signalingState := stable |} "sdp-offer").
  - repeat constructor; eexists; reflexivity.
  - reflexivity.
  - reflexivity.
  - reflexivity.
  - reflexivity.
  - left. reflexivity.
Defined.
(** ** C4: reconnection *)

(** The function scheduled by [handleDisconnection] makes a new
    connection, with a new id, in the role the service has when the
    function runs, and publishes no election token, whatever the
    primitive and the relay answer.  As initiator it closes what is left
    of the old connection, makes the connection and the data channel
    and starts from an empty candidate buffer; as receiver it makes the
    connection and nothing else. *)
Lemma reconnectTimer_rebuilds (w : World) (env : Env) :
  wp (WebRTC.reconnectTimer env) w (λ w' t r,
    r = Returned tt
    ∧ isInitiator (service w') = isInitiator (service w)
    ∧ nextPcId w' = S (nextPcId w)
    ∧ (∃ s, peerConnection (service w')
            = Some {| pcId := nextPcId w; signalingState := s |})
    ∧ Forall (λ m, type m ≠ initiator_selection) (published t)
    ∧ if isInitiator (service w)
      then dataChannel (service w') = Some {| readyState := dc_connecting |}
           ∧ pendingIceCandidates (service w') = []
           ∧ remoteDescriptionSet (service w') = false
           ∧ ∃ rest, t = match peerConnection (service w) with
                         | Some pc => [PcClose (pcId pc)]
                         | None => []
                         end
                         ++ PcNew (nextPcId w) :: PcCreateDataChannel (nextPcId w) :: rest
      else t = [PcNew (nextPcId w)]).
Proof.
  unfold WebRTC.reconnectTimer. wp_steps.
  destruct (isInitiator (service w)) eqn:Hrole.
  - unfold WebRTC.createPeerConnectionAsInitiator.
    wp_connect;
      repeat match goal with
             | H : peerConnection (service w) = _ |- _ => rewrite H; clear H
             end.
    all: split; [reflexivity |].
    all: split; [reflexivity |].
    all: split; [reflexivity |].
    all: split; [eexists; reflexivity |].
    all: split; [solve [unfold published; cbn; repeat (constructor; cbn; try discriminate)] |].
    all: do 3 (split; [reflexivity |]).
    all: eexists; reflexivity.
  - wp_steps. rewrite ?Hrole. repeat split; try reflexivity.
    + eexists; reflexivity.
    + constructor.
Qed.

(** With the relay connected and the primitive answering, the retry of
    an initiator publishes its offer, and only that, and the new
    connection has the offer pending. *)
Lemma reconnectTimer_offers (w : World) (env : Env) (room user : string) (d : SDP) :
  isInitiator (service w) = true →
  connected (signaling w) = true → stompClient (signaling w) = true →
  sig_roomId (signaling w) = Some room → room ≠ "" →
  sig_userId (signaling w) = Some user → user ≠ "" →
  createOfferResult env = Some d → setLocalDescriptionOk env = true →
  wp (WebRTC.reconnectTimer env) w (λ w' t r,
    published t = [{| type := offer; content := SessionDescription d;
                      roomId := room; senderId := user |}]
    ∧ peerConnection (service w')
      = Some {| pcId := nextPcId w; signalingState := have_local_offer |}).
Proof.
  intros Hrole Hc Hs Hr Hrne Hu Hune Hoffer Hlocal.
  pose proof (truthy_nonempty _ Hrne) as Htr. pose proof (truthy_nonempty _ Hune) as Htu.
  unfold WebRTC.reconnectTimer. wp_steps. rewrite Hrole.
  unfold WebRTC.createPeerConnectionAsInitiator, Signaling.isConnected,
    Signaling.sendSignalMessage.
  destruct (peerConnection (service w)) as [pc |] eqn:Hpc;
    wp_steps; rewrite ?Hpc; wp_steps; rewrite ?Hc, ?Hs; cbn [andb negb]; wp_steps;
    rewrite ?Hoffer; wp_steps; rewrite ?Hlocal; wp_steps;
    rewrite ?Hc, ?Hs, ?Hr, ?Hu, ?Htr, ?Htu; cbn [andb orb negb];
    wp_steps; split; reflexivity.
Qed.

(** C4 as stated fails: five attempts are not the end.  Alice is the
    initiator and has a data channel, which never opens.  Five times the
    transport is lost and the retry rebuilds the connection; the sixth
    loss reports ['closed'] with the counter at 5.  Then the data channel
    closes: [onclose] finds no reconnection under way, [attemptReconnection]
    puts the counter back to 0, and a sixth attempt is scheduled, with
    five more to follow. *)
Lemma reconnection_restarts_after_closed :
  let w := world_of (run [(PageMounts "r1" "alice" (7 # 10)%Q, fair 1000);
                          (TimerFires FallbackTimer, fair 4000)]
                         (initialWorld emptyStorage)) in
  let exhausted := run [transportLost 10000; reconnectFires 11000;
                        transportLost 20000; reconnectFires 21000;
                        transportLost 30000; reconnectFires 31000;
                        transportLost 40000; reconnectFires 41000;
                        transportLost 50000; reconnectFires 51000;
                        transportLost 60000] w in
  let restarted := handle DataChannelClose (fair 61000) (world_of exhausted) in
  isSessionActive (service w) = true
  ∧ scheduled (trace_of exhausted)
    = [ReconnectTimer; ReconnectTimer; ReconnectTimer; ReconnectTimer; ReconnectTimer]
  ∧ last (trace_of exhausted) = Some (OnChannelStatusChange status_closed)
  ∧ reconnectAttempts (service (world_of exhausted)) = 5
  ∧ isSessionActive (service (world_of exhausted)) = true
  ∧ scheduled (trace_of restarted) = [ReconnectTimer]
  ∧ reconnectAttempts (service (world_of restarted)) = 1
  ∧ completion_of restarted = Returned tt.
Proof. vm_compute. done. Qed.

(** C4, amended.  In a reachable world whose session is active the
    counter of attempts is at most 5.  A loss handled by
    [handleDisconnection] with the counter below 5 counts one attempt,
    closes and drops the connection and sets one reconnect timer of
    1000 ms, publishing nothing and keeping the role; with the counter
    at 5 it sets no timer, reports the channel status ['closed'], ends
    the reconnection under way and returns without an exception.  The
    function of the timer, in whatever world [w1] it runs, makes a new
    connection in the role held there and publishes no election token:
    as initiator with the data channel, and with the offer published
    when the relay is connected and the primitive answers; as receiver
    the connection alone.  [onopen] of the data channel puts the counter
    back to 0.  So does [onclose] when no reconnection is under way: it
    starts one, whose first attempt leaves the counter at 1; while one
    is under way it only reports the close. *)
Theorem reconnection_attempts_are_bounded (w w1 : World) (env : Env) :
  reachable w →
  isSessionActive (service w) = true →
  (maxReconnectAttempts = 5 ∧ reconnectionDelay = 1000%Z)
  ∧ reconnectAttempts (service w) ≤ maxReconnectAttempts
  ∧ wp WebRTC.handleDisconnection w (λ w' t r,
      r = Returned tt
      ∧ isInitiator (service w') = isInitiator (service w)
      ∧ published t = []
      ∧ if reconnectAttempts (service w) <? maxReconnectAttempts
        then t = match peerConnection (service w) with
                 | Some pc => [PcClose (pcId pc)]
                 | None => []
                 end ++ [SetTimeout ReconnectTimer reconnectionDelay]
             ∧ peerConnection (service w') = None
             ∧ timers w' = timers w ++ [ReconnectTimer]
             ∧ reconnectAttempts (service w') = S (reconnectAttempts (service w))
        else t = [OnChannelStatusChange status_closed]
             ∧ isReconnecting (service w') = false
             ∧ timers w' = timers w
             ∧ reconnectAttempts (service w') = reconnectAttempts (service w))
  ∧ wp (WebRTC.reconnectTimer env) w1 (λ w2 t r,
      r = Returned tt
      ∧ isInitiator (service w2) = isInitiator (service w1)
      ∧ (∃ s, peerConnection (service w2)
              = Some {| pcId := nextPcId w1; signalingState := s |})
      ∧ Forall (λ m, type m ≠ initiator_selection) (published t)
      ∧ (if isInitiator (service w1)
         then dataChannel (service w2) = Some {| readyState := dc_connecting |}
              ∧ pendingIceCandidates (service w2) = []
              ∧ ∃ rest, t = match peerConnection (service w1) with
                            | Some pc => [PcClose (pcId pc)]
                            | None => []
                            end
                            ++ PcNew (nextPcId w1)
                               :: PcCreateDataChannel (nextPcId w1) :: rest
         else t = [PcNew (nextPcId w1)])
      ∧ ∀ room user d,
          isInitiator (service w1) = true →
          connected (signaling w1) = true → stompClient (signaling w1) = true →
          sig_roomId (signaling w1) = Some room → room ≠ "" →
          sig_userId (signaling w1) = Some user → user ≠ "" →
          createOfferResult env = Some d → setLocalDescriptionOk env = true →
          published t = [{| type := offer; content := SessionDescription d;
                            roomId := room; senderId := user |}]
          ∧ peerConnection (service w2)
            = Some {| pcId := nextPcId w1; signalingState := have_local_offer |})
  ∧ wp WebRTC.dataChannel_onopen w (λ w' t r,
      reconnectAttempts (service w') = 0
      ∧ isReconnecting (service w') = false
      ∧ t = [OnChannelStatusChange status_open]
      ∧ r = Returned tt)
  ∧ wp WebRTC.dataChannel_onclose w (λ w' t r,
      r = Returned tt
      ∧ if isReconnecting (service w)
        then t = [OnChannelStatusChange status_closed] ∧ w' = w
        else reconnectAttempts (service w') = 1
             ∧ isReconnecting (service w') = true
             ∧ scheduled t = [ReconnectTimer]
             ∧ timers w' = timers w ++ [ReconnectTimer]).
Proof.
  intros Hreach Hact.
  assert (Hcbs : callbacks (service w) = PageCallbacks)
    by exact (proj1 (reachable_session_has_callbacks w Hreach) Hact).
  split; [split; reflexivity |]. split; [| split; [| split; [| split]]].
  - clear Hact Hcbs. induction Hreach as [st | w0 ev env0 Hw IH].
    + cbn. unfold maxReconnectAttempts. lia.
    + exact (handle_keeps_attemptsBounded ev env0 w0 IH).
  - unfold WebRTC.handleDisconnection. wp_steps. rewrite Hact. cbn [negb].
    wp_steps.
    destruct (reconnectAttempts (service w) <? maxReconnectAttempts) eqn:Hlt.
    + wp_steps.
      destruct (peerConnection (service w)) as [pc |] eqn:Hpc; wp_steps;
        repeat split.
    + wp_steps. rewrite Hcbs. wp_steps. repeat split.
  - unfold wp.
    pose proof (reconnectTimer_rebuilds w1 env) as Hre. unfold wp in Hre.
    destruct Hre as (Hr & Hrole & _ & Hpc & Htok & Hshape).
    repeat (split; [assumption |]). split.
    + destruct (isInitiator (service w1)); [| exact Hshape].
      destruct Hshape as (Hdc & Hpend & _ & Hrest). repeat split; assumption.
    + intros room user d Hini Hc Hs Hroom Hrne Huser Hune Hoffer Hlocal.
      exact (reconnectTimer_offers w1 env room user d
               Hini Hc Hs Hroom Hrne Huser Hune Hoffer Hlocal).
  - unfold WebRTC.dataChannel_onopen. wp_steps. rewrite Hcbs. wp_steps. repeat split.
  - unfold WebRTC.dataChannel_onclose. wp_steps. rewrite Hcbs. wp_steps.
    rewrite Hact. destruct (isReconnecting (service w)) eqn:Hre; cbn [negb andb];
      wp_steps; [done |].
    unfold WebRTC.attemptReconnection. wp_steps. rewrite Hre, Hact. cbn [negb orb].
    wp_steps. unfold WebRTC.handleDisconnection. wp_steps. rewrite ?Hact. cbn [negb].
    wp_steps.
    destruct (peerConnection (service w)); wp_steps; done.
Qed.

Lemma reconnection_attempts_are_bounded_witness :
  let w := world_of (joins "alice" (7 # 10)%Q 1000 emptyStorage) in
  isSessionActive (service w) = true
  ∧ reconnectAttempts (service w) = 0
  ∧ wp WebRTC.handleDisconnection w (λ w' t r,
      r = Returned tt
      ∧ t = [PcClose 0; SetTimeout ReconnectTimer 1000]
      ∧ reconnectAttempts (service w') = 1
      ∧ wp (WebRTC.reconnectTimer (fair 2000)) w' (λ w'' t' r',
          r' = Returned tt
          ∧ isInitiator (service w'') = isInitiator (service w)
          ∧ t' = [PcNew 1])).
Proof.
  intros w. split; [reflexivity |]. split; [reflexivity |].
  pose proof (reconnection_attempts_are_bounded w
                (world_of (WebRTC.handleDisconnection w)) (fair 2000)
                (reachable_event _ _ _ (reachable_load emptyStorage)) eq_refl)
    as (_ & _ & Hloss & Htimer & _).
  unfold wp in *. destruct Hloss as (Hr & _ & _ & Ht & _ & _ & Ha).
  destruct Htimer as (Hr' & Hrole & _ & _ & Ht' & _).
  repeat split; try assumption.
Defined.

(** The role the timer keeps is the one the service has when the timer
    fires.  An envelope handled between the loss and the retry, while
    there is no connection instance, makes the handler create a receiver
    connection: here a keep-alive of bob reaches alice, elected
    initiator, in that interval. *)
Lemma envelope_before_retry_resets_role :
  let elected := run [(PageMounts "r1" "alice" (7 # 10)%Q, fair 1000);
                      (RelayFrame (token "bob" (3 # 10)%Q 1001), fair 1040)]
                     (initialWorld emptyStorage) in
  let retried := run [transportLost 10000;
                      (RelayFrame (envelope keep_alive (KeepAlivePing 10500) "bob"),
                       fair 10500);
                      reconnectFires 11000] (world_of elected) in
  isInitiator (service (world_of elected)) = true
  ∧ isInitiator (service (world_of retried)) = false.
Proof. vm_compute. done. Qed.

(** Six losses of the transport in a row, each attempt rebuilding the
    connection before the next loss: five attempts are scheduled, the
    sixth loss reports ['closed'] and schedules nothing. *)
Lemma five_attempts_then_closed :
  let w := world_of (joins "alice" (7 # 10)%Q 1000 emptyStorage) in
  let five := run [transportLost 10000; reconnectFires 11000;
                   transportLost 20000; reconnectFires 21000;
                   transportLost 30000; reconnectFires 31000;
                   transportLost 40000; reconnectFires 41000;
                   transportLost 50000; reconnectFires 51000] w in
  let sixth := handle (IceConnectionStateChange ice_failed) (fair 60000) (world_of five) in
  scheduled (trace_of five)
  = [ReconnectTimer; ReconnectTimer; ReconnectTimer; ReconnectTimer; ReconnectTimer]
  ∧ reconnectAttempts (service (world_of five)) = 5
  ∧ trace_of sixth = [OnChannelStatusChange status_closed]
  ∧ timers (world_of sixth) = timers (world_of five)
  ∧ completion_of sixth = Returned tt.
Proof. vm_compute. done. Qed.

(** ** C7: the third participant *)

(** C7 as stated fails in its second part.  Carol joins a room in which
    two participants are recorded: the connect flow broadcasts
    ['room-full'], and the page goes on all the same.  It creates a peer
    connection, publishes its election token and arms the fallback
    timer; the notice comes back from the relay and is reported to the
    UI; when the timer fires carol becomes initiator and publishes an
    offer. *)
Lemma third_participant_still_negotiates :
  let notice := envelope room_full
                  (RoomFullNotice "Room is already full with 2 participants") "carol" in
  let joined := joins "carol" (5 # 10)%Q 1000 twoInRoom in
  let later := run [(RelayFrame notice, fair 1010);
                    (TimerFires FallbackTimer, fair 4000)] (world_of joined) in
  (count <$> PARTICIPANTS_KEY (storage (world_of joined)) !! "r1") = Some 3
  ∧ published (trace_of joined) = [notice; token "carol" (5 # 10)%Q 1000]
  ∧ timers (world_of joined) = [FallbackTimer]
  ∧ trace_of later
    = [OnRoomFull; PcClose 0; PcNew 1; PcCreateDataChannel 1; PcCreateOffer 1;
       PcSetLocalDescription 1 "sdp-offer";
       Publish (envelope offer (SessionDescription "sdp-offer") "carol")]
  ∧ isInitiator (service (world_of later)) = true.
Proof. vm_compute. done. Qed.

(** Recording the same join twice counts it once: [initialize] and the
    connect flow both record the join of the same page. *)
Lemma recordJoin_idempotent (room user : string) (t t' : Z) (st : LocalStorage) :
  let once := Storage.updateRoomParticipants room user true t st in
  let twice := Storage.updateRoomParticipants room user true t' once.1 in
  twice.2 = once.2.
Proof.
  cbv zeta. unfold Storage.updateRoomParticipants. cbn [fst snd PARTICIPANTS_KEY].
  rewrite lookup_insert_eq. unfold Storage.updatedParticipants at 1.
  set (p := Storage.updatedParticipants user true t (PARTICIPANTS_KEY st !! room)).
  assert (Hin : user ∈ users p).
  { subst p. unfold Storage.updatedParticipants.
    destruct (PARTICIPANTS_KEY st !! room) as [p |]; cbn [users];
      case_bool_decide; cbn [users]; try assumption; set_solver. }
  rewrite bool_decide_eq_true_2 by exact Hin. reflexivity.
Qed.

(** C7, amended.  When recording the join yields more than 2
    participants, the connect flow broadcasts a ['room-full'] envelope to
    the room, sets up no keep-alive and completes the relay connection
    all the same; it does not stop its caller: the block of [initialize]
    that awaits [connect] goes on to create the receiver peer connection
    and to register the handler of the signaling messages. *)
Theorem third_join_broadcasts_room_full
    (w : World) (room user : string) (env : Env) :
  connected (signaling w) = false →
  room ≠ "" → user ≠ "" →
  connectOk env = true →
  2 < (Storage.updateRoomParticipants room user true (now env) (storage w)).2 →
  wp (Signaling.connect room user env ;;
      WebRTC.createPeerConnectionAsReceiver ;;
      Signaling.onSignalMessage ServiceHandler) w (λ w' t r,
    t = [StompActivate; StompSubscribe (Some room);
         Publish {| type := room_full;
                    content := RoomFullNotice "Room is already full with 2 participants";
                    roomId := room; senderId := user |};
         PcNew (nextPcId w)]
    ∧ connected (signaling w') = true
    ∧ timers w' = timers w
    ∧ peerConnection (service w')
      = Some {| pcId := nextPcId w; signalingState := stable |}
    ∧ messageCallback (signaling w') = Some ServiceHandler
    ∧ r = Returned tt).
Proof.
  intros Hcon Hroom Huser Hok Hfull.
  apply truthy_nonempty in Hroom, Huser.
  apply Nat.ltb_lt in Hfull. revert Hfull. simpl_world. intros Hfull.
  unfold Signaling.connect. wp_steps. rewrite Hcon. wp_steps. rewrite Hok.
  unfold Signaling.onConnect. wp_steps. rewrite Hfull. wp_steps.
  rewrite Hroom, Huser. cbn [negb orb]. wp_steps. done.
Qed.

Lemma third_join_broadcasts_room_full_witness :
  let w := initialWorld twoInRoom in
  wp (Signaling.connect "r1" "carol" (fair 1000) ;;
      WebRTC.createPeerConnectionAsReceiver ;;
      Signaling.onSignalMessage ServiceHandler) w (λ w' t r,
    t = [StompActivate; StompSubscribe (Some "r1");
         Publish (envelope room_full
                    (RoomFullNotice "Room is already full with 2 participants") "carol");
         PcNew 0]
    ∧ connected (signaling w') = true
    ∧ timers w' = []
    ∧ peerConnection (service w') = Some {| pcId := 0; signalingState := stable |}
    ∧ messageCallback (signaling w') = Some ServiceHandler
    ∧ r = Returned tt).
Proof.
  intros w.
  apply (third_join_broadcasts_room_full w "r1" "carol" (fair 1000));
    [reflexivity | discriminate | discriminate | reflexivity |].
  vm_compute. lia.
Defined.

(** ** C1: the election *)

Lemma Qgt_bool_true (x y : Q) : Chat.Qgt_bool x y = true ↔ (y < x)%Q.
Proof.
  unfold Chat.Qgt_bool. rewrite negb_true_iff, <- not_true_iff_false, Qle_bool_iff.
  split; [apply Qnot_le_lt | apply Qlt_not_le].
Qed.

(** With distinct random values exactly one side elects itself,
    whatever the clocks say. *)
Lemma distinct_values_elect_one (vA vB : Q) (nowA tsA nowB tsB : Z) :
  ¬ (vA == vB)%Q →
  Chat.becomesInitiator vA nowA vB tsB = negb (Chat.becomesInitiator vB nowB vA tsA).
Proof.
  intros Hne. unfold Chat.becomesInitiator.
  assert (HeqAB : Qeq_bool vA vB = false).
  { apply not_true_iff_false. rewrite Qeq_bool_iff. exact Hne. }
  assert (HeqBA : Qeq_bool vB vA = false).
  { apply not_true_iff_false. rewrite Qeq_bool_iff. intros H. apply Hne. symmetry. exact H. }
  rewrite HeqAB, HeqBA. cbn [andb]. rewrite !orb_false_r.
  destruct (Chat.Qgt_bool vA vB) eqn:HA, (Chat.Qgt_bool vB vA) eqn:HB; try reflexivity.
  - apply Qgt_bool_true in HA, HB. exfalso. exact (Qlt_irrefl _ (Qlt_trans _ _ _ HA HB)).
  - exfalso. apply Hne.
    assert (HA' : (vA <= vB)%Q).
    { apply Qnot_lt_le. rewrite <- Qgt_bool_true, HA. discriminate. }
    assert (HB' : (vB <= vA)%Q).
    { apply Qnot_lt_le. rewrite <- Qgt_bool_true, HB. discriminate. }
    apply Qle_antisym; assumption.
Qed.

(** The rule of the specification, in which each side compares the
    timestamp of its own token, elects exactly one side for any two
    tokens that differ in value or in timestamp. *)
Lemma rule_on_token_timestamps_elects_one (vA vB : Q) (tsA tsB : Z) :
  ¬ (vA == vB)%Q ∨ tsA ≠ tsB →
  Chat.becomesInitiator vA tsA vB tsB = negb (Chat.becomesInitiator vB tsB vA tsA).
Proof.
  destruct (Qeq_dec vA vB) as [Heq | Hne]; [| intros _; apply distinct_values_elect_one, Hne].
  intros [Hne | Hts]; [contradiction |].
  unfold Chat.becomesInitiator.
  assert (HAB : Chat.Qgt_bool vA vB = false).
  { apply not_true_iff_false. rewrite Qgt_bool_true, Heq. apply Qlt_irrefl. }
  assert (HBA : Chat.Qgt_bool vB vA = false).
  { apply not_true_iff_false. rewrite Qgt_bool_true, Heq. apply Qlt_irrefl. }
  rewrite HAB, HBA, (Qeq_eq_bool _ _ Heq), (Qeq_eq_bool _ _ (Qeq_sym _ _ Heq)).
  cbn [orb andb].
  destruct (Z.ltb_spec tsA tsB), (Z.ltb_spec tsB tsA); cbn; try reflexivity; lia.
Qed.

(** The handler compares the time at which it runs, not the timestamp of
    the token its page sent.  With equal values, a side that handles the
    peer's token no earlier than the peer stamped it makes itself
    receiver: so do both sides. *)
Lemma equal_values_elect_nobody (vA vB : Q) (nowA tsA nowB tsB : Z) :
  (vA == vB)%Q →
  (tsB ≤ nowA)%Z → (tsA ≤ nowB)%Z →
  Chat.becomesInitiator vA nowA vB tsB = false
  ∧ Chat.becomesInitiator vB nowB vA tsA = false.
Proof.
  intros Heq HA HB. unfold Chat.becomesInitiator.
  assert (HAB : Chat.Qgt_bool vA vB = false).
  { apply not_true_iff_false. rewrite Qgt_bool_true, Heq. apply Qlt_irrefl. }
  assert (HBA : Chat.Qgt_bool vB vA = false).
  { apply not_true_iff_false. rewrite Qgt_bool_true, Heq. apply Qlt_irrefl. }
  rewrite HAB, HBA. cbn [orb].
  rewrite (proj2 (Z.ltb_ge nowA tsB) HA), (proj2 (Z.ltb_ge nowB tsA) HB).
  rewrite !andb_false_r. split; reflexivity.
Qed.

(** C1, on the code.  Alice and bob draw the same value 1/2 and stamp
    their tokens at 1000 and at 1001: two tokens with equal values and
    distinct timestamps.  Each page handles the token of the other a few
    milliseconds later, and each makes itself receiver: nobody is
    initiator, no offer is published. *)
Theorem election_tie_elects_nobody :
  let alice := joins "alice" (1 # 2)%Q 1000 emptyStorage in
  let bob := joins "bob" (1 # 2)%Q 1001 emptyStorage in
  let alice' := deliver (token "bob" (1 # 2)%Q 1001) (fair 1040) (world_of alice) in
  let bob' := deliver (token "alice" (1 # 2)%Q 1000) (fair 1035) (world_of bob) in
  published (trace_of alice)
  = [envelope keep_alive (KeepAlivePing 1000) "alice"; token "alice" (1 # 2)%Q 1000]
  ∧ published (trace_of bob)
    = [envelope keep_alive (KeepAlivePing 1001) "bob"; token "bob" (1 # 2)%Q 1001]
  ∧ actualInitiator (chat (world_of alice')) = false
  ∧ isInitiator (service (world_of alice')) = false
  ∧ actualInitiator (chat (world_of bob')) = false
  ∧ isInitiator (service (world_of bob')) = false
  ∧ published (trace_of alice') = []
  ∧ published (trace_of bob') = [].
Proof. vm_compute. done. Qed.

(** ** C2: the fallback timer *)

(** Electing the local side receiver does not clear the fallback timer:
    the pending timers are what they were. *)
Lemma receiver_election_keeps_fallback_timer
    (w : World) (m : SignalMessage) (env : Env) (theirValue : Q) (theirTimestamp : Z) :
  type m = initiator_selection →
  content m = ElectionToken theirValue theirTimestamp →
  Chat.becomesInitiator (randomValue (chat w)) (now env) theirValue theirTimestamp = false →
  wp (Chat.signalMessageCallback m env) w (λ w' t r,
    timers w' = timers w
    ∧ actualInitiator (chat w') = false
    ∧ connectionStatus (chat w') = connectionStatus (chat w)
    ∧ isInitiator (service w') = false
    ∧ r = Returned tt).
Proof.
  intros Hty Hc Hrule. unfold Chat.signalMessageCallback. rewrite Hty.
  wp_steps. rewrite Hc, Hrule. wp_steps. done.
Qed.

(** A pending fallback timer that fires on a side that is not initiator,
    in a closure whose [connectionStatus] is not ['open'], makes that side
    initiator. *)
Lemma fallback_timer_makes_initiator (w : World) (env : Env) :
  FallbackTimer ∈ timers w →
  actualInitiator (chat w) = false →
  connectionStatus (chat w) ≠ status_open →
  wp (fire FallbackTimer env) w (λ w' t r,
    actualInitiator (chat w') = true
    ∧ isInitiator (service w') = true
    ∧ r = Returned tt).
Proof.
  intros Hin Hact Hst. unfold fire. wp_steps.
  rewrite bool_decide_eq_true_2 by exact Hin. wp_steps.
  unfold Chat.fallbackTimer. wp_steps. rewrite Hact.
  rewrite bool_decide_eq_false_2 by exact Hst. cbn [negb andb]. wp_steps.
  unfold WebRTC.createPeerConnectionAsInitiator.
  wp_connect; repeat split.
Qed.

(** C2, on the code.  Alice draws 3/10 and bob 7/10.  Each page handles
    the token of the other: bob elects himself initiator, alice makes
    herself receiver, and her fallback timer stays pending.  When it
    fires, 3000 ms after she joined and with no data channel open yet,
    alice closes her receiver connection, makes herself initiator and
    publishes an offer: both sides are initiator. *)
Theorem fallback_timer_overrides_election :
  let alice := joins "alice" (3 # 10)%Q 1000 emptyStorage in
  let bob := joins "bob" (7 # 10)%Q 1001 emptyStorage in
  let bob' := deliver (token "alice" (3 # 10)%Q 1000) (fair 1035) (world_of bob) in
  let alice' := deliver (token "bob" (7 # 10)%Q 1001) (fair 1040) (world_of alice) in
  let alice'' := handle (TimerFires FallbackTimer) (fair 4000) (world_of alice') in
  isInitiator (service (world_of bob')) = true
  ∧ actualInitiator (chat (world_of alice')) = false
  ∧ isInitiator (service (world_of alice')) = false
  ∧ timers (world_of alice') = [KeepAliveInterval; FallbackTimer]
  ∧ trace_of alice''
    = [PcClose 1; PcNew 2; PcCreateDataChannel 2; PcCreateOffer 2;
       PcSetLocalDescription 2 "sdp-offer";
       Publish (envelope offer (SessionDescription "sdp-offer") "alice")]
  ∧ actualInitiator (chat (world_of alice'')) = true
  ∧ isInitiator (service (world_of alice'')) = true.
Proof. vm_compute. done. Qed.

(** The same election, followed on alice's side by the whole
    negotiation: she answers bob's offer, receives his data channel, and
    the channel opens.  The closure of the timer still holds the
    [connectionStatus] of the render that created it, so the timer tears
    the open connection down and makes alice initiator. *)
Lemma fallback_timer_breaks_open_connection :
  let alice := joins "alice" (3 # 10)%Q 1000 emptyStorage in
  let connected := run [(RelayFrame (token "bob" (7 # 10)%Q 1001), fair 1040);
                        (RelayFrame (envelope offer (SessionDescription "sdp-offer") "bob"),
                         fair 1050);
                        (DataChannelReceived {| readyState := dc_connecting |}, fair 1100);
                        (DataChannelOpen, fair 1110)]
                       (world_of alice) in
  let fired := handle (TimerFires FallbackTimer) (fair 4000) (world_of connected) in
  isInitiator (service (world_of connected)) = false
  ∧ dataChannel (service (world_of connected)) = Some {| readyState := dc_open |}
  ∧ last (trace_of connected) = Some (OnChannelStatusChange status_open)
  ∧ trace_of fired
    = [PcClose 1; PcNew 2; PcCreateDataChannel 2; PcCreateOffer 2;
       PcSetLocalDescription 2 "sdp-offer";
       Publish (envelope offer (SessionDescription "sdp-offer") "alice")]
  ∧ isInitiator (service (world_of fired)) = true.
Proof. vm_compute. done. Qed.

(** * Further properties of the code *)

(** ** storage.ts *)

(** X1. What [saveMessages] stores under a room is what [getMessages]
    returns for it; [clearMessages] makes [getMessages] return the empty
    list, as for a room that never had messages; neither touches the
    messages of another room. *)
Theorem messages_round_trip
    (room other : string) (messages : list MessageEvent) (st : LocalStorage) :
  Storage.getMessages room (Storage.saveMessages room messages st) = messages
  ∧ Storage.getMessages room (Storage.clearMessages room st) = []
  ∧ (MESSAGES_KEY st !! room = None → Storage.getMessages room st = [])
  ∧ (other ≠ room →
     Storage.getMessages other (Storage.saveMessages room messages st)
     = Storage.getMessages other st
     ∧ Storage.getMessages other (Storage.clearMessages room st)
       = Storage.getMessages other st).
Proof.
  unfold Storage.getMessages, Storage.saveMessages, Storage.clearMessages.
  cbn [MESSAGES_KEY]. rewrite lookup_insert_eq, lookup_delete_eq.
  repeat split; try reflexivity.
  - intros ->. reflexivity.
  - rewrite lookup_insert_ne by congruence. reflexivity.
  - rewrite lookup_delete_ne by congruence. reflexivity.
Qed.

(** X2. [updateRoomParticipants] keeps a participants record
    consistent: if the count was the number of listed users and no user
    was listed twice, the same holds of the record it writes, after a
    join as after a leave, and the count it returns is the number of
    users then listed.  A room without a record starts from the empty
    one. *)
Theorem participants_stay_consistent
    (room user : string) (joining : bool) (t : Z) (st : LocalStorage) :
  (∀ p, PARTICIPANTS_KEY st !! room = Some p → participantsConsistent p) →
  let r := Storage.updateRoomParticipants room user joining t st in
  ∃ p', PARTICIPANTS_KEY r.1 !! room = Some p'
    ∧ participantsConsistent p'
    ∧ r.2 = length (users p')
    ∧ (user ∈ users p' ↔ joining = true).
Proof.
  intros Hcons. cbv zeta. unfold Storage.updateRoomParticipants.
  cbn [fst snd PARTICIPANTS_KEY]. rewrite lookup_insert_eq.
  eexists. split; [reflexivity |].
  assert (H0 : ∃ p, participantsConsistent p
                 ∧ Storage.updatedParticipants user joining t (PARTICIPANTS_KEY st !! room)
                   = Storage.updatedParticipants user joining t (Some p)).
  { destruct (PARTICIPANTS_KEY st !! room) as [p |] eqn:Hp.
    - exists p. split; [apply Hcons; reflexivity | reflexivity].
    - exists {| count := 0; users := []; lastUpdated := t |}.
      split; [split; [reflexivity | constructor] | reflexivity]. }
  destruct H0 as (p & [Hcount Hnodup] & ->).
  unfold Storage.updatedParticipants, participantsConsistent.
  destruct joining.
  - case_bool_decide as Hin; cbn [count users].
    + repeat split; try assumption. intros _. exact Hin.
    + rewrite length_app, Hcount. cbn [length].
      repeat split; try lia.
      * apply NoDup_app. repeat split; [assumption | | apply NoDup_singleton].
        intros x Hx Hx'. apply list_elem_of_singleton in Hx'. subst x. contradiction.
      * intros _. apply elem_of_app. right. apply list_elem_of_singleton. reflexivity.
  - cbn [count users]. repeat split.
    + apply NoDup_filter. assumption.
    + intros Hin. apply list_elem_of_filter in Hin. destruct Hin as [Hne _].
      contradiction.
    + discriminate.
Qed.

Lemma participants_stay_consistent_witness :
  let r := Storage.updateRoomParticipants "r1" "carol" true 1000 twoInRoom in
  ∃ p', PARTICIPANTS_KEY r.1 !! "r1" = Some p'
    ∧ participantsConsistent p'
    ∧ r.2 = length (users p')
    ∧ ("carol" ∈ users p' ↔ true = true).
Proof.
  apply (participants_stay_consistent "r1" "carol" true 1000 twoInRoom).
  intros p Hp. vm_compute in Hp. injection Hp as <-.
  split; [reflexivity |]. apply NoDup_cons. split; [| apply NoDup_singleton].
  intros H. apply list_elem_of_singleton in H. discriminate H.
Defined.

(** X3. A participant that joins and then leaves is no longer listed,
    and the users listed before are listed again, in the same order: the
    leave undoes the join of a user that was not yet in the room. *)
Theorem join_then_leave_restores_users
    (room user : string) (t t' : Z) (st : LocalStorage) (p : RoomParticipants) :
  PARTICIPANTS_KEY st !! room = Some p →
  user ∉ users p →
  let joined := Storage.updateRoomParticipants room user true t st in
  let left := Storage.updateRoomParticipants room user false t' joined.1 in
  joined.2 = S (count p)
  ∧ PARTICIPANTS_KEY left.1 !! room
    = Some {| count := length (users p); users := users p; lastUpdated := t' |}
  ∧ left.2 = length (users p).
Proof.
  intros Hp Hnot. cbv zeta. unfold Storage.updateRoomParticipants.
  cbn [fst snd PARTICIPANTS_KEY]. rewrite !lookup_insert_eq, Hp.
  unfold Storage.updatedParticipants.
  rewrite bool_decide_eq_false_2 by exact Hnot. cbn [count users].
  assert (Hf : filter (λ id, id ≠ user) (users p ++ [user]) = users p).
  { rewrite filter_app.
    assert (H1 : filter (λ id, id ≠ user) [user] = []).
    { cbn. case_decide; [contradiction | reflexivity]. }
    rewrite H1, app_nil_r.
    clear Hp. induction (users p) as [| x l IH]; [reflexivity |].
    apply not_elem_of_cons in Hnot. destruct Hnot as [Hx Hl].
    rewrite filter_cons_True by congruence. rewrite IH by exact Hl. reflexivity. }
  rewrite Hf. repeat split.
Qed.

Lemma join_then_leave_restores_users_witness :
  let joined := Storage.updateRoomParticipants "r1" "carol" true 1000 twoInRoom in
  let left := Storage.updateRoomParticipants "r1" "carol" false 2000 joined.1 in
  joined.2 = 3
  ∧ PARTICIPANTS_KEY left.1 !! "r1"
    = Some {| count := 2; users := ["alice"; "bob"]; lastUpdated := 2000 |}
  ∧ left.2 = 2.
Proof.
  apply (join_then_leave_restores_users "r1" "carol" 1000 2000 twoInRoom
           {| count := 2; users := ["alice"; "bob"]; lastUpdated := 0 |}).
  - reflexivity.
  - cbn [users]. intros H. apply elem_of_cons in H as [H | H]; [discriminate H |].
    apply list_elem_of_singleton in H. discriminate H.
Defined.

(** X4. [getRoomParticipantsCount] answers 0 for a room without a
    record; for a record last updated more than one hour (3600000 ms)
    before now it answers 0 and removes the record; otherwise it answers
    the recorded count and leaves the storage as it is. *)
Theorem participants_count_expires
    (room : string) (t : Z) (st : LocalStorage) :
  match PARTICIPANTS_KEY st !! room with
  | None => Storage.getRoomParticipantsCount room t st = (st, 0)
  | Some p =>
      if decide (lastUpdated p < t - 3600000)%Z
      then (Storage.getRoomParticipantsCount room t st).2 = 0
           ∧ PARTICIPANTS_KEY (Storage.getRoomParticipantsCount room t st).1 !! room = None
           ∧ (Storage.getRoomParticipantsCount room t
                (Storage.getRoomParticipantsCount room t st).1).2 = 0
      else Storage.getRoomParticipantsCount room t st = (st, count p)
  end.
Proof.
  unfold Storage.getRoomParticipantsCount.
  destruct (PARTICIPANTS_KEY st !! room) as [p |] eqn:Hp; [| reflexivity].
  change (60 * 60 * 1000)%Z with 3600000%Z.
  case_decide as Hold.
  - rewrite (proj2 (Z.ltb_lt _ _) Hold). cbn [fst snd].
    unfold Storage.clearRoomParticipants. cbn [PARTICIPANTS_KEY].
    rewrite lookup_delete_eq. repeat split.
  - rewrite (proj2 (Z.ltb_ge _ _)) by lia. reflexivity.
Qed.

(** X5. [endSession] of the storage keeps the session record, with its
    room, user and start time, marks it inactive and removes the
    participants record of that room; it leaves the messages alone;
    ending an ended session changes nothing more, and without a session
    record nothing changes at all. *)
Theorem storage_endSession_keeps_record (st : LocalStorage) :
  match Storage.getSession st with
  | None => Storage.endSession st = st
  | Some session =>
      let st' := Storage.endSession st in
      Storage.getSession st'
      = Some {| session_roomId := session_roomId session;
                session_userId := session_userId session;
                active := false; startTime := startTime session |}
      ∧ PARTICIPANTS_KEY st' !! session_roomId session = None
      ∧ MESSAGES_KEY st' = MESSAGES_KEY st
      ∧ Storage.endSession st' = st'
  end.
Proof.
  unfold Storage.endSession, Storage.getSession.
  destruct (SESSION_KEY st) as [session |] eqn:Hs; [| reflexivity].
  cbv zeta. unfold Storage.clearRoomParticipants.
  cbn [SESSION_KEY MESSAGES_KEY PARTICIPANTS_KEY session_roomId session_userId startTime].
  rewrite lookup_delete_eq. repeat split.
  f_equal. apply delete_id, lookup_delete_eq.
Qed.
(** ** Invariants of the reachable worlds *)

(** X6. In every reachable world the counter of reconnection attempts
    is at most [maxReconnectAttempts], that is 5: no sequence of
    losses, closes, retries and other events drives it higher. *)
Theorem reachable_attempts_bounded (w : World) :
  reachable w → reconnectAttempts (service w) ≤ 5.
Proof.
  induction 1 as [st | w ev env Hw IH].
  - cbn. lia.
  - exact (handle_keeps_attemptsBounded ev env w IH).
Qed.

Lemma reachable_attempts_bounded_witness :
  let w := world_of (run [transportLost 10000; reconnectFires 11000]
                         (world_of (joins "alice" (7 # 10)%Q 1000 emptyStorage))) in
  reconnectAttempts (service w) = 1 ∧ reconnectAttempts (service w) ≤ 5.
Proof.
  intros w. split; [reflexivity |].
  apply reachable_attempts_bounded.
  apply run_reachable, reachable_event, reachable_load.
Defined.

(** X7. In every reachable world a connected relay client has its STOMP
    client and the room and user of its connection: [isConnected()] is
    then just the [connected] flag, and [connect] never leaves the flag
    set without them. *)
Theorem reachable_connected_with_ids (w : World) :
  reachable w →
  connected (signaling w) = true →
  stompClient (signaling w) = true
  ∧ is_Some (sig_roomId (signaling w)) ∧ is_Some (sig_userId (signaling w)).
Proof.
  induction 1 as [st | w ev env Hw IH].
  - cbn. discriminate.
  - exact (handle_keeps_connectedWithIds ev env w IH).
Qed.

Lemma reachable_connected_with_ids_witness :
  let w := world_of (joins "alice" (7 # 10)%Q 1000 emptyStorage) in
  stompClient (signaling w) = true
  ∧ is_Some (sig_roomId (signaling w)) ∧ is_Some (sig_userId (signaling w)).
Proof.
  intros w. apply reachable_connected_with_ids; [| reflexivity].
  apply reachable_event, reachable_load.
Defined.

(** ** signaling.ts *)


(** X9. [connect] has three outcomes.  On a client that is already
    connected it does nothing at all, whatever room and user it is given.
    Otherwise it takes the room and the user and creates the STOMP
    client; when the relay refuses, the promise rejects with the client
    not connected, the storage untouched and no timer armed; when the
    relay accepts, the client is connected and subscribed to the room and
    the join is recorded in the participants record of the room. *)
Theorem connect_outcomes (room user : string) (env : Env) (w : World) :
  wp (Signaling.connect room user env) w (λ w' t r,
    if connected (signaling w)
    then w' = w ∧ t = [] ∧ r = Returned tt
    else
      sig_roomId (signaling w') = Some room
      ∧ sig_userId (signaling w') = Some user
      ∧ stompClient (signaling w') = true
      ∧ messageCallback (signaling w') = messageCallback (signaling w)
      ∧ service w' = service w
      ∧ if connectOk env
        then r = Returned tt
             ∧ connected (signaling w') = true
             ∧ (∃ rest, t = StompActivate :: StompSubscribe (Some room) :: rest)
             ∧ storage w'
               = (Storage.updateRoomParticipants room user true (now env) (storage w)).1
        else r = Threw ConnectError
             ∧ connected (signaling w') = false
             ∧ t = [StompActivate]
             ∧ storage w' = storage w
             ∧ timers w' = timers w).
Proof.
  unfold Signaling.connect. wp_steps.
  destruct (connected (signaling w)) eqn:Hc; [wp_steps; done |].
  wp_steps. destruct (connectOk env); [| wp_steps; rewrite Hc; done].
  unfold Signaling.onConnect. wp_steps.
  wp_case; wp_steps;
    [ unfold Signaling.sendSignalMessage | unfold Signaling.sendKeepAlive ];
    wp_auto; repeat split; eauto.
Qed.



(** *** The relay between two clients *)

Lemma topicOf_inj (room room' : string) : topicOf room = topicOf room' → room = room'.
Proof. unfold topicOf. cbn. intros H. repeat injection H as H. exact H. Qed.

(** X12. An envelope sent by a connected client goes through the relay
    to the topic of the sender's room and to no topic of another room.
    The subscription of another participant of that room hands it to the
    callback registered there, whatever its type; the subscription of
    the sender itself drops it unless it is a ['room-full'] notice. *)
Theorem relay_delivers_to_peer
    (ty : SignalType) (c : Content) (sender peer : World)
    (room user peerUser : string) (callback : SignalMessageCallback) :
  connected (signaling sender) = true →
  stompClient (signaling sender) = true →
  sig_roomId (signaling sender) = Some room → room ≠ "" →
  sig_userId (signaling sender) = Some user → user ≠ "" →
  sig_userId (signaling peer) = Some peerUser → peerUser ≠ user →
  messageCallback (signaling peer) = Some callback →
  ∃ m, published (trace_of (Signaling.sendSignalMessage ty c sender)) = [m]
    ∧ type m = ty ∧ content m = c
    ∧ (∀ room', (handleSignalMessage m).1 = topicOf room' ↔ room' = room)
    ∧ (handleSignalMessage m).2 = m
    ∧ Signaling.subscription (signaling peer) m = Some callback
    ∧ (ty ≠ room_full → Signaling.subscription (signaling sender) m = None).
Proof.
  intros Hc Hs Hr Hrne Hu Hune Hpu Hne Hcb.
  pose proof (truthy_nonempty _ Hrne) as Htr. pose proof (truthy_nonempty _ Hune) as Htu.
  assert (H : Signaling.sendSignalMessage ty c sender
              = (sender, [Publish {| type := ty; content := c;
                                     roomId := room; senderId := user |}], Returned tt)).
  { unfold Signaling.sendSignalMessage. rewrite bind_get, Hc, Hs, Hr, Hu, Htr, Htu.
    reflexivity. }
  rewrite H.
  eexists. split; [reflexivity |]. cbn [type content roomId senderId handleSignalMessage fst snd].
  repeat split.
  - intros Htopic. symmetry. apply topicOf_inj, Htopic.
  - intros ->. reflexivity.
  - unfold Signaling.subscription. rewrite Hcb, Hpu. cbn [senderId].
    rewrite bool_decide_eq_false_2 by congruence. destruct ty; reflexivity.
  - intros Hty. unfold Signaling.subscription. rewrite Hu. cbn [senderId type].
    rewrite bool_decide_eq_true_2 by reflexivity.
    destruct (messageCallback (signaling sender)); [| reflexivity].
    destruct ty; try reflexivity. contradiction.
Qed.

Lemma relay_delivers_to_peer_witness :
  let sender := world_of (joins "alice" (7 # 10)%Q 1000 emptyStorage) in
  let peer := world_of (joins "bob" (3 # 10)%Q 1001 emptyStorage) in
  ∃ m, published (trace_of (Signaling.sendSignalMessage
                              offer (SessionDescription "sdp-a") sender)) = [m]
    ∧ type m = offer ∧ content m = SessionDescription "sdp-a"
    ∧ (∀ room', (handleSignalMessage m).1 = topicOf room' ↔ room' = "r1")
    ∧ (handleSignalMessage m).2 = m
    ∧ Signaling.subscription (signaling peer) m = Some ChatHandler
    ∧ (offer ≠ room_full → Signaling.subscription (signaling sender) m = None).
Proof.
  intros sender peer.
  apply (relay_delivers_to_peer offer (SessionDescription "sdp-a") sender peer
           "r1" "alice" "bob" ChatHandler);
    first [reflexivity | discriminate].
Defined.

(** ** webrtc.ts: messages *)

(** X13. On an open data channel [sendMessage] sends the text with the
    sender and the time, and, when the send does not throw, appends the
    message, marked [isSelf], to the stored messages, persists the
    stored messages under the room and reports the message to the UI.
    When the send throws, the exception is swallowed and nothing is
    stored, persisted or reported. *)
Theorem sendMessage_on_open_channel
    (w : World) (message : string) (env : Env) (channel : RTCDataChannel) (room : string) :
  dataChannel (service w) = Some channel →
  readyState channel = dc_open →
  callbacks (service w) = PageCallbacks →
  svc_roomId (service w) = Some room → room ≠ "" →
  let sent := {| data := message; msg_senderId := senderOf (service w);
                 isSelf := true; msg_timestamp := now env |} in
  wp (WebRTC.sendMessage message env) w (λ w' t r,
    r = Returned tt
    ∧ if sendOk env
      then t = [DcSend message (senderOf (service w)) (now env); OnMessageReceived sent]
           ∧ storedMessages (service w') = storedMessages (service w) ++ [sent]
           ∧ Storage.getMessages room (storage w') = storedMessages (service w) ++ [sent]
      else t = [DcSend message (senderOf (service w)) (now env)] ∧ w' = w).
Proof.
  intros Hdc Hopen Hcbs Hroom Hne. pose proof (truthy_nonempty _ Hne) as Htr.
  cbv zeta. unfold WebRTC.sendMessage, senderOf. wp_steps. rewrite Hdc, Hopen.
  rewrite bool_decide_eq_true_2 by reflexivity. cbn [negb]. wp_steps.
  destruct (sendOk env); wp_steps; [| done].
  unfold WebRTC.persistMessages. wp_steps. rewrite Hroom, Htr. wp_steps.
  rewrite Hcbs. wp_steps. try rewrite Hcbs. wp_steps.
  repeat split. unfold Storage.getMessages. cbn [MESSAGES_KEY].
  rewrite lookup_insert_eq. reflexivity.
Qed.

Lemma sendMessage_on_open_channel_witness :
  let w := world_of (run [(PageMounts "r1" "alice" (7 # 10)%Q, fair 1000);
                          (TimerFires FallbackTimer, fair 4000);
                          (DataChannelOpen, fair 4500)]
                         (initialWorld emptyStorage)) in
  wp (WebRTC.sendMessage "hello" (fair 5000)) w (λ w' t r,
    r = Returned tt
    ∧ t = [DcSend "hello" "alice" 5000;
           OnMessageReceived {| data := "hello"; msg_senderId := "alice";
                                isSelf := true; msg_timestamp := 5000 |}]
    ∧ storedMessages (service w')
      = [{| data := "hello"; msg_senderId := "alice";
            isSelf := true; msg_timestamp := 5000 |}]
    ∧ Storage.getMessages "r1" (storage w')
      = [{| data := "hello"; msg_senderId := "alice";
            isSelf := true; msg_timestamp := 5000 |}]).
Proof.
  intros w.
  apply (sendMessage_on_open_channel w "hello" (fair 5000) {| readyState := dc_open |} "r1");
    first [reflexivity | discriminate].
Defined.

(** X14. A message that arrives on the data channel is reported to the
    UI marked as not [isSelf], appended to the stored messages and
    persisted under the room, in that order.  A payload that is not JSON
    changes nothing: the exception of [JSON.parse] is swallowed. *)
Theorem incoming_message_is_stored
    (w : World) (parsed : option (string * string * Z)) (room : string) :
  callbacks (service w) = PageCallbacks →
  svc_roomId (service w) = Some room → room ≠ "" →
  wp (WebRTC.dataChannel_onmessage parsed) w (λ w' t r,
    r = Returned tt
    ∧ match parsed with
      | None => w' = w ∧ t = []
      | Some (text, sender, time) =>
          let received := {| data := text; msg_senderId := sender;
                             isSelf := false; msg_timestamp := time |} in
          t = [OnMessageReceived received]
          ∧ storedMessages (service w') = storedMessages (service w) ++ [received]
          ∧ Storage.getMessages room (storage w') = storedMessages (service w) ++ [received]
      end).
Proof.
  intros Hcbs Hroom Hne. pose proof (truthy_nonempty _ Hne) as Htr.
  unfold WebRTC.dataChannel_onmessage. destruct parsed as [[[text sender] time] |];
    wp_steps; [| done].
  rewrite Hcbs. wp_steps. unfold WebRTC.persistMessages. wp_steps.
  rewrite Hroom, Htr. wp_steps.
  repeat split. unfold Storage.getMessages. cbn [MESSAGES_KEY].
  rewrite lookup_insert_eq. reflexivity.
Qed.

Lemma incoming_message_is_stored_witness :
  let w := world_of (joins "bob" (3 # 10)%Q 1000 emptyStorage) in
  wp (WebRTC.dataChannel_onmessage (Some ("hello", "alice", 5000%Z))) w (λ w' t r,
    r = Returned tt
    ∧ t = [OnMessageReceived {| data := "hello"; msg_senderId := "alice";
                                isSelf := false; msg_timestamp := 5000 |}]
    ∧ storedMessages (service w')
      = [{| data := "hello"; msg_senderId := "alice";
            isSelf := false; msg_timestamp := 5000 |}]
    ∧ Storage.getMessages "r1" (storage w')
      = [{| data := "hello"; msg_senderId := "alice";
            isSelf := false; msg_timestamp := 5000 |}]).
Proof.
  intros w.
  apply (incoming_message_is_stored w (Some ("hello", "alice", 5000%Z)) "r1");
    first [reflexivity | discriminate].
Defined.

(** X15. From one service to the other.  What [sendMessage] puts on the
    channel, handed to [onmessage] of the peer, is reported there with
    the same text, sender and time as on the sending side, [isSelf] on
    the sending side and not on the receiving side, and each side has
    the message last in its stored messages. *)
Theorem message_round_trip
    (sender receiver : World) (message : string) (env : Env) (channel : RTCDataChannel) :
  dataChannel (service sender) = Some channel →
  readyState channel = dc_open →
  sendOk env = true →
  callbacks (service sender) = PageCallbacks →
  callbacks (service receiver) = PageCallbacks →
  wp (WebRTC.sendMessage message env) sender (λ sender' t _,
    ∃ text from time own,
      t = [DcSend text from time; OnMessageReceived own]
      ∧ wp (WebRTC.dataChannel_onmessage (Some (text, from, time))) receiver
          (λ receiver' t' r',
            ∃ theirs,
              t' = [OnMessageReceived theirs]
              ∧ messageKey theirs = messageKey own
              ∧ data theirs = message
              ∧ isSelf own = true ∧ isSelf theirs = false
              ∧ last (storedMessages (service sender')) = Some own
              ∧ last (storedMessages (service receiver')) = Some theirs
              ∧ r' = Returned tt)).
Proof.
  intros Hdc Hopen Hok Hcs Hcr.
  unfold WebRTC.sendMessage. wp_steps. rewrite Hdc, Hopen.
  rewrite bool_decide_eq_true_2 by reflexivity. cbn [negb]. wp_steps.
  rewrite Hok. wp_steps.
  unfold WebRTC.persistMessages.
  assert (Hrecv : ∀ text from time,
    wp (WebRTC.dataChannel_onmessage (Some (text, from, time))) receiver
       (λ w' t r,
          let theirs := {| data := text; msg_senderId := from;
                           isSelf := false; msg_timestamp := time |} in
          t = [OnMessageReceived theirs]
          ∧ storedMessages (service w') = storedMessages (service receiver) ++ [theirs]
          ∧ r = Returned tt)).
  { intros text from time. unfold WebRTC.dataChannel_onmessage. wp_steps.
    rewrite Hcr. wp_steps. unfold WebRTC.persistMessages. wp_auto; repeat split. }
  wp_auto; try congruence;
    (do 4 eexists; split; [reflexivity |]);
    (eapply wp_mono; [apply Hrecv |]);
    cbv beta zeta; intros w' t' r' (-> & Hst & ->);
    (eexists; split; [reflexivity |]);
    rewrite Hst; repeat split; apply last_snoc.
Qed.

Lemma message_round_trip_witness :
  let sender := world_of (run [(PageMounts "r1" "alice" (7 # 10)%Q, fair 1000);
                               (TimerFires FallbackTimer, fair 4000);
                               (DataChannelOpen, fair 4500)]
                              (initialWorld emptyStorage)) in
  let receiver := world_of (joins "bob" (3 # 10)%Q 1001 emptyStorage) in
  wp (WebRTC.sendMessage "hello" (fair 5000)) sender (λ sender' t _,
    ∃ text from time own,
      t = [DcSend text from time; OnMessageReceived own]
      ∧ wp (WebRTC.dataChannel_onmessage (Some (text, from, time))) receiver
          (λ receiver' t' r',
            ∃ theirs,
              t' = [OnMessageReceived theirs]
              ∧ messageKey theirs = messageKey own
              ∧ data theirs = "hello"
              ∧ isSelf own = true ∧ isSelf theirs = false
              ∧ last (storedMessages (service sender')) = Some own
              ∧ last (storedMessages (service receiver')) = Some theirs
              ∧ r' = Returned tt)).
Proof.
  intros sender receiver.
  apply (message_round_trip sender receiver "hello" (fair 5000) {| readyState := dc_open |});
    reflexivity.
Defined.

(** ** webrtc.ts: candidates after the description, lost transports *)

(** X16. Once the remote description is set, an ice-candidate envelope
    is handed to the connection at once.  When the connection accepts it
    the service is unchanged; when it rejects it the candidate is put at
    the end of the pending queue, and the handler still returns. *)
Theorem candidate_after_description_is_applied
    (w : World) (message : SignalMessage) (env : Env)
    (c : RTCIceCandidate) (pc : RTCPeerConnection) :
  type message = ice_candidate →
  content message = IceCandidateInit c →
  peerConnection (service w) = Some pc →
  remoteDescriptionSet (service w) = true →
  wp (WebRTC.handleSignalingMessage message env) w (λ w' t r,
    r = Returned tt
    ∧ t = [PcAddIceCandidate (pcId pc) c]
    ∧ if addIceCandidateOk env then w' = w
      else pendingIceCandidates (service w') = pendingIceCandidates (service w) ++ [c]
           ∧ remoteDescriptionSet (service w') = true
           ∧ peerConnection (service w') = Some pc).
Proof.
  intros Hty Hc Hpc Hflag. unfold WebRTC.handleSignalingMessage. rewrite Hty.
  wp_steps. rewrite Hpc. wp_steps.
  unfold WebRTC.newRTCIceCandidate. rewrite Hc. wp_steps. rewrite Hflag. cbn [negb].
  wp_steps. unfold WebRTC.pc_addIceCandidate. wp_steps. rewrite Hpc. wp_steps.
  destruct (addIceCandidateOk env); wp_steps; [done |].
  rewrite ?Hc. wp_steps. rewrite ?Hflag, ?Hpc. done.
Qed.

Lemma candidate_after_description_is_applied_witness :
  let w := world_of (run [(RelayFrame (envelope offer (SessionDescription "sdp-a") "alice"),
                           fair 2000)]
                         (world_of (joins "bob" (3 # 10)%Q 1000 emptyStorage))) in
  wp (WebRTC.handleSignalingMessage
        (envelope ice_candidate (IceCandidateInit "c1") "alice") (fair 2100)) w
     (λ w' t r, r = Returned tt ∧ t = [PcAddIceCandidate 0 "c1"] ∧ w' = w).
Proof.
  intros w.
  apply (candidate_after_description_is_applied w
           (envelope ice_candidate (IceCandidateInit "c1") "alice") (fair 2100)
           "c1" {| pcId := 0; signalingState := stable |});
    reflexivity.
Defined.

(** X17. While the session is not active, a lost transport or a closed
    data channel starts no reconnection: no timer is set, the attempt
    counter and the peer connection stay as they are. *)
Theorem inactive_session_never_reconnects (w : World) (ev : Event) (env : Env) :
  isSessionActive (service w) = false →
  (∃ s, ev = IceConnectionStateChange s) ∨ ev = DataChannelClose →
  wp (handle ev env) w (λ w' t _,
    scheduled t = []
    ∧ timers w' = timers w
    ∧ reconnectAttempts (service w') = reconnectAttempts (service w)
    ∧ isReconnecting (service w') = isReconnecting (service w)
    ∧ peerConnection (service w') = peerConnection (service w)).
Proof.
  intros Hact [[s ->] | ->]; unfold handle.
  - unfold WebRTC.oniceconnectionstatechange, WebRTC.handleDisconnection.
    wp_steps. destruct (peerConnection (service w)) eqn:Hpc, s; wp_steps;
      rewrite ?Hact; cbn [negb]; wp_steps; rewrite ?Hpc; done.
  - unfold channel_becomes, WebRTC.dataChannel_onclose, WebRTC.callback.
    wp_steps.
    destruct (dataChannel (service w)) eqn:Hdc, (callbacks (service w)) eqn:Hcbs;
      wp_steps; rewrite ?Hcbs; wp_steps; rewrite ?Hact, ?andb_false_r; wp_steps; done.
Qed.

Lemma inactive_session_never_reconnects_witness :
  let w := world_of (run [(UserEndsSession, fair 2000)]
                         (world_of (joins "bob" (3 # 10)%Q 1000 emptyStorage))) in
  wp (handle DataChannelClose (fair 3000)) w (λ w' t _,
    scheduled t = []
    ∧ timers w' = timers w
    ∧ reconnectAttempts (service w') = reconnectAttempts (service w)
    ∧ isReconnecting (service w') = isReconnecting (service w)
    ∧ peerConnection (service w') = peerConnection (service w)).
Proof.
  intros w.
  apply (inactive_session_never_reconnects w DataChannelClose (fair 3000));
    [reflexivity | right; reflexivity].
Defined.

(** X18. In an active session that is not yet reconnecting, a closed
    data channel is reported and starts a reconnection from the
    beginning: whatever the attempt counter was, it is 1 afterwards, the
    peer connection is closed and dropped, and one reconnect timer is
    set.  While a reconnection is under way the close is only
    reported. *)
Theorem channel_close_restarts_reconnection (w : World) :
  isSessionActive (service w) = true →
  callbacks (service w) = PageCallbacks →
  wp WebRTC.dataChannel_onclose w (λ w' t r,
    r = Returned tt
    ∧ if isReconnecting (service w)
      then t = [OnChannelStatusChange status_closed] ∧ w' = w
      else reconnectAttempts (service w') = 1
           ∧ isReconnecting (service w') = true
           ∧ peerConnection (service w') = None
           ∧ timers w' = timers w ++ [ReconnectTimer]
           ∧ t = OnChannelStatusChange status_closed
                 :: match peerConnection (service w) with
                    | Some pc => [PcClose (pcId pc)]
                    | None => []
                    end
                 ++ [SetTimeout ReconnectTimer reconnectionDelay]).
Proof.
  intros Hact Hcbs.
  unfold WebRTC.dataChannel_onclose, WebRTC.callback. wp_steps. rewrite Hcbs. wp_steps.
  rewrite Hact. destruct (isReconnecting (service w)) eqn:Hre; cbn [negb andb]; wp_steps;
    [done |].
  unfold WebRTC.attemptReconnection. wp_steps. rewrite Hre, Hact. cbn [negb orb].
  wp_steps. unfold WebRTC.handleDisconnection. wp_steps. rewrite ?Hact. cbn [negb].
  wp_steps. unfold WebRTC.closePeerConnection. wp_steps.
  destruct (peerConnection (service w)); wp_steps; done.
Qed.

Lemma channel_close_restarts_reconnection_witness :
  let w := world_of (run [(PageMounts "r1" "alice" (7 # 10)%Q, fair 1000);
                          (TimerFires FallbackTimer, fair 4000);
                          (DataChannelOpen, fair 4500)]
                         (initialWorld emptyStorage)) in
  wp WebRTC.dataChannel_onclose w (λ w' t r,
    r = Returned tt
    ∧ reconnectAttempts (service w') = 1
    ∧ isReconnecting (service w') = true
    ∧ peerConnection (service w') = None
    ∧ timers w' = timers w ++ [ReconnectTimer]
    ∧ t = [OnChannelStatusChange status_closed; PcClose 1;
           SetTimeout ReconnectTimer reconnectionDelay]).
Proof.
  intros w. apply (channel_close_restarts_reconnection w); reflexivity.
Defined.

(** ** The chat page: the list of messages *)

Lemma isDuplicate_spec (prev : list MessageEvent) (message : MessageEvent) :
  isDuplicate prev message = true ↔ messageKey message ∈ map messageKey prev.
Proof.
  unfold isDuplicate. rewrite existsb_exists, list_elem_of_fmap. split.
  - intros (msg & Hin & Heq). exists msg. split; [| by apply list_elem_of_In].
    apply andb_true_iff in Heq as [Heq Ht]. apply andb_true_iff in Heq as [Hd Hs].
    apply String.eqb_eq in Hd, Hs. apply Z.eqb_eq in Ht.
    unfold messageKey. congruence.
  - intros (msg & Heq & Hin). exists msg. split; [by apply list_elem_of_In |].
    unfold messageKey in Heq. injection Heq as Hd Hs Ht.
    rewrite Hd, Hs, Ht, !String.eqb_refl, Z.eqb_refl. reflexivity.
Qed.

(** X19. The updater the chat page gives to [setMessages]: a message
    whose text, sender and time are those of a message already listed is
    dropped, also when [isSelf] differs; any other message is appended.
    So a list without two messages of the same text, sender and time
    stays so, the messages already listed keep their places, and
    reporting a message twice is reporting it once. *)
Theorem onMessageReceived_drops_duplicates
    (prev : list MessageEvent) (message : MessageEvent) :
  (messageKey message ∈ map messageKey prev → onMessageReceived prev message = prev)
  ∧ (messageKey message ∉ map messageKey prev →
     onMessageReceived prev message = prev ++ [message])
  ∧ (NoDup (map messageKey prev) →
     NoDup (map messageKey (onMessageReceived prev message)))
  ∧ onMessageReceived (onMessageReceived prev message) message
    = onMessageReceived prev message.
Proof.
  pose proof (isDuplicate_spec prev message) as Hspec.
  unfold onMessageReceived at 1 2 3 5.
  destruct (isDuplicate prev message) eqn:Hdup.
  - split; [done |]. split; [| split; [done |]].
    + intros Hnot. destruct Hnot. by apply Hspec.
    + unfold onMessageReceived. by rewrite ?Hdup.
  - assert (Hnotin : messageKey message ∉ map messageKey prev).
    { intros Hin. apply Hspec in Hin. congruence. }
    split; [done |]. split; [done |]. split.
    + intros Hnd. rewrite map_app. apply NoDup_app. split; [done |]. split.
      * intros k Hk Hk'. cbn in Hk'. apply list_elem_of_singleton in Hk'. by subst.
      * cbn. apply NoDup_singleton.
    + unfold onMessageReceived.
      assert (Hnow : isDuplicate (prev ++ [message]) message = true).
      { apply isDuplicate_spec. rewrite map_app. apply elem_of_app. right.
        cbn. apply list_elem_of_singleton. reflexivity. }
      by rewrite Hnow, Hdup.
Qed.

(** ** webrtc.ts: cleanup, initialize, endSession *)

Lemma disconnect_resets (env : Env) (w : World) Q :
  (∀ w' t,
     service w' = service w → chat w' = chat w →
     timers w' = timers w → nextPcId w' = nextPcId w →
     signaling w' = afterDisconnect (signaling w) →
     storage_cleaned (now env) (storage w) (storage w') →
     t = (if stompClient (signaling w) then [StompDeactivate] else []) →
     Q w' t (Returned tt)) →
  wp (Signaling.disconnect env) w Q.
Proof.
  intros HQ. unfold Signaling.disconnect. wp_steps.
  assert (Hkeep : storage_cleaned (now env) (storage w) (storage w)).
  { repeat split. intros room Hroom. left. exact Hroom. }
  assert (Hleave : ∀ room' user,
    storage_cleaned (now env) (storage w)
      (Storage.updateRoomParticipants room' user false (now env) (storage w)).1).
  { intros room' user. repeat split. simpl_world. intros room Hroom.
    destruct (decide (room' = room)) as [-> | Hd].
    - right. rewrite lookup_insert_eq, Hroom. reflexivity.
    - left. rewrite lookup_insert_ne by exact Hd. exact Hroom. }
  unfold afterDisconnect in HQ.
  destruct (sig_roomId (signaling w)) as [room'|] eqn:Hr;
    [destruct (sig_userId (signaling w)) as [user|] eqn:Hu;
     [destruct (truthy (Some room') && truthy (Some user)) |] |];
    wp_steps;
    destruct (stompClient (signaling w)) eqn:Hs; wp_steps;
    apply HQ; try reflexivity; try exact Hkeep; try apply Hleave;
    destruct (signaling w); cbn in *; congruence.
Qed.

Lemma cleanup_resets (env : Env) (w : World) Q :
  (∀ w' t,
     service w' = afterCleanup (service w) → chat w' = chat w →
     timers w' = timers w → nextPcId w' = nextPcId w →
     signaling w' = afterDisconnect (signaling w) →
     storage_cleaned (now env) (storage w) (storage w') →
     t = teardownCalls w →
     Q w' t (Returned tt)) →
  wp (WebRTC.cleanup env) w Q.
Proof.
  intros HQ. unfold WebRTC.cleanup, teardownCalls in *. wp_steps.
  destruct (dataChannel (service w)) eqn:Hdc; wp_steps;
    destruct (peerConnection (service w)) eqn:Hpc; wp_steps;
    apply disconnect_resets; intros w' t Hsvc Hch Hti Hnx Hsg Hst Ht; simpl_world;
    apply HQ; try assumption;
    first [ rewrite Hsvc; reflexivity | subst t; simpl_world; rewrite ?Hdc, ?Hpc; reflexivity ].
Qed.

Lemma teardownCalls_isTeardown (w : World) : Forall isTeardown (teardownCalls w).
Proof.
  unfold teardownCalls.
  destruct (dataChannel (service w)), (peerConnection (service w)),
    (stompClient (signaling w)); cbn; repeat constructor.
Qed.

Lemma omap_teardown {A} (f : Effect → option A) (t : list Effect) :
  (∀ e, isTeardown e → f e = None) → Forall isTeardown t → omap f t = [].
Proof.
  intros Hf. induction 1 as [| e t He _ IH]; [reflexivity |].
  cbn. rewrite (Hf e He). exact IH.
Qed.

Lemma published_teardown (w : World) : published (teardownCalls w) = [].
Proof.
  apply omap_teardown; [| apply teardownCalls_isTeardown]. by intros [].
Qed.

Lemma scheduled_teardown (w : World) : scheduled (teardownCalls w) = [].
Proof.
  apply omap_teardown; [| apply teardownCalls_isTeardown]. by intros [].
Qed.

Lemma messagesReported_teardown (w : World) : messagesReported (teardownCalls w) = [].
Proof.
  apply omap_teardown; [| apply teardownCalls_isTeardown]. by intros [].
Qed.

Lemma sessionEnded_teardown (w : World) : sessionEnded (teardownCalls w) = [].
Proof.
  apply omap_teardown; [| apply teardownCalls_isTeardown]. by intros [].
Qed.

(** X20. [cleanup] only tears down.  It returns; the calls it makes are
    the close of the data channel, the close of the peer connection and
    the deactivation of the relay client, each only if there is one, in
    that order.  Afterwards the service has no connection, no channel,
    no stored message in memory, no pending candidate and a reconnection
    state as at the start, and keeps its room, nickname, callbacks, role
    and session flag; the relay client, if there is one, is disconnected
    without room and user and keeps the registered callback.  The
    session record and the persisted messages stay in the storage, and
    no pending timer is cancelled. *)
Theorem cleanup_only_tears_down (w : World) (env : Env) :
  wp (WebRTC.cleanup env) w (λ w' t r,
    r = Returned tt
    ∧ t = teardownCalls w
    ∧ Forall isTeardown t
    ∧ service w' = afterCleanup (service w)
    ∧ signaling w' = afterDisconnect (signaling w)
    ∧ SESSION_KEY (storage w') = SESSION_KEY (storage w)
    ∧ MESSAGES_KEY (storage w') = MESSAGES_KEY (storage w)
    ∧ timers w' = timers w
    ∧ chat w' = chat w).
Proof.
  apply cleanup_resets. intros w' t Hsvc Hch Hti Hnx Hsg (Hse & Hme & _) ->.
  repeat split; try assumption. apply teardownCalls_isTeardown.
Qed.

(** ** webrtc.ts and the chat page: initialize *)

Lemma for_each_callback {A} (f : A → Effect) (l : list A) (w : World) Q :
  callbacks (service w) = PageCallbacks →
  Q w (map f l) (Returned tt) →
  wp (for_each l (λ x, WebRTC.callback (f x))) w Q.
Proof.
  intros Hcbs. revert Q. induction l as [| x l IH]; intros Q HQ; cbn [for_each map].
  - wp_steps. exact HQ.
  - wp_steps. rewrite Hcbs. wp_steps. apply IH. exact HQ.
Qed.

Lemma messagesReported_app (t t' : list Effect) :
  messagesReported (t ++ t') = messagesReported t ++ messagesReported t'.
Proof. apply omap_app. Qed.

Lemma published_app (t t' : list Effect) : published (t ++ t') = published t ++ published t'.
Proof. apply omap_app. Qed.

Lemma scheduled_app (t t' : list Effect) : scheduled (t ++ t') = scheduled t ++ scheduled t'.
Proof. apply omap_app. Qed.

Lemma initialize_run (w : World) (room nick : string) (env : Env) Q :
  room ≠ "" → connectedWithIds w →
  (∀ w' t r,
     messagesReported t = Storage.getMessages room (storage w) →
     storedMessages (service w') = Storage.getMessages room (storage w) →
     MESSAGES_KEY (storage w') = MESSAGES_KEY (storage w) →
     svc_roomId (service w') = Some room →
     nickname (service w') = Some nick →
     callbacks (service w') = PageCallbacks →
     isSessionActive (service w') = true →
     isInitiator (service w') = false →
     SESSION_KEY (storage w')
     = Some {| session_roomId := room; session_userId := nick; active := true; startTime := now env |} →
     chat w' = chat w →
     (if connectOk env
      then r = Returned tt
           ∧ signaling w' = {| stompClient := true; connected := true;
                               messageCallback := Some ServiceHandler;
                               sig_roomId := Some room; sig_userId := Some nick |}
           ∧ peerConnection (service w')
             = Some {| pcId := nextPcId w; signalingState := stable |}
      else r = Threw ConnectError
           ∧ published t = [] ∧ scheduled t = []
           ∧ timers w' = timers w
           ∧ peerConnection (service w') = None
           ∧ messageCallback (signaling w') = messageCallback (signaling w)
           ∧ connected (signaling w') = false) →
     (nick ≠ "" → ∃ p, PARTICIPANTS_KEY (storage w') !! room = Some p ∧ nick ∈ users p) →
     Q w' t r) →
  wp (WebRTC.initialize room nick env) w Q.
Proof.
  intros Hne Hinv HQ. pose proof (truthy_nonempty _ Hne) as Htr.
  unfold WebRTC.initialize. wp_steps.
  apply cleanup_resets. intros w1 t1 Hsvc Hch Hti Hnx Hsg (Hse & Hme & Hpa) Ht1.
  assert (Hp : published t1 = []) by (subst t1; apply published_teardown).
  assert (Hs : scheduled t1 = []) by (subst t1; apply scheduled_teardown).
  assert (Hm : messagesReported t1 = []) by (subst t1; apply messagesReported_teardown).
  clear Ht1.
  assert (Hconn : connected (signaling w1) = false).
  { rewrite Hsg. unfold afterDisconnect. simpl_world.
    destruct (stompClient (signaling w)) eqn:Hst; [reflexivity |].
    destruct (connected (signaling w)) eqn:Hc; [| reflexivity].
    destruct (Hinv Hc) as [Hs' _]. congruence. }
  assert (Hcb : messageCallback (signaling w1) = messageCallback (signaling w)).
  { rewrite Hsg. unfold afterDisconnect. simpl_world.
    destruct (stompClient (signaling w)); reflexivity. }
  clear Hsg.
  destruct w1 as [st1 sg1 svc1 ch1 ts1 nx1]. cbn [storage signaling service chat timers nextPcId] in *.
  subst svc1 ch1 ts1 nx1. unfold afterCleanup. simpl_world.
  wp_steps.
  assert (Hget : ∀ se pa, Storage.getMessages room
                   {| SESSION_KEY := se; MESSAGES_KEY := MESSAGES_KEY st1;
                      PARTICIPANTS_KEY := pa |}
                 = Storage.getMessages room (storage w)).
  { intros se pa. unfold Storage.getMessages. cbn [MESSAGES_KEY]. rewrite Hme. reflexivity. }
  assert (Hjoin : ∀ d, nick ∈ users (Storage.updatedParticipants nick true (now env) d)).
  { intros d. unfold Storage.updatedParticipants.
    destruct (bool_decide _) eqn:Hin; cbn [users].
    - apply bool_decide_eq_true_1 in Hin. exact Hin.
    - apply elem_of_app. right. apply list_elem_of_singleton. reflexivity. }
  assert (Hrep : ∀ l, messagesReported (map OnMessageReceived l) = l).
  { induction l as [| x l IH]; [reflexivity |]. cbn. f_equal. exact IH. }
  assert (Hrp : ∀ l, published (map OnMessageReceived l) = []).
  { induction l as [| x l IH]; [reflexivity | exact IH]. }
  assert (Hrs : ∀ l, scheduled (map OnMessageReceived l) = []).
  { induction l as [| x l IH]; [reflexivity | exact IH]. }
  generalize dependent (Storage.getMessages room (storage w)). intros msgs HQ Hget.
  destruct (truthy (Some nick)) eqn:Htn; wp_steps;
    unfold WebRTC.loadStoredMessages; wp_steps; rewrite Htr; wp_steps;
    rewrite Hget;
    (destruct msgs as [| m l]; cbn [length Nat.ltb Nat.leb]; wp_steps;
     [| apply for_each_callback; [reflexivity |]]);
    unfold Signaling.connect; wp_steps; rewrite Hconn; wp_steps;
    (destruct (connectOk env) eqn:Hok; wp_connect; apply HQ;
     rewrite ?messagesReported_app, ?published_app, ?scheduled_app, ?Hp, ?Hs, ?Hm, ?Hrep;
     simpl_world; try reflexivity; try assumption;
     first [ by repeat split
           | cbn; rewrite ?app_nil_r; reflexivity
           | rewrite ?Hrp, ?Hrs; by repeat split
           | intros _; eexists; split; [apply lookup_insert_eq | apply Hjoin]
           | intros Hn; apply truthy_nonempty in Hn; congruence
           ]).
Qed.

(** X21. [initialize] brings back the messages persisted for the room:
    it reports them to the UI in the order they were stored, and they
    are the stored messages of the service afterwards, whether the relay
    is reached or not.  The service is then in the room under the
    nickname, active, as receiver; the session record is saved as
    active.  When the relay is reached [initialize] returns with a
    fresh, stable peer connection and its own handler registered at the
    relay client; when it is not, [initialize] throws and there is no
    peer connection. *)
Theorem initialize_replays_persisted_messages
    (w : World) (room nick : string) (env : Env) :
  room ≠ "" → connectedWithIds w →
  wp (WebRTC.initialize room nick env) w (λ w' t r,
    messagesReported t = Storage.getMessages room (storage w)
    ∧ storedMessages (service w') = Storage.getMessages room (storage w)
    ∧ Storage.getMessages room (storage w') = Storage.getMessages room (storage w)
    ∧ svc_roomId (service w') = Some room
    ∧ nickname (service w') = Some nick
    ∧ isSessionActive (service w') = true
    ∧ isInitiator (service w') = false
    ∧ Storage.getSession (storage w')
      = Some {| session_roomId := room; session_userId := nick;
                active := true; startTime := now env |}
    ∧ if connectOk env
      then r = Returned tt
           ∧ peerConnection (service w')
             = Some {| pcId := nextPcId w; signalingState := stable |}
           ∧ messageCallback (signaling w') = Some ServiceHandler
      else r = Threw ConnectError ∧ peerConnection (service w') = None).
Proof.
  intros Hne Hinv. apply initialize_run; [exact Hne | exact Hinv |].
  intros w' t r Hrep Hst Hme Hroom Hnick Hcbs Hact Hini Hse Hch Hout Hpa.
  repeat (split; [first [assumption | unfold Storage.getMessages; by rewrite Hme] |]).
  destruct (connectOk env).
  - destruct Hout as (-> & Hsg & Hpc). rewrite Hsg. done.
  - destruct Hout as (-> & _ & _ & _ & Hpc & _). done.
Qed.

Lemma initialize_replays_persisted_messages_witness :
  let hello := {| data := "hello"; msg_senderId := "alice";
                  isSelf := true; msg_timestamp := 5000 |} in
  let hi := {| data := "hi"; msg_senderId := "bob";
               isSelf := false; msg_timestamp := 5100 |} in
  let st := Storage.saveMessages "r1" [hello; hi] emptyStorage in
  Storage.getMessages "r1" st = [hello; hi]
  ∧ wp (WebRTC.initialize "r1" "alice" (fair 9000)) (initialWorld st) (λ w' t r,
      messagesReported t = Storage.getMessages "r1" (storage (initialWorld st))
      ∧ storedMessages (service w') = Storage.getMessages "r1" (storage (initialWorld st))
      ∧ Storage.getMessages "r1" (storage w')
        = Storage.getMessages "r1" (storage (initialWorld st))
      ∧ svc_roomId (service w') = Some "r1"
      ∧ nickname (service w') = Some "alice"
      ∧ isSessionActive (service w') = true
      ∧ isInitiator (service w') = false
      ∧ Storage.getSession (storage w')
        = Some {| session_roomId := "r1"; session_userId := "alice";
                  active := true; startTime := now (fair 9000) |}
      ∧ if connectOk (fair 9000)
        then r = Returned tt
             ∧ peerConnection (service w')
               = Some {| pcId := nextPcId (initialWorld st); signalingState := stable |}
             ∧ messageCallback (signaling w') = Some ServiceHandler
        else r = Threw ConnectError ∧ peerConnection (service w') = None).
Proof.
  intros hello hi st. split; [vm_compute; reflexivity |].
  exact (initialize_replays_persisted_messages (initialWorld st) "r1" "alice" (fair 9000)
           ltac:(discriminate) ltac:(intros Hc; discriminate Hc)).
Defined.

(** X22. What mounting the chat page does.  [initializeChat] never
    throws and stores the random value with the role not yet taken.
    When the relay is reached, the last envelope it publishes is the
    election token with that value and the time, the callback of the
    page replaces the one of the service at the relay client, and the
    fallback timer is the last timer set.  When the relay is not
    reached, the page sets the connection status to closed last, and
    nothing was published, no timer set and no peer connection made;
    the session stays active and recorded. *)
Theorem initializeChat_outcomes
    (w : World) (room nick : string) (value : Q) (env : Env) :
  room ≠ "" → nick ≠ "" → connectedWithIds w →
  wp (Chat.initializeChat room nick value env) w (λ w' t r,
    r = Returned tt
    ∧ randomValue (chat w') = value
    ∧ actualInitiator (chat w') = false
    ∧ isSessionActive (service w') = true
    ∧ Storage.getSession (storage w')
      = Some {| session_roomId := room; session_userId := nick;
                active := true; startTime := now env |}
    ∧ if connectOk env
      then last (published t)
           = Some {| type := initiator_selection;
                     content := ElectionToken value (now env);
                     roomId := room; senderId := nick |}
           ∧ messageCallback (signaling w') = Some ChatHandler
           ∧ last (scheduled t) = Some FallbackTimer
           ∧ last (timers w') = Some FallbackTimer
      else last t = Some (SetConnectionStatus status_closed)
           ∧ published t = [] ∧ scheduled t = []
           ∧ timers w' = timers w
           ∧ peerConnection (service w') = None
           ∧ messageCallback (signaling w') = messageCallback (signaling w)).
Proof.
  intros Hne Hnn Hinv. pose proof (truthy_nonempty _ Hne) as Htr.
  pose proof (truthy_nonempty _ Hnn) as Htn.
  unfold Chat.initializeChat. wp_steps.
  apply initialize_run; [exact Hne | exact Hinv |].
  intros w' t r Hrep Hst Hme Hroom Hnick Hcbs Hact Hini Hse Hch Hout Hpa.
  cbv [with_chat] in Hch. cbn [chat randomValue actualInitiator connectionStatus] in Hch.
  destruct (connectOk env).
  - destruct Hout as (-> & Hsg & Hpc). wp_steps.
    unfold Signaling.sendSignalMessage, Signaling.onSignalMessage. wp_steps.
    rewrite Hsg. simpl_world. rewrite Htr, Htn. simpl_world. wp_steps.
    rewrite Hch, Hact. unfold Storage.getSession. rewrite Hse.
    repeat split.
    + rewrite published_app. cbn. apply last_snoc.
    + rewrite scheduled_app. cbn. apply last_snoc.
    + apply last_snoc.
  - destruct Hout as (-> & Hp & Hs & Hti & Hpc & Hcb & Hconn). wp_steps.
    rewrite Hch, Hact. unfold Storage.getSession. rewrite Hse.
    repeat split; try assumption.
    + apply last_snoc.
    + rewrite published_app, Hp. reflexivity.
    + rewrite scheduled_app, Hs. reflexivity.
Qed.

Lemma initializeChat_outcomes_witness :
  let w := initialWorld emptyStorage in
  let env := {| now := 1000; connectOk := false; createOfferResult := None;
                createAnswerResult := None; setLocalDescriptionOk := true;
                setRemoteDescriptionOk := true; addIceCandidateOk := true;
                sendOk := true |} in
  wp (Chat.initializeChat "r1" "alice" (7 # 10)%Q env) w (λ w' t r,
    r = Returned tt
    ∧ randomValue (chat w') = (7 # 10)%Q
    ∧ actualInitiator (chat w') = false
    ∧ isSessionActive (service w') = true
    ∧ Storage.getSession (storage w')
      = Some {| session_roomId := "r1"; session_userId := "alice";
                active := true; startTime := 1000 |}
    ∧ last t = Some (SetConnectionStatus status_closed)
    ∧ published t = [] ∧ scheduled t = []
    ∧ timers w' = timers w
    ∧ peerConnection (service w') = None
    ∧ messageCallback (signaling w') = messageCallback (signaling w)).
Proof.
  intros w env.
  apply (initializeChat_outcomes w "r1" "alice" (7 # 10)%Q env);
    [discriminate | discriminate | intros Hc; discriminate Hc].
Defined.

(** ** webrtc.ts: ending the session, one negotiation *)

(** X23. Ending the session locally.  [endSession] returns without an
    exception and reports the end of the session once, as not ended by
    the peer.  The only envelopes it publishes are end-session notices,
    and it publishes exactly one, before the relay client is
    disconnected, when the client is connected with a room and a user.
    Afterwards the session is inactive, the room has no persisted
    messages and no recorded participant, the session record is gone,
    and the service is torn down: no connection, no channel, no stored
    message in memory. *)
Theorem endSession_clears_room (w : World) (room : string) (env : Env) :
  callbacks (service w) = PageCallbacks →
  svc_roomId (service w) = Some room → room ≠ "" →
  wp (WebRTC.endSession env) w (λ w' t r,
    r = Returned tt
    ∧ sessionEnded t = [false]
    ∧ Forall (λ m, type m = end_session) (published t)
    ∧ (∀ sroom user,
         connected (signaling w) = true → stompClient (signaling w) = true →
         sig_roomId (signaling w) = Some sroom → sroom ≠ "" →
         sig_userId (signaling w) = Some user → user ≠ "" →
         published t = [{| type := end_session;
                           content := EndSessionNotice (now env) "Session ended by peer";
                           roomId := sroom; senderId := user |}])
    ∧ isSessionActive (service w') = false
    ∧ Storage.getMessages room (storage w') = []
    ∧ SESSION_KEY (storage w') = None
    ∧ (PARTICIPANTS_KEY (storage w') !! room = None
       ∨ PARTICIPANTS_KEY (storage w') !! room
         = Some {| count := 0; users := []; lastUpdated := now env |})
    ∧ peerConnection (service w') = None
    ∧ dataChannel (service w') = None
    ∧ storedMessages (service w') = []
    ∧ (stompClient (signaling w) = true → connected (signaling w') = false)).
Proof.
  intros Hcbs Hroom Hne. pose proof (truthy_nonempty _ Hne) as Htr.
  assert (Hpub : ∀ sroom user,
    connected (signaling w) = true → stompClient (signaling w) = true →
    sig_roomId (signaling w) = Some sroom → sroom ≠ "" →
    sig_userId (signaling w) = Some user → user ≠ "" →
    wp (WebRTC.endSession env) w (λ _ t _,
      published t = [{| type := end_session;
                        content := EndSessionNotice (now env) "Session ended by peer";
                        roomId := sroom; senderId := user |}])).
  { intros sroom user Hc Hs Hr Hrne Hu Hune.
    pose proof (truthy_nonempty _ Hrne) as Htr'.
    pose proof (truthy_nonempty _ Hune) as Htu'.
    unfold WebRTC.endSession, Signaling.isConnected, Signaling.endSession,
      Signaling.sendSignalMessage.
    wp_steps. rewrite Hcbs, Hroom, Hc, Hs. unfold when. cbn [andb]. wp_steps.
    rewrite ?Hc, ?Hs, ?Hr, ?Hu, ?Htr', ?Htu'. cbn [andb orb negb]. wp_steps.
    rewrite ?Hc, ?Hs, ?Hr, ?Hu, ?Htr', ?Htu'. cbn [andb orb negb]. wp_steps.
    rewrite ?Htr. wp_steps.
    apply cleanup_resets; intros w' t _ _ _ _ _ _ ->.
    match goal with
    | |- context [teardownCalls ?W] =>
        pose proof (published_teardown W) as Htp;
        generalize dependent (teardownCalls W); intros tdn Htp
    end.
    unfold published in *. cbn. rewrite Htp. reflexivity. }
  cut (wp (WebRTC.endSession env) w (λ w' t r,
    r = Returned tt
    ∧ sessionEnded t = [false]
    ∧ Forall (λ m, type m = end_session) (published t)
    ∧ isSessionActive (service w') = false
    ∧ Storage.getMessages room (storage w') = []
    ∧ SESSION_KEY (storage w') = None
    ∧ (PARTICIPANTS_KEY (storage w') !! room = None
       ∨ PARTICIPANTS_KEY (storage w') !! room
         = Some {| count := 0; users := []; lastUpdated := now env |})
    ∧ peerConnection (service w') = None
    ∧ dataChannel (service w') = None
    ∧ storedMessages (service w') = []
    ∧ (stompClient (signaling w) = true → connected (signaling w') = false))).
  { unfold wp in *. intros (H1 & H2 & H3 & H4).
    split; [exact H1 |]. split; [exact H2 |]. split; [exact H3 |].
    split; [| exact H4].
    intros sroom user Hc Hs Hr Hrne Hu Hune.
    exact (Hpub sroom user Hc Hs Hr Hrne Hu Hune). }
  clear Hpub.
  unfold WebRTC.endSession, Signaling.isConnected, Signaling.endSession,
    Signaling.sendSignalMessage.
  wp_steps. rewrite Hcbs, Hroom. unfold when.
  wp_auto; try congruence.
  all: apply cleanup_resets; intros w' t Hsvc Hch Hti Hnx Hsg (Hse & Hme & Hpa) ->.
  all: match goal with
       | |- context [teardownCalls ?W] =>
           pose proof (sessionEnded_teardown W) as Hte;
           pose proof (published_teardown W) as Htp;
           generalize dependent (teardownCalls W); intros tdn Hte Htp
       end.
  all: split; [reflexivity |].
  all: split; [unfold sessionEnded in *; cbn; rewrite ?Hte; reflexivity |].
  all: split; [unfold published in *; cbn; rewrite ?Htp; repeat constructor |].
  all: split; [rewrite Hsvc; reflexivity |].
  all: split; [unfold Storage.getMessages; rewrite Hme; cbn [storage MESSAGES_KEY];
               rewrite lookup_delete_eq; reflexivity |].
  all: split; [rewrite Hse; reflexivity |].
  all: split; [apply Hpa; cbn [storage PARTICIPANTS_KEY]; apply lookup_delete_eq |].
  all: do 3 (split; [rewrite Hsvc; reflexivity |]).
  all: intros Hs; rewrite Hsg; unfold afterDisconnect; cbn [signaling]; rewrite Hs; reflexivity.
Qed.

Lemma endSession_clears_room_witness :
  let w := world_of (joins "alice" (7 # 10)%Q 1000 emptyStorage) in
  let env := fair 2000 in
  wp (WebRTC.endSession env) w (λ w' t r,
    r = Returned tt
    ∧ sessionEnded t = [false]
    ∧ Forall (λ m, type m = end_session) (published t)
    ∧ (∀ sroom user,
         connected (signaling w) = true → stompClient (signaling w) = true →
         sig_roomId (signaling w) = Some sroom → sroom ≠ "" →
         sig_userId (signaling w) = Some user → user ≠ "" →
         published t = [{| type := end_session;
                           content := EndSessionNotice (now env) "Session ended by peer";
                           roomId := sroom; senderId := user |}])
    ∧ isSessionActive (service w') = false
    ∧ Storage.getMessages "r1" (storage w') = []
    ∧ SESSION_KEY (storage w') = None
    ∧ (PARTICIPANTS_KEY (storage w') !! "r1" = None
       ∨ PARTICIPANTS_KEY (storage w') !! "r1"
         = Some {| count := 0; users := []; lastUpdated := now env |})
    ∧ peerConnection (service w') = None
    ∧ dataChannel (service w') = None
    ∧ storedMessages (service w') = []
    ∧ (stompClient (signaling w) = true → connected (signaling w') = false)).
Proof.
  intros w env.
  exact (endSession_clears_room w "r1" env eq_refl eq_refl ltac:(discriminate)).
Defined.

(** X24. One negotiation, from the offer to the answer.  The initiator,
    connected to the relay, makes its connection and publishes an offer;
    the offer, handled by a receiver whose connection is [stable],
    becomes its remote description, the pending candidates of the
    receiver are applied, and the receiver publishes an answer; the
    answer, handled by the initiator, becomes its remote description.
    Then both connections are [stable] with the remote description set,
    each side applied the description the other created, the initiator
    is still the initiator, and no handler threw. *)
Theorem offer_answer_round_trip
    (caller callee : World) (envC envR envA : Env)
    (room callerUser calleeUser : string) (offerDesc answerDesc : SDP)
    (pcR : RTCPeerConnection) :
  connected (signaling caller) = true → stompClient (signaling caller) = true →
  sig_roomId (signaling caller) = Some room → room ≠ "" →
  sig_userId (signaling caller) = Some callerUser → callerUser ≠ "" →
  connected (signaling callee) = true → stompClient (signaling callee) = true →
  sig_roomId (signaling callee) = Some room →
  sig_userId (signaling callee) = Some calleeUser → calleeUser ≠ "" →
  peerConnection (service callee) = Some pcR → signalingState pcR = stable →
  createOfferResult envC = Some offerDesc → setLocalDescriptionOk envC = true →
  setRemoteDescriptionOk envR = true →
  createAnswerResult envR = Some answerDesc → setLocalDescriptionOk envR = true →
  setRemoteDescriptionOk envA = true →
  wp (WebRTC.createPeerConnectionAsInitiator envC) caller (λ caller1 t1 r1,
    r1 = Returned tt
    ∧ ∃ offerMsg,
        published t1 = [offerMsg]
        ∧ offerMsg = {| type := offer; content := SessionDescription offerDesc;
                        roomId := room; senderId := callerUser |}
        ∧ wp (WebRTC.handleSignalingMessage offerMsg envR) callee (λ callee1 t2 r2,
            r2 = Returned tt
            ∧ appliedCandidates t2
              = map (pair (pcId pcR)) (pendingIceCandidates (service callee))
            ∧ PcSetRemoteDescription (pcId pcR) offerDesc ∈ t2
            ∧ peerConnection (service callee1)
              = Some {| pcId := pcId pcR; signalingState := stable |}
            ∧ remoteDescriptionSet (service callee1) = true
            ∧ pendingIceCandidates (service callee1) = []
            ∧ ∃ answerMsg,
                published t2 = [answerMsg]
                ∧ answerMsg = {| type := answer; content := SessionDescription answerDesc;
                                 roomId := room; senderId := calleeUser |}
                ∧ wp (WebRTC.handleSignalingMessage answerMsg envA) caller1
                    (λ caller2 t3 r3,
                      r3 = Returned tt
                      ∧ t3 = [PcSetRemoteDescription (nextPcId caller) answerDesc]
                      ∧ peerConnection (service caller2)
                        = Some {| pcId := nextPcId caller; signalingState := stable |}
                      ∧ remoteDescriptionSet (service caller2) = true
                      ∧ isInitiator (service caller2) = true))).
Proof.
  intros Hc Hs Hr Hrne Hu Hune Hc' Hs' Hr' Hu' Hune' Hpc Hst
    Hoffer HlocalC HremoteR Hanswer HlocalR HremoteA.
  pose proof (truthy_nonempty _ Hrne) as Htr.
  pose proof (truthy_nonempty _ Hune) as Htu.
  pose proof (truthy_nonempty _ Hune') as Htu'.
  assert (Hpm : ∀ id l, published (map (PcAddIceCandidate id) l) = []).
  { intros id l. induction l as [| c l IH]; [reflexivity | exact IH]. }
  unfold WebRTC.createPeerConnectionAsInitiator, Signaling.isConnected,
    Signaling.sendSignalMessage.
  destruct (peerConnection (service caller)) as [pc0 |] eqn:Hpc0;
    wp_steps; rewrite ?Hpc0; wp_steps; rewrite ?Hc, ?Hs; cbn [andb negb]; wp_steps;
    rewrite ?Hoffer; wp_steps; rewrite ?HlocalC; wp_steps;
    rewrite ?Hc, ?Hs, ?Hr, ?Hu, ?Htr, ?Htu; cbn [andb orb negb]; wp_steps.
  all: split; [reflexivity |]; eexists; split; [reflexivity |]; split; [reflexivity |].
  all: unfold WebRTC.handleSignalingMessage at 1; cbn [type content].
  all: repeat progress
         (wp_steps;
          rewrite ?Hpc, ?Hst, ?HremoteR, ?Hanswer, ?HlocalR, ?Hc', ?Hs', ?Hr', ?Hu',
            ?Htr, ?Htu';
          cbn [andb orb negb type content];
          rewrite ?bool_decide_eq_true_2 by reflexivity).
  all: eapply processPendingIceCandidates_spec; [reflexivity | reflexivity |].
  all: simpl_world; unfold Signaling.isConnected, Signaling.sendSignalMessage.
  all: repeat progress
         (wp_steps;
          rewrite ?Hpc, ?Hst, ?HremoteR, ?Hanswer, ?HlocalR, ?Hc', ?Hs', ?Hr', ?Hu',
            ?Htr, ?Htu';
          cbn [andb orb negb type content];
          rewrite ?bool_decide_eq_true_2 by reflexivity).
  all: split; [reflexivity |].
  all: split; [unfold appliedCandidates; cbn; rewrite omap_app; cbn; rewrite app_nil_r;
               apply appliedCandidates_flush |].
  all: split; [constructor |].
  all: do 3 (split; [reflexivity |]).
  all: eexists; split; [| split; [reflexivity |]];
         [unfold published; cbn; rewrite omap_app; cbn;
          fold (published (map (PcAddIceCandidate (pcId pcR))
                              (pendingIceCandidates (service callee))));
          rewrite Hpm; reflexivity |].
  all: unfold WebRTC.handleSignalingMessage, WebRTC.processPendingIceCandidates;
         cbn [type content].
  all: repeat progress
         (wp_steps; rewrite ?HremoteA;
          cbn [andb orb negb type content];
          rewrite ?bool_decide_eq_true_2 by reflexivity).
  all: repeat split.
Qed.

Lemma offer_answer_round_trip_witness :
  let caller := world_of (joins "alice" (7 # 10)%Q 1000 emptyStorage) in
  let callee := world_of (joins "bob" (3 # 10)%Q 1001 emptyStorage) in
  let pcBob := {| pcId := 0; signalingState := stable |} in
  wp (WebRTC.createPeerConnectionAsInitiator (fair 2000)) caller (λ caller1 t1 r1,
    r1 = Returned tt
    ∧ ∃ offerMsg,
        published t1 = [offerMsg]
        ∧ offerMsg = {| type := offer; content := SessionDescription "sdp-offer";
                        roomId := "r1"; senderId := "alice" |}
        ∧ wp (WebRTC.handleSignalingMessage offerMsg (fair 2100)) callee (λ callee1 t2 r2,
            r2 = Returned tt
            ∧ appliedCandidates t2
              = map (pair (pcId pcBob)) (pendingIceCandidates (service callee))
            ∧ PcSetRemoteDescription (pcId pcBob) "sdp-offer" ∈ t2
            ∧ peerConnection (service callee1)
              = Some {| pcId := pcId pcBob; signalingState := stable |}
            ∧ remoteDescriptionSet (service callee1) = true
            ∧ pendingIceCandidates (service callee1) = []
            ∧ ∃ answerMsg,
                published t2 = [answerMsg]
                ∧ answerMsg = {| type := answer; content := SessionDescription "sdp-answer";
                                 roomId := "r1"; senderId := "bob" |}
                ∧ wp (WebRTC.handleSignalingMessage answerMsg (fair 2200)) caller1
                    (λ caller2 t3 r3,
                      r3 = Returned tt
                      ∧ t3 = [PcSetRemoteDescription (nextPcId caller) "sdp-answer"]
                      ∧ peerConnection (service caller2)
                        = Some {| pcId := nextPcId caller; signalingState := stable |}
                      ∧ remoteDescriptionSet (service caller2) = true
                      ∧ isInitiator (service caller2) = true))).
Proof.
  intros caller callee pcBob.
  apply (offer_answer_round_trip caller callee (fair 2000) (fair 2100) (fair 2200)
           "r1" "alice" "bob" "sdp-offer" "sdp-answer" pcBob);
    first [reflexivity | discriminate].
Defined.
